(** * The violin block of d3blocks

    A shallow embedding of [d3blocks/violin/Violin.py]: the configuration
    builder [set_config], the label extractor [set_labels] with
    [set_node_properties], the data preparer [set_edge_properties] and the
    renderer [show] with [get_data_ready_for_d3] and [write_html].

    Python objects that the code shares and mutates (the configuration
    dict, the DataFrame handed to [show]) live in a store and are passed by
    location.  Exceptions, the log and the output files are threaded through
    a small state and error monad. *)

From Stdlib Require Import List String Ascii Bool Arith ZArith Lia.
From Stdlib Require Import Floats DecimalString Sorting Permutation.
Import ListNotations.

Set Warnings "-register-all".
Open Scope string_scope.
Open Scope list_scope.

(** ** Python values *)

(** The values that travel through the module: configuration options, table
    cells and keyword arguments.  A sequence is a Python list; a numpy
    array, which carries a dtype of its own, is read as the list of its
    items where only its length and its items count. *)
Inductive value : Type :=
| VNone
| VBool (b : bool)
| VInt (z : Z)
| VFloat (f : float)
| VStr (s : string)
| VList (l : list value).

Definition is_None (v : value) : bool :=
  match v with VNone => true | _ => false end.

(** Truth value of an object, as [and] and [if] test it. *)
Definition truthy (v : value) : bool :=
  match v with
  | VNone => false
  | VBool b => b
  | VInt z => negb (z =? 0)%Z
  | VFloat f => negb (PrimFloat.eqb f 0%float)
  | VStr s => negb (s =? "")
  | VList l => match l with [] => false | _ => true end
  end.

(** pandas' [isna] on one cell: [None] and NaN are missing. *)
Definition isna (v : value) : bool :=
  match v with
  | VNone => true
  | VFloat f => PrimFloat.is_nan f
  | _ => false
  end.

(** The cell test behind [df['tooltip'] == '']. *)
Definition eq_empty_str (v : value) : bool :=
  match v with VStr s => s =? "" | _ => false end.

(** ** Insertion-ordered dictionaries *)

Module Dict.
Section Ops.
Context {V : Type}.

Definition t := list (string * V).

Definition empty : t := [].

Fixpoint get (k : string) (d : t) : option V :=
  match d with
  | [] => None
  | (k', v) :: d' => if k' =? k then Some v else get k d'
  end.

(** [d[k] = v]: an existing key keeps its place, a new one goes last. *)
Fixpoint set (k : string) (v : V) (d : t) : t :=
  match d with
  | [] => [(k, v)]
  | (k', v') :: d' =>
      if k' =? k then (k, v) :: d' else (k', v') :: set k v d'
  end.

Definition keys (d : t) : list string := map fst d.

Definition mem (k : string) (d : t) : bool :=
  match get k d with Some _ => true | None => false end.
End Ops.
Arguments t : clear implicits.
End Dict.

(** [kwargs.get(k, default)] *)
Definition kwargs_get (kwargs : Dict.t value) (k : string) (default : value)
  : value :=
  match Dict.get k kwargs with Some v => v | None => default end.

(** ** Strings *)

Definition dquote : string := String (ascii_of_nat 34) "".

Definition nat_str (n : nat) : string := NilZero.string_of_uint (Nat.to_uint n).

Definition Z_str (z : Z) : string := NilZero.string_of_int (Z.to_int z).

Fixpoint chars (s : string) : list string :=
  match s with
  | EmptyString => []
  | String c s' => String c "" :: chars s'
  end.

Fixpoint has_char (c : ascii) (s : string) : bool :=
  match s with
  | EmptyString => false
  | String c' s' => Ascii.eqb c c' || has_char c s'
  end.


Definition hex_digit (n : nat) : string :=
  String (ascii_of_nat (if n <? 10 then 48 + n else 87 + n)%nat) "".

(** One character of [repr(s)] when [q] is the quote chosen for [s]. *)
Definition repr_char (q c : ascii) : string :=
  let n := nat_of_ascii c in
  if Ascii.eqb c q || Ascii.eqb c "\"%char then String "\"%char (String c "")
  else if (n =? 10)%nat then "\n"
  else if (n =? 13)%nat then "\r"
  else if (n =? 9)%nat then "\t"
  else if ((n <? 32) || (n =? 127))%nat
       then "\x" ++ hex_digit (n / 16) ++ hex_digit (n mod 16)
  else String c "".

Fixpoint repr_chars (q : ascii) (s : string) : string :=
  match s with
  | EmptyString => ""
  | String c s' => repr_char q c ++ repr_chars q s'
  end.

(** Python's [repr] of a [str] of ASCII characters: single quotes unless the
    text has a single quote and no double quote.  Beyond ASCII the escapes
    of [repr] follow the Unicode tables, and an object of another class
    than [str] has a [repr] of its own; in the module [repr] is therefore a
    collaborator, and this function serves the sample collaborators. *)
Definition ascii_repr (s : string) : string :=
  let q := if has_char "'"%char s && negb (has_char (ascii_of_nat 34) s)
           then ascii_of_nat 34 else "'"%char in
  String q (repr_chars q s ++ String q "").

(** ** Regular expressions

    [Series.str.contains(pat)] compiles [pat] with [re] and searches it in
    every cell.  The engine is a collaborator (see [Externals]); what the
    module contributes is the pattern, its categories joined by a bar.  A
    text without metacharacters, read as a pattern, stands for itself:
    [literal_pattern] holds of these texts. *)

Definition bar : ascii := "|"%char.

Definition regex_special (c : ascii) : bool :=
  has_char c ".^$*+?{}[]\|()".


(** ** Tables *)

(** One row of the record set.  The category [x] is a text; every other
    cell is a Python value.  [r_y_object] is the dtype of the column that
    holds the [y] cell: with dtype object ([true]) the cell is the Python
    object itself, otherwise it is a scalar of numpy (int64, uint64, float64,
    bool).  Selecting rows keeps the dtype of a column, so it goes with the
    row. *)
Record row : Type := mkRow {
  r_x : string;
  r_y : value;
  r_color : value;
  r_size : value;
  r_stroke : value;
  r_opacity : value;
  r_tooltip : value;
  r_y_object : bool
}.

(** A DataFrame: its rows in order, each under its index label. *)
Definition frame : Type := list (nat * row).

Definition index_labels (df : frame) : list nat := map fst df.
Definition rows (df : frame) : list row := map snd df.
Definition col_x (df : frame) : list string := map r_x (rows df).
Definition col_y (df : frame) : list value := map r_y (rows df).

(** [df['y'].dtype == object] *)
Definition y_object (df : frame) : bool := existsb r_y_object (rows df).
Definition col_tooltip (df : frame) : list value := map r_tooltip (rows df).

(** [df.loc[mask, :]] for a mask computed row by row: labels are kept. *)
Definition loc_rows (keep : row -> bool) (df : frame) : frame :=
  filter (fun ir => keep (snd ir)) df.

(** [df.reset_index(drop=True)] *)
Definition reset_index (df : frame) : frame :=
  combine (seq 0 (List.length df)) (rows df).

(** The row with another [y] cell, in a column of dtype object. *)
Definition set_y (v : value) (r : row) : row :=
  mkRow (r_x r) v (r_color r) (r_size r) (r_stroke r) (r_opacity r)
        (r_tooltip r) true.

Definition set_color (v : value) (r : row) : row :=
  mkRow (r_x r) (r_y r) v (r_size r) (r_stroke r) (r_opacity r)
        (r_tooltip r) (r_y_object r).

(** ** Exceptions, the store and the monad *)

(** [Exception] is the class the module raises itself; the others come from
    the interpreter, from pandas, from numpy and from [re] ([ReError] is
    [re.error]).  [Dangling] is no Python exception: it marks a location
    that names no object of the store, which no caller can produce. *)
Inductive exn : Type :=
| Exception
| AttributeError
| TypeError
| ValueError
| KeyError
| IndexError
| OverflowError
| ReError
| Dangling.

Inductive outcome (A : Type) : Type :=
| Ok (a : A)
| Raise (e : exn).
Arguments Ok {A} a.
Arguments Raise {A} e.

Inductive level : Type := INFO | ERROR.

Definition loc : Type := nat.

(** What a call can read and change: the dict objects and the DataFrame
    objects by location, the files by path, and the records logged so far. *)
Record world : Type := mkWorld {
  dicts : list (Dict.t value);
  frames : list frame;
  files : Dict.t string;
  log : list (level * string)
}.

Definition M (A : Type) : Type := world -> outcome A * world.

Definition ret {A} (a : A) : M A := fun w => (Ok a, w).

Definition raise {A} (e : exn) : M A := fun w => (Raise e, w).

Definition bind {A B} (m : M A) (k : A -> M B) : M B :=
  fun w =>
    match m w with
    | (Ok a, w') => k a w'
    | (Raise e, w') => (Raise e, w')
    end.

Notation "x <- m ;; k" := (bind m (fun x => k))
  (at level 61, m at next level, right associativity).
Notation "m ;; k" := (bind m (fun _ => k))
  (at level 61, right associativity).

Definition lift {A} (o : outcome A) : M A := fun w => (o, w).

(** Sequencing of computations that touch no store. *)
Definition and_then {A B} (o : outcome A) (k : A -> outcome B) : outcome B :=
  match o with
  | Ok a => k a
  | Raise e => Raise e
  end.

Notation "x <~ o ;; k" := (and_then o (fun x => k))
  (at level 61, o at next level, right associativity).

(** [if c: body] *)
Definition when (c : bool) (body : M unit) : M unit :=
  if c then body else ret tt.

Fixpoint list_set {A} (n : nat) (a : A) (l : list A) : list A :=
  match l, n with
  | [], _ => []
  | _ :: l', O => a :: l'
  | b :: l', S n' => b :: list_set n' a l'
  end.

Definition getdict (c : loc) : M (Dict.t value) :=
  fun w =>
    match nth_error (dicts w) c with
    | Some d => (Ok d, w)
    | None => (Raise Dangling, w)
    end.

Definition putdict (c : loc) (d : Dict.t value) : M unit :=
  fun w =>
    (Ok tt, mkWorld (list_set c d (dicts w)) (frames w) (files w) (log w)).

(** [config[k]] *)
Definition getitem (c : loc) (k : string) : M value :=
  d <- getdict c ;;
  match Dict.get k d with
  | Some v => ret v
  | None => raise KeyError
  end.

(** [config[k] = v], on the object itself. *)
Definition setitem (c : loc) (k : string) (v : value) : M unit :=
  d <- getdict c ;;
  putdict c (Dict.set k v d).

Definition getframe (l : loc) : M frame :=
  fun w =>
    match nth_error (frames w) l with
    | Some df => (Ok df, w)
    | None => (Raise Dangling, w)
    end.

Definition putframe (l : loc) (df : frame) : M unit :=
  fun w =>
    (Ok tt, mkWorld (dicts w) (list_set l df (frames w)) (files w) (log w)).

Definition write_file (path content : string) : M unit :=
  fun w =>
    (Ok tt, mkWorld (dicts w) (frames w) (Dict.set path content (files w))
                    (log w)).

Definition remove_file (path : string) : M unit :=
  fun w =>
    (Ok tt, mkWorld (dicts w) (frames w)
                    (filter (fun kv => negb (fst kv =? path)) (files w))
                    (log w)).

Definition isfile (path : string) : M bool :=
  fun w => (Ok (Dict.mem path (files w)), w).

(** *** The logger *)

(** The [logger] argument: [None], or a logger whose records go to the log. *)
Inductive logger : Type := LoggerNone | Logger.

Definition is_logger (lg : logger) : bool :=
  match lg with Logger => true | LoggerNone => false end.

Definition emit (lv : level) (msg : string) : M unit :=
  fun w =>
    (Ok tt, mkWorld (dicts w) (frames w) (files w) (log w ++ [(lv, msg)])).

(** [logger.info(msg)]: on [None] the attribute lookup fails. *)
Definition logger_info (lg : logger) (msg : string) : M unit :=
  match lg with
  | Logger => emit INFO msg
  | LoggerNone => raise AttributeError
  end.

(** [logger.error(msg)] *)
Definition logger_error (lg : logger) (msg : string) : M unit :=
  match lg with
  | Logger => emit ERROR msg
  | LoggerNone => raise AttributeError
  end.

(** [raise Exception(logger.error(msg))]: the argument is evaluated first. *)
Definition raise_logged {A} (lg : logger) (msg : string) : M A :=
  logger_error lg msg ;; raise Exception.

(** ** Collaborators outside the module

    Functions of [d3blocks.utils], of [colourmap], of pandas, of [re], of
    jinja2 and of the interpreter that the module calls.  Nothing is assumed
    about what they compute. *)
Class Externals : Type := {
  (** [utils.set_path] *)
  set_path : value -> value;
  (** [utils.pre_processing] on a sequence of labels; [None] is Python's. *)
  pre_processing : list string -> option (list string);
  (** [colourmap.fromlist(values, scheme='hex', cmap=cmap)[0]] *)
  fromlist : list value -> value -> list value;
  (** [re.compile(pat)] succeeds: [pat] is a well-formed regular
      expression. *)
  re_compiles : string -> bool;
  (** [re.search(pat, s) is not None] for a well-formed [pat]. *)
  re_search : string -> string -> bool;
  (** [repr] of a [str]. *)
  repr_str : string -> string;
  (** [repr] of a label, a key of the label properties: of a [str] as
      [repr_str], of a [numpy.str_] what numpy prints for it. *)
  repr_label : string -> string;
  (** [str] of a float, as [astype(str)] writes it. *)
  float_str : float -> string;
  (** [DataFrame.to_json(orient='records')] over the seven columns. *)
  to_json : frame -> string;
  (** Rendering [violin.html.j2] with the substitutions. *)
  render : Dict.t value -> string
}.

(** ** Sorting and numpy's [unique] *)

Fixpoint insert_str (a : string) (l : list string) : list string :=
  match l with
  | [] => [a]
  | b :: l' => if String.leb a b then a :: l else b :: insert_str a l'
  end.

Definition sort_str (l : list string) : list string :=
  fold_right insert_str [] l.

Fixpoint insert_nat (a : nat) (l : list nat) : list nat :=
  match l with
  | [] => [a]
  | b :: l' => if (a <=? b)%nat then a :: l else b :: insert_nat a l'
  end.

(** [sorted(indexes)] *)
Definition sorted (l : list nat) : list nat := fold_right insert_nat [] l.

(** The position at which [v] first appears in [l]. *)
Fixpoint first_index (v : string) (l : list string) : nat :=
  match l with
  | [] => 0
  | a :: l' => if a =? v then 0 else S (first_index v l')
  end.

(** [np.unique(l)]: the distinct values, sorted. *)
Definition np_unique (l : list string) : list string :=
  sort_str (nodup string_dec l).

(** [np.unique(l, return_index=True)[1]]: for each distinct value, in sorted
    order of the values, the position of its first occurrence. *)
Definition np_unique_index (l : list string) : list nat :=
  map (fun v => first_index v l) (np_unique l).

(** The values of a sequence in the order in which each is first seen. *)
Fixpoint first_occurrences (l : list string) : list string :=
  match l with
  | [] => []
  | a :: l' => a :: filter (fun b => negb (a =? b)) (first_occurrences l')
  end.

(** ** Numbers

    The numbers of table cells and what [Series.max()], [Series.min()] and
    the arithmetic of the renderer make of them.  In a column of dtype
    object the numbers are Python objects.  In any other column they are
    scalars of numpy: the ints of a column within the int64 range are
    numpy.int64, the bools are numpy.bool_, the floats numpy.float64; such
    a column with an int beyond the int64 range is a uint64 column, where
    the difference of the maximum and the minimum is the exact one, as it is
    for Python ints. *)

Definition int64_min : Z := Eval cbv in (- 2 ^ 63)%Z.
Definition int64_max : Z := Eval cbv in (2 ^ 63 - 1)%Z.
Definition uint64_max : Z := Eval cbv in (2 ^ 64 - 1)%Z.

Definition in_int64 (z : Z) : bool :=
  (int64_min <=? z)%Z && (z <=? int64_max)%Z.

Definition in_uint64 (z : Z) : bool :=
  (0 <=? z)%Z && (z <=? uint64_max)%Z.

(** The arithmetic of numpy.int64: a result out of range wraps around. *)
Definition wrap_int64 (z : Z) : Z :=
  ((z - int64_min) mod (uint64_max + 1) + int64_min)%Z.

(** The binary64 nearest to an integer, ties to even. *)
Definition of_Z (z : Z) : float :=
  SF2Prim (binary_normalize prec emax z 0 false).

(** The integers from here on round to no finite binary64: [float(z)] of a
    Python int raises [OverflowError]. *)
Definition float_limit : Z := Eval cbv in (2 ^ 1024 - 2 ^ 970)%Z.

(** A number as the reductions return it: a numpy.int64, a Python int (a
    Python bool counts as 0 or 1), or a float (numpy.float64 and the float
    of Python have the same arithmetic). *)
Inductive number : Type :=
| Int64 (z : Z)
| PyInt (z : Z)
| Float (f : float).

(** [f <= z] and [z <= f] for a float that is no NaN and an integer: Python
    compares the exact values. *)
Definition float_compare_Z (f : float) (z : Z) : comparison :=
  match Prim2SF f with
  | S754_nan => Eq
  | S754_zero _ => (0 ?= z)%Z
  | S754_infinity s => if s then Lt else Gt
  | S754_finite s m e =>
      let v := if s then Z.neg m else Z.pos m in
      if (0 <=? e)%Z then (v * 2 ^ e ?= z)%Z else (v ?= z * 2 ^ (- e))%Z
  end.

Definition number_leb (a b : number) : bool :=
  match a, b with
  | Float x, Float y => PrimFloat.leb x y
  | Float x, (Int64 z | PyInt z) =>
      match float_compare_Z x z with Gt => false | _ => true end
  | (Int64 z | PyInt z), Float y =>
      match float_compare_Z y z with Lt => false | _ => true end
  | (Int64 x | PyInt x), (Int64 y | PyInt y) => (x <=? y)%Z
  end.

(** The numbers of a column with their exact arithmetic, missing cells
    ([None], NaN) left out; [None] when a cell is a text or a list. *)
Fixpoint number_cells (col : list value) : option (list number) :=
  match col with
  | [] => Some []
  | v :: col' =>
      match number_cells col' with
      | None => None
      | Some r =>
          match v with
          | VNone => Some r
          | VBool b => Some (PyInt (Z.b2z b) :: r)
          | VInt z => Some (PyInt z :: r)
          | VFloat f => Some (if PrimFloat.is_nan f then r else Float f :: r)
          | VStr _ | VList _ => None
          end
      end
  end.

(** The cells of an int64 column: the column is not empty and all its cells
    are ints of the int64 range. *)
Fixpoint int64_cells (col : list value) : option (list Z) :=
  match col with
  | [] => Some []
  | VInt z :: col' =>
      if in_int64 z
      then match int64_cells col' with
           | Some r => Some (z :: r)
           | None => None
           end
      else None
  | _ :: _ => None
  end.

Definition is_bool (v : value) : bool :=
  match v with VBool _ => true | _ => false end.

(** The numbers that a reduction of the column runs over, for a column of
    dtype object and for any other.  A column with a text or a list, and a
    column of dtype bool, have a maximum and a minimum, or the comparison of
    their cells raises a [TypeError]; the arithmetic of the renderer on them
    raises a [TypeError] in any case, and nothing happens in between: the
    [TypeError] is raised here. *)
Definition object_numbers (col : list value) : outcome (list number) :=
  match number_cells col with
  | Some ns => Ok ns
  | None => Raise TypeError
  end.

Definition array_numbers (col : list value) : outcome (list number) :=
  match int64_cells col with
  | Some (z :: zs) => Ok (map Int64 (z :: zs))
  | _ =>
      if match col with [] => false | _ :: _ => forallb is_bool col end
      then Raise TypeError
      else object_numbers col
  end.

Definition series_numbers (object : bool) (col : list value)
  : outcome (list number) :=
  if object then object_numbers col else array_numbers col.

(** The larger and the smaller of two numbers, the first of them when they
    are equal, as numpy reduces. *)
Definition number_max (a b : number) : number :=
  if number_leb b a then a else b.

Definition number_min (a b : number) : number :=
  if number_leb a b then a else b.

Definition reduce (f : number -> number -> number) (l : list number)
  : number :=
  match l with
  | [] => Float nan
  | a :: l' => fold_left f l' a
  end.

(** [Series.max()] and [Series.min()]: missing cells are skipped and a
    column with no number gives NaN. *)
Definition series_max (object : bool) (col : list value) : outcome number :=
  match series_numbers object col with
  | Ok l => Ok (reduce number_max l)
  | Raise e => Raise e
  end.

Definition series_min (object : bool) (col : list value) : outcome number :=
  match series_numbers object col with
  | Ok l => Ok (reduce number_min l)
  | Raise e => Raise e
  end.

(** [float(a)], as the arithmetic with a float coerces [a]. *)
Definition to_float (a : number) : outcome float :=
  match a with
  | Int64 z => Ok (of_Z z)
  | PyInt z =>
      if (Z.abs z <? float_limit)%Z then Ok (of_Z z) else Raise OverflowError
  | Float f => Ok f
  end.

(** [a - b]: in int64 with wrap-around, in Python ints exactly, and in
    binary64 when one of the two is a float.  A Python int beside an int64
    is taken into int64 when it fits. *)
Definition number_sub (a b : number) : outcome number :=
  match a, b with
  | Int64 x, Int64 y => Ok (Int64 (wrap_int64 (x - y)))
  | PyInt x, PyInt y => Ok (PyInt (x - y))
  | Int64 x, PyInt y =>
      if in_int64 y then Ok (Int64 (wrap_int64 (x - y)))
      else Raise OverflowError
  | PyInt x, Int64 y =>
      if in_int64 x then Ok (Int64 (wrap_int64 (x - y)))
      else Raise OverflowError
  | _, _ =>
      match to_float a, to_float b with
      | Ok x, Ok y => Ok (Float (x - y))
      | Raise e, _ | _, Raise e => Raise e
      end
  end.

(** [a * f], [a - f] and [a + f] for a float [f]. *)
Definition number_mul_float (a : number) (f : float) : outcome float :=
  match to_float a with
  | Ok x => Ok (x * f)%float
  | Raise e => Raise e
  end.

Definition number_sub_float (a : number) (f : float) : outcome float :=
  match to_float a with
  | Ok x => Ok (x - f)%float
  | Raise e => Raise e
  end.

Definition number_add_float (a : number) (f : float) : outcome float :=
  match to_float a with
  | Ok x => Ok (x + f)%float
  | Raise e => Raise e
  end.

(** ** Sequences and subscripts *)

(** [len(v)] *)
Definition py_len (v : value) : outcome nat :=
  match v with
  | VList l => Ok (List.length l)
  | VStr s => Ok (String.length s)
  | _ => Raise TypeError
  end.

(** [v[i]] *)
Definition py_index (v : value) (i : nat) : outcome value :=
  match v with
  | VList l =>
      match nth_error l i with
      | Some a => Ok a
      | None => Raise IndexError
      end
  | VStr s =>
      match String.get i s with
      | Some c => Ok (VStr (String c ""))
      | None => Raise IndexError
      end
  | _ => Raise TypeError
  end.

Fixpoint all_str (l : list value) : option (list string) :=
  match l with
  | [] => Some []
  | VStr s :: l' =>
      match all_str l' with
      | Some r => Some (s :: r)
      | None => None
      end
  | _ :: _ => None
  end.

(** [sep.join(v)]: [v] is iterated, and every item must be a [str]. *)
Definition str_join (sep : string) (v : value) : outcome string :=
  match v with
  | VList l =>
      match all_str l with
      | Some ss => Ok (concat sep ss)
      | None => Raise TypeError
      end
  | VStr s => Ok (concat sep (chars s))
  | _ => Raise TypeError
  end.

(** [v == [None, None]] *)
Definition eq_None_None (v : value) : bool :=
  match v with
  | VList [VNone; VNone] => true
  | _ => false
  end.

(** The column pandas makes of a list.  Ints of the 64-bit ranges that
    stand beside a float or beside [None] become binary64, and [None]
    becomes NaN there (dtype float64).  A list of ints only (int64, uint64),
    of [None] only, with a text, a list or a bool, or with an int beyond 64
    bits, keeps its cells; it is of dtype object unless it holds floats
    only, ints of the int64 range only, ints of the uint64 range only or
    bools only. *)
Definition is_number_cell (v : value) : bool :=
  match v with VNone | VInt _ | VFloat _ => true | _ => false end.

Definition is_float (v : value) : bool :=
  match v with VFloat _ => true | _ => false end.

Definition is_int (v : value) : bool :=
  match v with VInt _ => true | _ => false end.

Definition int_fits (v : value) (range : Z -> bool) : bool :=
  match v with VInt z => range z | _ => true end.

Definition to_float64 (v : value) : value :=
  match v with
  | VNone => VFloat nan
  | VInt z => VFloat (of_Z z)
  | _ => v
  end.

Definition infer (col : list value) : list value :=
  if forallb is_number_cell col
     && (forallb (fun v => int_fits v in_int64) col
         || forallb (fun v => int_fits v in_uint64) col)
     && (existsb is_float col || existsb is_None col && existsb is_int col)
  then map to_float64 col
  else col.

(** [pd.DataFrame({...})]: a list is a column and must have the length of
    the others; anything else is repeated on every row. *)
Definition dtype_object (col : list value) : bool :=
  negb (forallb is_float col
        || forallb (fun v => is_int v && int_fits v in_int64) col
        || forallb (fun v => is_int v && int_fits v in_uint64) col
        || forallb is_bool col).

Definition column (n : nat) (v : value) : outcome (list value) :=
  match v with
  | VList l => if (List.length l =? n)%nat then Ok (infer l) else Raise ValueError
  | _ => Ok (repeat v n)
  end.

Definition DataFrame (x : list string) (y : list value)
  (color size stroke opacity tooltip : value) : outcome frame :=
  let n := List.length x in
  match column n (VList y), column n color, column n size, column n stroke,
        column n opacity, column n tooltip with
  | Ok ys, Ok cs, Ok ss, Ok ks, Ok os, Ok ts =>
      Ok (map (fun i =>
                 (i, mkRow (nth i x "") (nth i ys VNone) (nth i cs VNone)
                           (nth i ss VNone) (nth i ks VNone)
                           (nth i os VNone) (nth i ts VNone)
                           (dtype_object ys)))
              (seq 0 n))
  | _, _, _, _, _, _ => Raise ValueError
  end.

(** [df['color'] = values]: the column is replaced when the lengths agree. *)
Definition assign_color (values : list value) (df : frame) : outcome frame :=
  if (List.length values =? List.length df)%nat
  then Ok (map (fun irv => (fst (fst irv), set_color (snd irv) (snd (fst irv))))
               (combine df values))
  else Raise ValueError.

(** [isinstance(v, (list, np.ndarray)) and (len(v) != n)] *)
Definition array_of_other_length (v : value) (n : nat) : bool :=
  match v with
  | VList l => negb (List.length l =? n)%nat
  | _ => false
  end.

(** The defaults of the optional arguments of [set_edge_properties]. *)
Definition default_color : value := VNone.
Definition default_size : value := VInt 5.
Definition default_stroke : value := VStr "#ffffff".
Definition default_opacity : value := VFloat 0x1.999999999999ap-1%float.
Definition default_tooltip : value := VStr "".

(** Text of a double-quoted word inside a message. *)
Definition quoted (s : string) : string := dquote ++ s ++ dquote.

(** ** The module *)

Section Violin.
Context {E : Externals}.

(** [str(v)] and [repr(v)] *)
Fixpoint py_repr (v : value) : string :=
  match v with
  | VNone => "None"
  | VBool true => "True"
  | VBool false => "False"
  | VInt z => Z_str z
  | VFloat f => float_str f
  | VStr s => repr_str s
  | VList l => "[" ++ concat ", " (map py_repr l) ++ "]"
  end.

Definition py_str (v : value) : string :=
  match v with
  | VStr s => s
  | _ => py_repr v
  end.

(** *** Configuration *)

(** The dict object that the default [config={}] creates once, when the
    function is defined: every call without a [config] gets this one. *)
Definition set_config_default : loc := 0.

Definition set_config (config : option loc) (kwargs : Dict.t value)
  : M loc :=
  let config := match config with
                | Some c => c
                | None => set_config_default
                end in
  setitem config "chart" (VStr "violin") ;;
  setitem config "title" (kwargs_get kwargs "title" (VStr "Violin - D3blocks")) ;;
  setitem config "filepath"
    (set_path (kwargs_get kwargs "filepath" (VStr "violin.html"))) ;;
  setitem config "figsize" (kwargs_get kwargs "figsize" (VList [VNone; VNone])) ;;
  setitem config "showfig" (kwargs_get kwargs "showfig" (VBool true)) ;;
  setitem config "overwrite" (kwargs_get kwargs "overwrite" (VBool true)) ;;
  setitem config "bins" (kwargs_get kwargs "bins" (VInt 20)) ;;
  setitem config "cmap" (kwargs_get kwargs "cmap" (VStr "inferno")) ;;
  setitem config "ylim" (kwargs_get kwargs "ylim" (VList [VNone; VNone])) ;;
  setitem config "x_order" (kwargs_get kwargs "x_order" VNone) ;;
  setitem config "reset_properties"
    (kwargs_get kwargs "reset_properties" (VBool true)) ;;
  ret config.

(** *** Labels *)

(** The [labels] argument: a sequence, or a DataFrame with a column [x]. *)
Inductive labels_arg : Type :=
| LabelSeq (l : list string)
| LabelFrame (df : frame).

Definition set_labels (labels : labels_arg) (lg : logger)
  : M (list string) :=
  labels <- match labels with
            | LabelFrame df =>
                when (is_logger lg)
                  (logger_info lg
                     ("Collecting labels from DataFrame using the "
                        ++ quoted "x" ++ " columns.")) ;;
                ret (col_x df)
            | LabelSeq l => ret l
            end ;;
  match pre_processing labels with
  | None => raise_logged lg "Could not extract the labels!"
  | Some labels =>
      if (List.length labels <? 1)%nat
      then raise_logged lg "Could not extract the labels!"
      else
        let indexes := np_unique_index labels in
        ret (map (fun index => nth index labels "") (sorted indexes))
  end.

Record node : Type := mkNode { node_id : nat; node_label : string }.

(** [cmap] and [logger] are accepted and not used: [set_labels] is called
    without a logger. *)
Definition set_node_properties (labels : labels_arg) (cmap : value)
  (lg : logger) : M (Dict.t node) :=
  uilabel <- set_labels labels LoggerNone ;;
  ret (fold_left
         (fun dict_labels il =>
            Dict.set (snd il) (mkNode (fst il) (snd il)) dict_labels)
         (combine (seq 0 (List.length uilabel)) uilabel)
         Dict.empty).

(** *** The data preparer *)

Definition set_edge_properties (x : list string) (y : list value)
  (config : loc) (color size stroke opacity tooltip : value) (lg : logger)
  : M frame :=
  let n := List.length x in
  when (negb (n =? List.length y)%nat)
    (raise_logged lg
       ("input parameter " ++ quoted "x" ++ " should be of size of "
          ++ quoted "y" ++ ".")) ;;
  when (is_None size)
    (raise_logged lg
       ("input parameter " ++ quoted "size" ++ " should have value >0.")) ;;
  when (array_of_other_length size n)
    (raise_logged lg
       ("input parameter " ++ quoted "s"
          ++ " should be of same size of (x, y).")) ;;
  when (is_None stroke)
    (raise_logged lg
       ("input parameter " ++ quoted "stroke"
          ++ " should have hex value.")) ;;
  when (array_of_other_length stroke n)
    (raise_logged lg
       ("input parameter " ++ quoted "stroke"
          ++ " should be of same size of (x, y).")) ;;
  when (is_None opacity)
    (raise_logged lg
       ("input parameter " ++ quoted "opacity"
          ++ " should have value in range [0..1].")) ;;
  when (array_of_other_length opacity n)
    (raise_logged lg
       ("input parameter " ++ quoted "opacity"
          ++ " should be of same size of (x, y).")) ;;
  (* Convert to dataframe *)
  df <- lift (DataFrame x y color size stroke opacity tooltip) ;;
  (* Remove NaN values *)
  let Irem := map isna (col_y df) in
  df <- (if existsb (fun b => b) Irem
         then
           logger_info lg
             ("Removing [" ++ nat_str (List.length (filter (fun b => b) Irem))
                ++ "] NaN values.") ;;
           ret (loc_rows (fun r => negb (isna (r_y r))) df)
         else ret df) ;;
  (* Filter on class labels *)
  x_order <- getitem config "x_order" ;;
  df <- (if negb (is_None x_order)
         then
           classes <- lift (str_join "|" x_order) ;;
           (* df['x'].str: the column of an empty x is of dtype float64
              and has no string methods *)
           when (n =? 0)%nat (raise AttributeError) ;;
           (* .contains(classes): the pattern is compiled, then searched
              in every cell *)
           when (negb (re_compiles classes)) (raise ReError) ;;
           let df := loc_rows (fun r => re_search classes (r_x r)) df in
           logger_info lg ("Filter on: [" ++ classes ++ "]") ;;
           ret df
         else ret df) ;;
  (* Color on values and cmap (after cleaning and filtering) *)
  df <- (if is_None color
         then
           cmap <- getitem config "cmap" ;;
           lift (assign_color (fromlist (col_y df) cmap) df)
         else ret df) ;;
  let df := reset_index df in
  logger_info lg ("Number of samples: " ++ nat_str (List.length df)) ;;
  ret df.


(** *** Serialization *)

(** [df['y'] = df['y'].astype(str)] on the DataFrame object itself, then
    [to_json] of the seven columns. *)
Definition get_data_ready_for_d3 (df : loc) : M string :=
  d <- getframe df ;;
  let d' := map (fun ir => (fst ir, set_y (VStr (py_str (r_y (snd ir)))) (snd ir)))
                d in
  putframe df d' ;;
  ret (to_json d').

(** *** Writing the page *)

(** The template is found and rendered by jinja2 ([render]); the file system
    is a map from paths to contents on which removing and writing succeed.
    [time.sleep(0.5)] after the removal changes nothing in the store. *)
Definition write_html (X : string) (config : loc) (lg : logger) : M unit :=
  title <- getitem config "title" ;;
  figsize <- getitem config "figsize" ;;
  width <- lift (py_index figsize 0) ;;
  figsize <- getitem config "figsize" ;;
  height <- lift (py_index figsize 1) ;;
  ylim <- getitem config "ylim" ;;
  min_y <- lift (py_index ylim 0) ;;
  ylim <- getitem config "ylim" ;;
  max_y <- lift (py_index ylim 1) ;;
  x_order <- getitem config "x_order" ;;
  bins <- getitem config "bins" ;;
  figsize <- getitem config "figsize" ;;
  width_fig <- lift (py_index figsize 0) ;;
  figsize <- getitem config "figsize" ;;
  height_fig <- lift (py_index figsize 1) ;;
  mouseover <- getitem config "mouseover" ;;
  mousemove <- getitem config "mousemove" ;;
  mouseleave <- getitem config "mouseleave" ;;
  let content : Dict.t value :=
    [("json_data", VStr X); ("TITLE", title); ("WIDTH", width);
     ("HEIGHT", height); ("MIN_Y", min_y); ("MAX_Y", max_y);
     ("X_ORDER", x_order); ("BINS", bins); ("WIDTH_FIG", width_fig);
     ("HEIGHT_FIG", height_fig); ("MOUSEOVER", mouseover);
     ("MOUSEMOVE", mousemove); ("MOUSELEAVE", mouseleave)] in
  filepath <- getitem config "filepath" ;;
  index_file <- match filepath with
                | VStr p => ret p
                | _ => raise TypeError
                end ;;
  overwrite <- getitem config "overwrite" ;;
  present <- (if truthy overwrite then isfile index_file else ret false) ;;
  when present
    (when (is_logger lg)
       (logger_info lg
          ("File already exists and will be overwritten: ["
             ++ index_file ++ "]")) ;;
     remove_file index_file) ;;
  write_file index_file (render content).

(** *** The renderer *)

(** Modelled from the spec: [convert_dataframe_dict] of [d3blocks.utils],
    which [show] applies to both inputs, is not part of this module.  The
    spec has it accept the canonical container; a record set that is a table
    and label properties that are a mapping are handed on as they are, the
    same objects. *)
Definition convert_dataframe_dict {A} (X : A) (frame : bool) : A := X.

Definition spacing : float := 0x1.999999999999ap-4%float.

(** The two lines under the test of [ylim], which read the [y] column of
    the table (its dtype and its cells) and nothing else:
    [y_spacing = (df['y'].max() - df['y'].min()) * spacing] and
    [[df['y'].min() - y_spacing, df['y'].max() + y_spacing]]. *)
Definition padded_range (object : bool) (y : list value) : outcome value :=
  hi <~ series_max object y ;;
  lo <~ series_min object y ;;
  range <~ number_sub hi lo ;;
  y_spacing <~ number_mul_float range spacing ;;
  lo <~ series_min object y ;;
  low <~ number_sub_float lo y_spacing ;;
  hi <~ series_max object y ;;
  high <~ number_add_float hi y_spacing ;;
  Ok (VList [VFloat low; VFloat high]).

Definition mouseover_binding : string :=
  ".on(" ++ quoted "mouseover" ++ ", mouseover)".
Definition mousemove_binding : string :=
  ".on(" ++ quoted "mousemove" ++ ", mousemove)".
Definition mouseleave_binding : string :=
  ".on(" ++ quoted "mouseleave" ++ ", mouseleave)".

(** [str([*node_properties.keys()])]: the [repr] of every key, in the order
    of the dict, between brackets. *)
Definition str_of_keys {V} (node_properties : Dict.t V) : string :=
  "[" ++ concat ", " (map repr_label (Dict.keys node_properties)) ++ "]".

Definition show (df : loc) (config : loc) (node_properties : Dict.t node)
  (lg : logger) : M loc :=
  let node_properties := convert_dataframe_dict node_properties false in
  let df := convert_dataframe_dict df true in
  ylim <- getitem config "ylim" ;;
  auto_ylim <- (if eq_None_None ylim then ret true
                else n <- lift (py_len ylim) ;; ret (n =? 0)%nat) ;;
  when auto_ylim
    (d <- getframe df ;;
     ylim <- lift (padded_range (y_object d) (col_y d)) ;;
     setitem config "ylim" ylim) ;;
  (* Ordering the class node_properties *)
  x_order <- getitem config "x_order" ;;
  when (is_None x_order)
    (setitem config "x_order" (VStr (str_of_keys node_properties))) ;;
  (* config['figsize'][0] = ...: the item is assigned in the list object.
     A list that a dict holds is, in the store, held by this entry alone;
     the entry with the changed list is what the assignment leaves. *)
  figsize <- getitem config "figsize" ;;
  width <- lift (py_index figsize 0) ;;
  when (is_None width)
    (match figsize with
     | VList l =>
         setitem config "figsize"
           (VList (list_set 0
                     (VInt (Z.of_nat (List.length (Dict.keys node_properties))
                            * 95))
                     l))
     | _ => raise TypeError
     end) ;;
  figsize <- getitem config "figsize" ;;
  height <- lift (py_index figsize 1) ;;
  when (is_None height)
    (match figsize with
     | VList l => setitem config "figsize" (VList (list_set 1 (VInt 400) l))
     | _ => raise TypeError
     end) ;;
  (* Check whether tooltip is available. Otherwise remove the tooltip box. *)
  d <- getframe df ;;
  (if forallb eq_empty_str (col_tooltip d) || forallb isna (col_tooltip d)
   then
     setitem config "mouseover" (VStr "") ;;
     setitem config "mousemove" (VStr "") ;;
     setitem config "mouseleave" (VStr "")
   else
     setitem config "mouseover" (VStr mouseover_binding) ;;
     setitem config "mousemove" (VStr mousemove_binding) ;;
     setitem config "mouseleave" (VStr mouseleave_binding)) ;;
  (* Create the data from the input of javascript *)
  X <- get_data_ready_for_d3 df ;;
  (* Write to HTML *)
  write_html X config lg ;;
  (* Return config *)
  ret config.

End Violin.

(** ** Sample collaborators and inputs *)

(** [str] of a float that is a whole number of moderate size; used by the
    sample collaborators only. *)
Definition whole_float_str (f : float) : string :=
  match Prim2SF f with
  | S754_zero s => if s then "-0.0" else "0.0"
  | S754_infinity s => if s then "-inf" else "inf"
  | S754_nan => "nan"
  | S754_finite s m e =>
      let z := (if 0 <=? e then Z.pos m * 2 ^ e else Z.pos m / 2 ^ (- e))%Z in
      ((if s then "-" else "") ++ Z_str z ++ ".0")%string
  end.

(** A regular-expression engine for the samples.  It knows the patterns of
    ASCII characters in which the bar separates alternatives and the dot
    stands for any character but the newline, and refuses a pattern with
    another metacharacter; on the patterns it knows it does what [re]
    does. *)
Fixpoint alternatives (pat : string) : list string :=
  match pat with
  | EmptyString => [""]
  | String c pat' =>
      if Ascii.eqb c bar then "" :: alternatives pat'
      else match alternatives pat' with
           | a :: rest => String c a :: rest
           | [] => [String c ""]
           end
  end.

Definition dot : ascii := "."%char.

Definition match_char (c d : ascii) : bool :=
  if Ascii.eqb c dot then negb (nat_of_ascii d =? 10)%nat else Ascii.eqb c d.

(** [p] matches at the start of [s]. *)
Fixpoint match_here (p s : string) : bool :=
  match p, s with
  | EmptyString, _ => true
  | String _ _, EmptyString => false
  | String c p', String d s' => match_char c d && match_here p' s'
  end.

(** [p] matches somewhere in [s]. *)
Fixpoint match_inside (p s : string) : bool :=
  match_here p s ||
  match s with
  | EmptyString => false
  | String _ s' => match_inside p s'
  end.

Definition sample_search (pat s : string) : bool :=
  existsb (fun alt => match_inside alt s) (alternatives pat).

Fixpoint sample_compiles (pat : string) : bool :=
  match pat with
  | EmptyString => true
  | String c pat' =>
      (Ascii.eqb c bar || Ascii.eqb c dot || negb (regex_special c))
      && sample_compiles pat'
  end.

(** One choice of collaborators, to run the functions on concrete inputs. *)
Definition sample_externals : Externals := {|
  set_path := fun p => p;
  pre_processing := fun labels => Some labels;
  fromlist := fun values _ => map (fun _ => VStr "#000004") values;
  re_compiles := sample_compiles;
  re_search := sample_search;
  repr_str := ascii_repr;
  repr_label := ascii_repr;
  float_str := whole_float_str;
  to_json := fun df => ("[" ++ nat_str (List.length df) ++ " records]")%string;
  render := fun content =>
              match Dict.get "json_data" content with
              | Some (VStr X) => ("<html>" ++ X ++ "</html>")%string
              | _ => "<html></html>"
              end
|}.


(** A store with the default dict of [set_config] at location 0 and an empty
    dict of the caller at location 1. *)
Definition caller_world : world := mkWorld [[]; []] [] [] [].

(** The same store after [set_config(config)] on the caller's dict. *)
Definition configured_world : world :=
  snd (set_config (E := sample_externals) (Some 1) [] caller_world).

(** The configured store with one table: two rows, [y] 0 and 10. *)
Definition table_0_10 : frame :=
  [(0, mkRow "a" (VFloat 0) (VStr "#000004") (VInt 5) (VStr "#ffffff")
             (VFloat 0.5) (VStr "zero") false);
   (1, mkRow "b" (VFloat 10) (VStr "#000004") (VInt 5) (VStr "#ffffff")
             (VFloat 0.5) (VStr "") false)].

Definition render_world : world :=
  mkWorld (dicts configured_world) [table_0_10] [] [].

Definition two_nodes : Dict.t node :=
  [("a", mkNode 0 "a"); ("b", mkNode 1 "b")].



(** Tables with a given [y] column, of ints (dtype int64 or uint64), of
    Python ints (dtype object) and of floats, and the configured store with
    one table. *)
Definition ints_table (zs : list Z) : frame :=
  combine (seq 0 (List.length zs))
    (map (fun z => mkRow "a" (VInt z) (VStr "#000004") (VInt 5)
                     (VStr "#ffffff") (VFloat 0.5) (VStr "") false)
         zs).

Definition objects_table (zs : list Z) : frame :=
  combine (seq 0 (List.length zs))
    (map (fun z => mkRow "a" (VInt z) (VStr "#000004") (VInt 5)
                     (VStr "#ffffff") (VFloat 0.5) (VStr "") true)
         zs).

Definition floats_table (ys : list float) : frame :=
  combine (seq 0 (List.length ys))
    (map (fun f => mkRow "a" (VFloat f) (VStr "#000004") (VInt 5)
                     (VStr "#ffffff") (VFloat 0.5) (VStr "") false)
         ys).

Definition table_world_of (fr : frame) : world :=
  mkWorld (dicts configured_world) [fr] [] [].


(** A table of two rows, one tooltip empty and the other missing. *)
Definition mixed_tooltip_table : frame :=
  [(0, mkRow "a" (VFloat 0) (VStr "#000004") (VInt 5) (VStr "#ffffff")
             (VFloat 0.5) (VStr "") false);
   (1, mkRow "b" (VFloat 10) (VStr "#000004") (VInt 5) (VStr "#ffffff")
             (VFloat 0.5) VNone false)].

Definition mixed_tooltip_world : world :=
  mkWorld (dicts configured_world) [mixed_tooltip_table] [] [].

(** ** Notions used in the statements *)

(** The sequence of labels an argument of [set_labels] stands for. *)
Definition raw_labels (labels : labels_arg) : list string :=
  match labels with
  | LabelSeq l => l
  | LabelFrame df => col_x df
  end.

(** The label properties of a list of unique labels: every label, in order,
    under itself as key, with its position as id. *)
Definition label_properties (uilabel : list string) : Dict.t node :=
  map (fun il => (snd il, mkNode (fst il) (snd il)))
      (combine (seq 0 (List.length uilabel)) uilabel).

(** The input fails one of the seven checks of the data preparer. *)
Definition invalid_input (x : list string) (y : list value)
  (size stroke opacity : value) : bool :=
  negb (List.length x =? List.length y)%nat
  || is_None size || array_of_other_length size (List.length x)
  || is_None stroke || array_of_other_length stroke (List.length x)
  || is_None opacity || array_of_other_length opacity (List.length x).

(** [config[k]] read off a store, when the object and the key exist. *)
Definition config_item (w : world) (c : loc) (k : string) : option value :=
  match nth_error (dicts w) c with
  | Some d => Dict.get k d
  | None => None
  end.

(** Two stores that differ at most in the log. *)
Definition same_objects (w w' : world) : Prop :=
  dicts w' = dicts w /\ frames w' = frames w /\ files w' = files w.

(** The rows that have a [y]. *)
Definition drop_missing (df : frame) : frame :=
  loc_rows (fun r => negb (isna (r_y r))) df.


(** The categories of the rows that have a [y], as the caller gave them. *)
Definition categories_with_y (x : list string) (y : list value)
  : list string :=
  map fst (filter (fun xy => negb (isna (snd xy))) (combine x y)).

(** A Python int among the numbers is of the int64 range; and it is one
    that the coercion to float takes. *)
Definition within_int64 (a : number) : Prop :=
  match a with PyInt z => in_int64 z = true | _ => True end.

Definition coercible (a : number) : Prop :=
  match a with PyInt z => (Z.abs z < float_limit)%Z | _ => True end.

(** The largest and the smallest of a list of integers, and of a list of
    floats. *)
Definition largest (hi : Z) (zs : list Z) : Prop :=
  In hi zs /\ Forall (fun z => (z <= hi)%Z) zs.

Definition smallest (lo : Z) (zs : list Z) : Prop :=
  In lo zs /\ Forall (fun z => (lo <= z)%Z) zs.

Definition largest_float (hi : float) (ys : list float) : Prop :=
  In hi ys /\ Forall (fun y => PrimFloat.leb y hi = true) ys.

Definition smallest_float (lo : float) (ys : list float) : Prop :=
  In lo ys /\ Forall (fun y => PrimFloat.leb lo y = true) ys.

(** The floats that are numbers. *)
Definition not_nan (ys : list float) : list float :=
  filter (fun f => negb (PrimFloat.is_nan f)) ys.

(** A row without its colour, the one column the preparer may rewrite. *)
Definition uncoloured (r : row) : row := set_color VNone r.

(** The dict object a call of [set_config] works on. *)
Definition config_object (config : option loc) : loc :=
  match config with
  | Some c => c
  | None => set_config_default
  end.

(** The options that take the override or else the default, with the
    defaults; [chart] is fixed and [filepath] goes through [set_path]. *)
Definition option_defaults : Dict.t value :=
  [("title", VStr "Violin - D3blocks");
   ("figsize", VList [VNone; VNone]);
   ("showfig", VBool true);
   ("overwrite", VBool true);
   ("bins", VInt 20);
   ("cmap", VStr "inferno");
   ("ylim", VList [VNone; VNone]);
   ("x_order", VNone);
   ("reset_properties", VBool true)].

Definition recognized_options : list string :=
  "chart" :: "filepath" :: Dict.keys option_defaults.

(** A computation leaves an observation of the store as it was, whether it
    returns or raises. *)
Definition preserves {A T} (f : world -> T) (m : M A) : Prop :=
  forall w, f (snd (m w)) = f w.

(** The test of the renderer: all tooltips are the empty text, or all are
    missing. *)
Definition tooltips_off (df : frame) : bool :=
  forallb eq_empty_str (col_tooltip df) || forallb isna (col_tooltip df).

(** Every tooltip is the empty text or missing. *)
Definition no_tooltip (df : frame) : bool :=
  forallb (fun v => eq_empty_str v || isna v) (col_tooltip df).

(** A table with every [y] replaced by its text. *)
Definition y_as_str {E : Externals} (df : frame) : frame :=
  map (fun ir => (fst ir, set_y (VStr (py_str (r_y (snd ir)))) (snd ir))) df.

(** A column of numbers: every cell is a float, an int of the int64 range
    or missing.  [numbers] gives the floats and the ints as floats, missing
    cells skipped, and [None] for every other column; the statements use it
    as the test for such a column. *)
Fixpoint numbers (col : list value) : option (list float) :=
  match col with
  | [] => Some []
  | v :: col' =>
      match numbers col' with
      | None => None
      | Some r =>
          match v with
          | VNone => Some r
          | VFloat f => Some (if PrimFloat.is_nan f then r else f :: r)
          | VInt z => if in_int64 z then Some (of_Z z :: r) else None
          | _ => None
          end
      end
  end.

(** A store on which [show] runs to its end: the table exists, and the
    configuration has the options that [set_config] writes, [figsize] and
    [ylim] being lists of two items and [filepath] a text; when [ylim] is
    [[None, None]] the [y] column holds numbers. *)
Definition renderable (w : world) (df config : loc) : bool :=
  match nth_error (frames w) df, nth_error (dicts w) config with
  | Some fr, Some d =>
      match Dict.get "title" d, Dict.get "figsize" d, Dict.get "ylim" d,
            Dict.get "x_order" d, Dict.get "bins" d, Dict.get "filepath" d,
            Dict.get "overwrite" d with
      | Some _, Some (VList [_; _]), Some (VList [lo; hi]), Some _, Some _,
        Some (VStr _), Some _ =>
          if is_None lo && is_None hi
          then match numbers (col_y fr) with
               | Some _ => true
               | None => false
               end
          else true
      | _, _, _, _, _, _, _ => false
      end
  | _, _ => false
  end.

(** The other columns of a table. *)
Definition col_color (df : frame) : list value := map r_color (rows df).
Definition col_size (df : frame) : list value := map r_size (rows df).
Definition col_stroke (df : frame) : list value := map r_stroke (rows df).
Definition col_opacity (df : frame) : list value := map r_opacity (rows df).

(** The options that [show] may write. *)
Definition show_options : list string :=
  ["ylim"; "x_order"; "figsize"; "mouseover"; "mousemove"; "mouseleave"].

(** An argument that is no list is repeated on every row. *)
Definition is_scalar (v : value) : bool :=
  match v with
  | VList _ => false
  | _ => true
  end.

(** A row whose cells hold no list. *)
Definition flat_row (r : row) : bool :=
  is_scalar (r_y r) && is_scalar (r_color r) && is_scalar (r_size r)
  && is_scalar (r_stroke r) && is_scalar (r_opacity r)
  && is_scalar (r_tooltip r).

(** The caller's dict configured with a category order of numbers. *)
Definition numeric_order_world : world :=
  snd (set_config (E := sample_externals) (Some 1)
         [("x_order", VList [VInt 1; VInt 2])] caller_world).

(** The dict that [set_config] builds without overrides. *)
Definition configured_dict : Dict.t value :=
  nth 1 (dicts configured_world) [].

(** Two configured dicts and the table with [y] 0 and 10. *)
Definition twin_world : world :=
  mkWorld [configured_dict; configured_dict] [table_0_10] [] [].

(** Two configured dicts and two tables. *)
Definition two_tables_world : world :=
  mkWorld [configured_dict; configured_dict]
    [table_0_10; ints_table [3; 1; 2]%Z] [] [].

(** Two empty dicts and the table with [y] 0 and 10. *)
Definition table_world : world := mkWorld [[]; []] [table_0_10] [] [].

(** The store after rendering the table with the configured dict. *)
Definition rendered_world : world :=
  snd (show (E := sample_externals) 0 1 two_nodes LoggerNone render_world).


(** A rendered configuration with [overwrite] false, and an old page at its
    path. *)
Definition no_overwrite_world : world :=
  mkWorld
    (dicts
       (snd (show (E := sample_externals) 0 1 two_nodes LoggerNone
               (mkWorld
                  (dicts
                     (snd (set_config (E := sample_externals) (Some 1)
                             [("overwrite", VBool false)] caller_world)))
                  [table_0_10] [] []))))
    [] [("violin.html", "old page"); ("other.html", "other page")] [].

(** The record set prepared from x = a, b and y = 1, 2 with the defaults. *)
Definition prepared_table : frame :=
  [(0, mkRow "a" (VInt 1) (VStr "#000004") default_size default_stroke
             default_opacity default_tooltip false);
   (1, mkRow "b" (VInt 2) (VStr "#000004") default_size default_stroke
             default_opacity default_tooltip false)].

(** * Properties *)

(** ** Lists and dictionaries *)

Lemma nth_error_list_set_eq {A} (l : list A) (n : nat) (a : A) :
  n < List.length l -> nth_error (list_set n a l) n = Some a.
Proof.
  revert n; induction l as [|b l IH]; intros [|n] H; simpl in *; try lia.
  - reflexivity.
  - apply IH; lia.
Qed.

Lemma nth_error_list_set_neq {A} (l : list A) (n m : nat) (a : A) :
  n <> m -> nth_error (list_set n a l) m = nth_error l m.
Proof.
  revert n m; induction l as [|b l IH]; intros [|n] [|m] H; simpl;
    try reflexivity; try congruence.
  apply IH; congruence.
Qed.

Lemma list_set_twice {A} (l : list A) (n : nat) (a b : A) :
  list_set n b (list_set n a l) = list_set n b l.
Proof.
  revert n; induction l as [|c l IH]; intros [|n]; simpl; auto.
  now rewrite IH.
Qed.

Lemma list_set_same {A} (l : list A) (n : nat) (a : A) :
  nth_error l n = Some a -> list_set n a l = l.
Proof.
  revert n; induction l as [|c l IH]; intros [|n] H; simpl in *;
    try discriminate; try congruence.
  now rewrite IH.
Qed.

Lemma nth_error_Some_lt {A} (l : list A) (n : nat) (a : A) :
  nth_error l n = Some a -> n < List.length l.
Proof.
  intros H. apply nth_error_Some. congruence.
Qed.

Lemma dict_get_set {V} (k k' : string) (v : V) (d : Dict.t V) :
  Dict.get k (Dict.set k' v d) = if k' =? k then Some v else Dict.get k d.
Proof.
  induction d as [|[k0 v0] d IH]; simpl.
  - reflexivity.
  - destruct (k0 =? k') eqn:E0; simpl.
    + apply String.eqb_eq in E0; subst k0.
      destruct (k' =? k); reflexivity.
    + rewrite IH. destruct (k0 =? k) eqn:E1; [|reflexivity].
      apply String.eqb_eq in E1; subst k0. now rewrite String.eqb_sym, E0.
Qed.

Lemma dict_get_set_same {V} (k : string) (v : V) (d : Dict.t V) :
  Dict.get k (Dict.set k v d) = Some v.
Proof. now rewrite dict_get_set, String.eqb_refl. Qed.

Lemma dict_get_set_other {V} (k k' : string) (v : V) (d : Dict.t V) :
  k' <> k -> Dict.get k (Dict.set k' v d) = Dict.get k d.
Proof.
  intros H. rewrite dict_get_set.
  now apply String.eqb_neq in H as ->.
Qed.

Lemma dict_set_fresh {V} (k : string) (v : V) (d : Dict.t V) :
  ~ In k (Dict.keys d) -> Dict.set k v d = d ++ [(k, v)].
Proof.
  induction d as [|[k0 v0] d IH]; simpl; intros H.
  - reflexivity.
  - destruct (k0 =? k) eqn:E0.
    + apply String.eqb_eq in E0. tauto.
    + rewrite IH; tauto.
Qed.

(** ** Sorting *)

Lemma insert_str_perm (a : string) (l : list string) :
  Permutation (insert_str a l) (a :: l).
Proof.
  induction l as [|b l IH]; simpl.
  - reflexivity.
  - destruct (String.leb a b).
    + reflexivity.
    + rewrite IH. apply perm_swap.
Qed.

Lemma sort_str_perm (l : list string) : Permutation (sort_str l) l.
Proof.
  induction l as [|a l IH]; simpl.
  - reflexivity.
  - rewrite insert_str_perm. now constructor.
Qed.

Lemma insert_nat_perm (a : nat) (l : list nat) :
  Permutation (insert_nat a l) (a :: l).
Proof.
  induction l as [|b l IH]; simpl.
  - reflexivity.
  - destruct (a <=? b)%nat.
    + reflexivity.
    + rewrite IH. apply perm_swap.
Qed.

Lemma sorted_perm (l : list nat) : Permutation (sorted l) l.
Proof.
  induction l as [|a l IH]; simpl.
  - reflexivity.
  - rewrite insert_nat_perm. now constructor.
Qed.

Lemma insert_nat_sorted (a : nat) (l : list nat) :
  StronglySorted le l -> StronglySorted le (insert_nat a l).
Proof.
  induction 1 as [|b l Hs IH Hb]; simpl.
  - repeat constructor.
  - destruct (a <=? b)%nat eqn:Hab.
    + apply Nat.leb_le in Hab. constructor.
      * now constructor.
      * constructor; [exact Hab|].
        eapply Forall_impl; [|exact Hb]. simpl; intros; lia.
    + apply Nat.leb_gt in Hab. constructor; [exact IH|].
      eapply Permutation_Forall.
      * symmetry. apply insert_nat_perm.
      * constructor; [lia | exact Hb].
Qed.

Lemma sorted_sorted (l : list nat) : StronglySorted le (sorted l).
Proof.
  induction l as [|a l IH]; simpl.
  - constructor.
  - now apply insert_nat_sorted.
Qed.

(** A list in ascending order is the only ascending arrangement of its
    elements when these are pairwise different. *)
Lemma ascending_unique (l1 l2 : list nat) :
  StronglySorted le l1 -> StronglySorted lt l2 -> Permutation l1 l2 ->
  l1 = l2.
Proof.
  revert l2; induction l1 as [|a1 t1 IH]; intros l2 H1 H2 HP.
  - now apply Permutation_nil in HP.
  - destruct l2 as [|a2 t2].
    + symmetry in HP. now apply Permutation_nil in HP.
    + inversion H1 as [|? ? Hs1 Hf1]; subst.
      inversion H2 as [|? ? Hs2 Hf2]; subst.
      assert (a1 = a2) as ->.
      { assert (In a1 (a2 :: t2)) as [->|Hin1]
          by (eapply Permutation_in; [exact HP | now left]); [reflexivity|].
        assert (In a2 (a1 :: t1)) as [->|Hin2]
          by (eapply Permutation_in; [symmetry; exact HP | now left]);
          [reflexivity|].
        rewrite Forall_forall in Hf1, Hf2.
        specialize (Hf1 _ Hin2). specialize (Hf2 _ Hin1). lia. }
      f_equal. apply IH; auto. now apply Permutation_cons_inv in HP.
Qed.

(** ** First occurrences *)

Lemma first_occurrences_In (v : string) (l : list string) :
  In v (first_occurrences l) <-> In v l.
Proof.
  induction l as [|a l IH]; simpl.
  - tauto.
  - rewrite filter_In, IH. split.
    + intros [H|[H _]]; auto.
    + intros [H|H]; auto.
      destruct (String.eqb_spec a v) as [Heq|Hne]; auto.
Qed.

Lemma first_occurrences_NoDup (l : list string) : NoDup (first_occurrences l).
Proof.
  induction l as [|a l IH]; simpl.
  - constructor.
  - constructor.
    + rewrite filter_In. intros [_ H]. now rewrite String.eqb_refl in H.
    + now apply NoDup_filter.
Qed.

Lemma np_unique_perm (l : list string) :
  Permutation (np_unique l) (first_occurrences l).
Proof.
  unfold np_unique. rewrite sort_str_perm.
  apply NoDup_Permutation.
  - apply NoDup_nodup.
  - apply first_occurrences_NoDup.
  - intros v. now rewrite nodup_In, first_occurrences_In.
Qed.

Lemma StronglySorted_map_filter {A B} (R : B -> B -> Prop) (f : A -> B)
  (p : A -> bool) (l : list A) :
  StronglySorted R (map f l) -> StronglySorted R (map f (filter p l)).
Proof.
  induction l as [|a l IH]; simpl; intros H.
  - constructor.
  - inversion H as [|? ? Hs Hf]; subst.
    destruct (p a); simpl; auto.
    constructor; auto.
    rewrite Forall_forall in *. intros b Hb.
    apply in_map_iff in Hb as [c [<- Hc]].
    apply Hf, in_map. now apply filter_In in Hc.
Qed.

Lemma StronglySorted_map_S (l : list nat) :
  StronglySorted lt l -> StronglySorted lt (map S l).
Proof.
  induction 1 as [|a l Hs IH Hf]; simpl; constructor; auto.
  rewrite Forall_forall in *. intros b Hb.
  apply in_map_iff in Hb as [c [<- Hc]]. specialize (Hf _ Hc). lia.
Qed.

(** The positions of the first occurrences, taken in the order in which the
    values are first seen, ascend. *)
Lemma first_index_ascending (l : list string) :
  StronglySorted lt (map (fun v => first_index v l) (first_occurrences l)).
Proof.
  induction l as [|a l IH]; simpl.
  - constructor.
  - rewrite String.eqb_refl.
    assert (map (fun v => if a =? v then 0 else S (first_index v l))
                (filter (fun b => negb (a =? b)) (first_occurrences l))
            = map S (map (fun v => first_index v l)
                         (filter (fun b => negb (a =? b))
                                 (first_occurrences l)))) as ->.
    { rewrite map_map. apply map_ext_in. intros v Hv.
      apply filter_In in Hv as [_ Hv].
      now destruct (a =? v). }
    constructor.
    + apply StronglySorted_map_S.
      now apply StronglySorted_map_filter.
    + rewrite Forall_forall. intros b Hb.
      apply in_map_iff in Hb as [c [<- _]]. lia.
Qed.

Lemma nth_first_index (v : string) (l : list string) :
  In v l -> nth (first_index v l) l "" = v.
Proof.
  induction l as [|a l IH]; simpl; intros H.
  - contradiction.
  - destruct (String.eqb_spec a v) as [Heq|Hne]; auto.
    destruct H; [contradiction | auto].
Qed.

(** The three steps of the source (the first index of every distinct value,
    the indexes sorted, the labels at these indexes) give the values in the
    order of their first occurrence. *)
Lemma unique_in_order (l : list string) :
  map (fun index => nth index l "") (sorted (np_unique_index l))
  = first_occurrences l.
Proof.
  assert (sorted (np_unique_index l)
          = map (fun v => first_index v l) (first_occurrences l)) as ->.
  { apply ascending_unique.
    - apply sorted_sorted.
    - apply first_index_ascending.
    - rewrite sorted_perm. unfold np_unique_index.
      apply Permutation_map, np_unique_perm. }
  rewrite map_map. rewrite <- (map_id (first_occurrences l)) at 2.
  apply map_ext_in. intros v Hv.
  apply nth_first_index. now apply first_occurrences_In.
Qed.

Lemma fold_set_fresh {V} (f : nat * string -> V) (ils : list (nat * string))
  (d : Dict.t V) :
  NoDup (map snd ils) ->
  (forall k, In k (map snd ils) -> ~ In k (Dict.keys d)) ->
  fold_left (fun acc il => Dict.set (snd il) (f il) acc) ils d
  = d ++ map (fun il => (snd il, f il)) ils.
Proof.
  revert d; induction ils as [|il ils IH]; simpl; intros d Hnd Hfresh.
  - now rewrite app_nil_r.
  - inversion Hnd as [|? ? Hni Hnd']; subst.
    rewrite dict_set_fresh by (apply Hfresh; now left).
    rewrite IH; auto.
    + now rewrite <- app_assoc.
    + intros k Hk. unfold Dict.keys. rewrite map_app, in_app_iff. simpl.
      intros [Hd|[Hd|[]]].
      * apply (Hfresh k); auto.
      * congruence.
Qed.

Lemma combine_seq_snd {A} (l : list A) (s : nat) :
  map snd (combine (seq s (List.length l)) l) = l.
Proof.
  revert s; induction l as [|a l IH]; intros s; simpl; auto.
  now rewrite IH.
Qed.

Lemma combine_seq_fst {A} (l : list A) (s : nat) :
  map fst (combine (seq s (List.length l)) l) = seq s (List.length l).
Proof.
  revert s; induction l as [|a l IH]; intros s; simpl; auto.
  now rewrite IH.
Qed.

(** ** The monad *)

Lemma bind_Ok_inv {A B} (m : M A) (k : A -> M B) (w w' : world) (b : B) :
  bind m k w = (Ok b, w') ->
  exists a w1, m w = (Ok a, w1) /\ k a w1 = (Ok b, w').
Proof.
  unfold bind. destruct (m w) as [[a|e] w1]; intros H.
  - eauto.
  - discriminate.
Qed.

Lemma bind_Ok {A B} (m : M A) (k : A -> M B) (w w1 : world) (a : A) :
  m w = (Ok a, w1) -> bind m k w = k a w1.
Proof. unfold bind. now intros ->. Qed.

Lemma bind_Raise {A B} (m : M A) (k : A -> M B) (w w1 : world) (e : exn) :
  m w = (Raise e, w1) -> bind m k w = (Raise e, w1).
Proof. unfold bind. now intros ->. Qed.

Lemma raise_logged_result {A} (lg : logger) (msg : string) (w : world) :
  @raise_logged A lg msg w
  = match lg with
    | Logger =>
        (Raise Exception,
         mkWorld (dicts w) (frames w) (files w) (log w ++ [(ERROR, msg)]))
    | LoggerNone => (Raise AttributeError, w)
    end.
Proof. destruct lg; reflexivity. Qed.

(** ** Labels *)

Section Labels.
Context {E : Externals}.

Lemma set_labels_source (labels : labels_arg) (lg : logger) (w : world) :
  exists w1,
    (lg = LoggerNone -> w1 = w) /\
    set_labels labels lg w
    = match pre_processing (raw_labels labels) with
      | None => raise_logged lg "Could not extract the labels!" w1
      | Some l =>
          if (List.length l <? 1)%nat
          then raise_logged lg "Could not extract the labels!" w1
          else (Ok (map (fun index => nth index l "")
                        (sorted (np_unique_index l))), w1)
      end.
Proof.
  destruct labels as [l0|df]; simpl.
  - exists w. split; [reflexivity|].
    unfold set_labels, bind, ret. simpl.
    destruct (pre_processing l0) as [l|]; [|reflexivity].
    destruct (List.length l <? 1)%nat; reflexivity.
  - destruct lg.
    + exists w. split; [reflexivity|].
      unfold set_labels, bind, ret. simpl.
      destruct (pre_processing (col_x df)) as [l|]; [|reflexivity].
      destruct (List.length l <? 1)%nat; reflexivity.
    + eexists. split; [discriminate|].
      unfold set_labels, bind, ret. simpl.
      destruct (pre_processing (col_x df)) as [l|]; [|reflexivity].
      destruct (List.length l <? 1)%nat; reflexivity.
Qed.

Lemma label_properties_fold (uilabel : list string) :
  NoDup uilabel ->
  fold_left
    (fun dict_labels il =>
       Dict.set (snd il) (mkNode (fst il) (snd il)) dict_labels)
    (combine (seq 0 (List.length uilabel)) uilabel)
    Dict.empty
  = label_properties uilabel.
Proof.
  intros Hnd.
  rewrite (fold_set_fresh (fun il => mkNode (fst il) (snd il))).
  - reflexivity.
  - now rewrite combine_seq_snd.
  - intros k _ [].
Qed.

(** C3: on a non-empty preprocessed label sequence [set_labels] returns the
    distinct labels in the order of their first occurrence, and
    [set_node_properties] maps each of them, in that order, to the record
    of its id and label, the ids being 0, 1, 2, ... *)
Theorem set_labels_first_occurrence_order (labels : labels_arg)
  (l : list string) (cmap : value) (lg : logger) (w : world) :
  pre_processing (raw_labels labels) = Some l ->
  l <> [] ->
  fst (set_labels labels lg w) = Ok (first_occurrences l) /\
  set_node_properties labels cmap lg w
  = (Ok (label_properties (first_occurrences l)), w) /\
  Dict.keys (label_properties (first_occurrences l)) = first_occurrences l /\
  map (fun kv => node_id (snd kv)) (label_properties (first_occurrences l))
  = seq 0 (List.length (first_occurrences l)) /\
  map (fun kv => node_label (snd kv)) (label_properties (first_occurrences l))
  = first_occurrences l.
Proof.
  intros Hpre Hne.
  assert ((List.length l <? 1)%nat = false) as Hlen.
  { destruct l; [congruence|reflexivity]. }
  split; [|split; [|split; [|split]]].
  - destruct (set_labels_source labels lg w) as [w1 [_ ->]].
    rewrite Hpre, Hlen. simpl. now rewrite unique_in_order.
  - unfold set_node_properties.
    destruct (set_labels_source labels LoggerNone w) as [w1 [Hw Heq]].
    rewrite Hw in Heq by reflexivity.
    rewrite Hpre, Hlen, unique_in_order in Heq.
    rewrite (bind_Ok _ _ _ _ _ Heq). unfold ret.
    now rewrite label_properties_fold by apply first_occurrences_NoDup.
  - unfold label_properties, Dict.keys. rewrite map_map. simpl.
    apply combine_seq_snd.
  - unfold label_properties. rewrite map_map. simpl.
    apply combine_seq_fst.
  - unfold label_properties. rewrite map_map. simpl.
    apply combine_seq_snd.
Qed.

(** C7: when preprocessing leaves no label, [set_labels] raises the
    module's exception if it was given a logger; without one, and always
    through [set_node_properties], the call ends in an [AttributeError]
    raised by the logging call itself. *)
Theorem set_labels_no_labels (labels : labels_arg) (cmap : value)
  (lg : logger) (w : world) :
  pre_processing (raw_labels labels) = None \/
  pre_processing (raw_labels labels) = Some [] ->
  fst (set_labels labels Logger w) = Raise Exception /\
  set_labels labels LoggerNone w = (Raise AttributeError, w) /\
  set_node_properties labels cmap lg w = (Raise AttributeError, w).
Proof.
  intros Hpre.
  assert (set_labels labels LoggerNone w = (Raise AttributeError, w)) as Hnone.
  { destruct (set_labels_source labels LoggerNone w) as [w1 [Hw ->]].
    rewrite Hw by reflexivity.
    destruct Hpre as [-> | ->]; reflexivity. }
  split; [|split].
  - destruct (set_labels_source labels Logger w) as [w1 [_ ->]].
    destruct Hpre as [-> | ->]; reflexivity.
  - exact Hnone.
  - unfold set_node_properties. now rewrite (bind_Raise _ _ _ _ _ Hnone).
Qed.

End Labels.

Lemma check_step {B} (c : bool) (lg : logger) (msg : string)
  (k : unit -> M B) (w : world) :
  bind (when c (raise_logged lg msg)) k w
  = if c then raise_logged lg msg w else k tt w.
Proof.
  destruct c; simpl; [|reflexivity].
  unfold bind. rewrite !raise_logged_result. now destruct lg.
Qed.

Lemma lift_Ok_inv {A} (o : outcome A) (w w' : world) (a : A) :
  lift o w = (Ok a, w') -> o = Ok a /\ w' = w.
Proof. unfold lift. intros H. now inversion H. Qed.

Lemma ret_Ok_inv {A} (a b : A) (w w' : world) :
  ret a w = (Ok b, w') -> a = b /\ w' = w.
Proof. unfold ret. intros H. now inversion H. Qed.

Lemma logger_info_Ok_inv (lg : logger) (msg : string) (w w' : world)
  (u : unit) :
  logger_info lg msg w = (Ok u, w') ->
  lg = Logger /\
  w' = mkWorld (dicts w) (frames w) (files w) (log w ++ [(INFO, msg)]).
Proof.
  destruct lg; simpl; intros H.
  - discriminate.
  - unfold emit in H. now inversion H.
Qed.

Lemma getitem_Ok_inv (c : loc) (k : string) (w w' : world) (v : value) :
  getitem c k w = (Ok v, w') -> w' = w /\ config_item w c k = Some v.
Proof.
  unfold getitem, getdict, bind, config_item.
  destruct (nth_error (dicts w) c) as [d|]; [|discriminate].
  destruct (Dict.get k d); unfold ret, raise; intros H; now inversion H.
Qed.

Lemma getitem_result (c : loc) (k : string) (w : world) (v : value) :
  config_item w c k = Some v -> getitem c k w = (Ok v, w).
Proof.
  unfold getitem, getdict, bind, config_item.
  destruct (nth_error (dicts w) c) as [d|]; [|discriminate].
  now intros ->.
Qed.

Lemma same_objects_refl (w : world) : same_objects w w.
Proof. now repeat split. Qed.

Lemma same_objects_trans (w1 w2 w3 : world) :
  same_objects w1 w2 -> same_objects w2 w3 -> same_objects w1 w3.
Proof.
  unfold same_objects. intros (?&?&?) (?&?&?). repeat split; congruence.
Qed.

Lemma same_objects_log (w : world) (l : list (level * string)) :
  same_objects w (mkWorld (dicts w) (frames w) (files w) l).
Proof. now repeat split. Qed.

Lemma same_objects_config_item (w w' : world) (c : loc) (k : string) :
  same_objects w w' -> config_item w' c k = config_item w c k.
Proof. unfold config_item. now intros (-> & _). Qed.

(** ** Tables *)

Lemma loc_rows_all (keep : row -> bool) (df : frame) :
  forallb keep (rows df) = true -> loc_rows keep df = df.
Proof.
  unfold loc_rows, rows. induction df as [|[i r] df IH]; simpl.
  - reflexivity.
  - intros H. apply andb_true_iff in H as [-> H]. now rewrite IH.
Qed.

Lemma no_missing_forallb (df : frame) :
  existsb (fun b => b) (map isna (col_y df)) = false ->
  forallb (fun r => negb (isna (r_y r))) (rows df) = true.
Proof.
  unfold col_y. induction (rows df) as [|r l IH]; simpl.
  - reflexivity.
  - intros H. apply orb_false_iff in H as [-> H]. simpl. auto.
Qed.

Lemma rows_loc_rows (keep : row -> bool) (df : frame) :
  rows (loc_rows keep df) = filter keep (rows df).
Proof.
  unfold rows, loc_rows. induction df as [|[i r] df IH]; simpl.
  - reflexivity.
  - destruct (keep r); simpl; now rewrite IH.
Qed.

Lemma rows_reset_index (df : frame) : rows (reset_index df) = rows df.
Proof.
  unfold reset_index.
  replace (List.length df) with (List.length (rows df))
    by (unfold rows; apply length_map).
  apply combine_seq_snd.
Qed.

Lemma index_reset_index (df : frame) :
  index_labels (reset_index df) = seq 0 (List.length df).
Proof.
  unfold reset_index, index_labels.
  replace (List.length df) with (List.length (rows df))
    by (unfold rows; apply length_map).
  apply combine_seq_fst.
Qed.

Lemma reset_index_length (df : frame) :
  List.length (reset_index df) = List.length df.
Proof.
  rewrite <- (length_map snd (reset_index df)).
  fold (rows (reset_index df)). rewrite rows_reset_index.
  unfold rows. apply length_map.
Qed.

Lemma assign_color_rows (values : list value) (df df' : frame) :
  assign_color values df = Ok df' ->
  map uncoloured (rows df') = map uncoloured (rows df) /\
  col_y df' = col_y df /\ col_x df' = col_x df.
Proof.
  unfold assign_color.
  destruct (List.length values =? List.length df)%nat eqn:Hlen;
    [|discriminate].
  apply Nat.eqb_eq in Hlen. intros H. inversion H; subst df'; clear H.
  unfold col_y, col_x, rows. rewrite !map_map. simpl.
  revert values Hlen. induction df as [|[i r] df IH]; intros [|v vs] Hlen;
    simpl in *; try discriminate; auto.
  destruct (IH vs) as (H1 & H2 & H3); [lia|].
  repeat split; f_equal; auto.
Qed.

(** ** Numbers *)

(** The binary64 nearest to an integer is no NaN: the mantissa stays
    positive through the shifts and the rounding. *)
Lemma shr_1_nonneg (mrs : shr_record) :
  (0 <= shr_m mrs)%Z -> (0 <= shr_m (shr_1 mrs))%Z.
Proof.
  destruct mrs as [m r s]. simpl.
  destruct m as [|[p|p|]|p]; simpl; lia.
Qed.

Lemma iter_shr_1_nonneg (p : positive) (mrs : shr_record) :
  (0 <= shr_m mrs)%Z -> (0 <= shr_m (iter_pos shr_1 p mrs))%Z.
Proof.
  revert mrs. induction p as [p IH|p IH|]; intros mrs H; simpl.
  - apply IH, IH. now apply shr_1_nonneg.
  - now apply IH, IH.
  - now apply shr_1_nonneg.
Qed.

Lemma shr_fexp_nonneg (m e : Z) (l : location) :
  (0 <= m)%Z -> (0 <= shr_m (fst (shr_fexp prec emax m e l)))%Z.
Proof.
  intros H. unfold shr_fexp, shr.
  assert (0 <= shr_m (shr_record_of_loc m l))%Z as H0
    by (destruct l as [|[]]; exact H).
  destruct (fexp prec emax (Zdigits2 m + e) - e)%Z; simpl; auto.
  now apply iter_shr_1_nonneg.
Qed.

Lemma round_nearest_even_nonneg (m : Z) (l : location) :
  (0 <= m)%Z -> (0 <= round_nearest_even m l)%Z.
Proof.
  intros H. destruct l as [|[]]; simpl; try lia.
  destruct (Z.even m); lia.
Qed.

Lemma binary_round_aux_not_nan (s : bool) (m e : Z) (l : location) :
  (0 <= m)%Z -> binary_round_aux prec emax s m e l <> S754_nan.
Proof.
  intros H. unfold binary_round_aux.
  pose proof (shr_fexp_nonneg m e l H) as H1.
  destruct (shr_fexp prec emax m e l) as [mrs' e']. simpl in H1.
  pose proof (shr_fexp_nonneg
                (round_nearest_even (shr_m mrs') (loc_of_shr_record mrs'))
                e' loc_Exact (round_nearest_even_nonneg _ _ H1)) as H2.
  destruct (shr_fexp prec emax _ e' loc_Exact) as [mrs'' e'']. simpl in H2.
  destruct (shr_m mrs'') as [|q|q]; try discriminate; [|lia].
  destruct (e'' <=? emax - prec)%Z; discriminate.
Qed.

Lemma binary_round_not_nan (s : bool) (m : positive) (e : Z) :
  binary_round prec emax s m e <> S754_nan.
Proof.
  unfold binary_round.
  destruct (shl_align m e _) as [mz ez].
  apply binary_round_aux_not_nan. lia.
Qed.

Lemma binary_normalize_not_nan (m e : Z) (szero : bool) :
  binary_normalize prec emax m e szero <> S754_nan.
Proof.
  destruct m; simpl; try discriminate; apply binary_round_not_nan.
Qed.

Lemma SFcompare_refl (x : spec_float) :
  x <> S754_nan -> SFcompare x x = Some Eq.
Proof.
  destruct x as [s|s| |s m e]; simpl; intros H; try congruence.
  - now destruct s.
  - rewrite Z.compare_refl.
    assert (Pos.compare_cont Eq m m = Eq) as -> by apply Pos.compare_cont_refl.
    now destruct s.
Qed.

Lemma is_nan_Prim2SF (f : float) :
  Prim2SF f <> S754_nan -> PrimFloat.is_nan f = false.
Proof.
  intros H. unfold PrimFloat.is_nan. rewrite eqb_spec. unfold SFeqb.
  now rewrite SFcompare_refl.
Qed.

Lemma SF2Prim_not_nan (x : spec_float) :
  x <> S754_nan -> PrimFloat.is_nan (SF2Prim x) = false.
Proof.
  destruct x as [[]|[]| |s m e]; intros H; try reflexivity; [congruence|].
  apply is_nan_Prim2SF. unfold SF2Prim.
  assert (Prim2SF (Z.ldexp (of_uint63 (Uint63.of_Z (Z.pos m))) e) <> S754_nan)
    as Hl.
  { rewrite Z_ldexp_spec, of_uint63_spec. unfold SFldexp.
    pose proof (binary_normalize_not_nan
                  (Uint63.to_Z (Uint63.of_Z (Z.pos m))) 0 false) as Hn.
    destruct (binary_normalize prec emax _ 0 false); try congruence.
    apply binary_round_not_nan. }
  destruct s; [|exact Hl].
  rewrite opp_spec.
  destruct (Prim2SF (Z.ldexp (of_uint63 (Uint63.of_Z (Z.pos m))) e));
    simpl; congruence.
Qed.

Lemma of_Z_not_nan (z : Z) : PrimFloat.is_nan (of_Z z) = false.
Proof. apply SF2Prim_not_nan, binary_normalize_not_nan. Qed.

(** The order of the floats that are numbers. *)
Lemma SFleb_total (x y : spec_float) :
  x <> S754_nan -> y <> S754_nan -> SFleb x y = false -> SFleb y x = true.
Proof.
  unfold SFleb.
  destruct x as [[]|[]| |[] m1 e1], y as [[]|[]| |[] m2 e2]; simpl;
    intros Hx Hy; try congruence.
  all: change (Pos.compare_cont Eq m1 m2) with (Pos.compare m1 m2);
    change (Pos.compare_cont Eq m2 m1) with (Pos.compare m2 m1).
  all: destruct (Z.compare_spec e1 e2), (Z.compare_spec e2 e1); try lia;
    try congruence.
  all: destruct (Pos.compare_spec m1 m2), (Pos.compare_spec m2 m1);
    simpl; try lia; try congruence.
Qed.

Lemma SFleb_trans (x y z : spec_float) :
  SFleb x y = true -> SFleb y z = true -> SFleb x z = true.
Proof.
  unfold SFleb.
  destruct x as [[]|[]| |[] m1 e1], y as [[]|[]| |[] m2 e2],
           z as [[]|[]| |[] m3 e3]; simpl; try congruence.
  all: change (Pos.compare_cont Eq m1 m2) with (Pos.compare m1 m2);
    change (Pos.compare_cont Eq m2 m3) with (Pos.compare m2 m3);
    change (Pos.compare_cont Eq m1 m3) with (Pos.compare m1 m3).
  all: destruct (Z.compare_spec e1 e2), (Z.compare_spec e2 e3),
    (Z.compare_spec e1 e3); try lia; try congruence.
  all: destruct (Pos.compare_spec m1 m2), (Pos.compare_spec m2 m3),
    (Pos.compare_spec m1 m3); simpl; try lia; try congruence.
Qed.

Lemma is_nan_false (f : float) :
  PrimFloat.is_nan f = false -> Prim2SF f <> S754_nan.
Proof.
  unfold PrimFloat.is_nan. rewrite eqb_spec. unfold SFeqb.
  intros H Hn. rewrite Hn in H. discriminate H.
Qed.

Lemma leb_total (a b : float) :
  PrimFloat.is_nan a = false -> PrimFloat.is_nan b = false ->
  PrimFloat.leb a b = false -> PrimFloat.leb b a = true.
Proof.
  rewrite !leb_spec. intros Ha Hb.
  apply SFleb_total; now apply is_nan_false.
Qed.

Lemma leb_trans (a b c : float) :
  PrimFloat.leb a b = true -> PrimFloat.leb b c = true ->
  PrimFloat.leb a c = true.
Proof. rewrite !leb_spec. apply SFleb_trans. Qed.

(** *** Reductions

    Over numbers of one kind, on which [number_leb] is a total order, the
    reductions give a largest and a smallest member. *)
Section Reductions.
Variable P : number -> Prop.
Hypothesis total :
  forall a b, P a -> P b -> number_leb a b = false -> number_leb b a = true.
Hypothesis trans :
  forall a b c, P a -> P b -> P c ->
    number_leb a b = true -> number_leb b c = true -> number_leb a c = true.

Lemma total_refl (a : number) : P a -> number_leb a a = true.
Proof.
  intros Ha. destruct (number_leb a a) eqn:H; [reflexivity|].
  pose proof (total a a Ha Ha H) as H'. congruence.
Qed.

Lemma fold_number_max (l : list number) (a : number) :
  P a -> Forall P l ->
  P (fold_left number_max l a) /\
  In (fold_left number_max l a) (a :: l) /\
  Forall (fun v => number_leb v (fold_left number_max l a) = true) (a :: l).
Proof.
  revert a. induction l as [|b l IH]; intros a Ha Hl; simpl.
  - split; [exact Ha|]. split; [now left|].
    constructor; [now apply total_refl | constructor].
  - inversion Hl as [|? ? Hb Hl']; subst.
    assert (P (number_max a b) /\
            number_leb a (number_max a b) = true /\
            number_leb b (number_max a b) = true /\
            (number_max a b = a \/ number_max a b = b))
      as (Hm & Hma & Hmb & Hsel).
    { unfold number_max. destruct (number_leb b a) eqn:Hba.
      - repeat split; auto. now apply total_refl.
      - repeat split; auto. now apply total_refl. }
    destruct (IH (number_max a b) Hm Hl') as (HP & Hin & Hall).
    split; [exact HP|]. split.
    + destruct Hin as [Hin|Hin]; [|now right; right].
      rewrite <- Hin. destruct Hsel as [->| ->]; [now left | now right; left].
    + inversion Hall as [|? ? Hfirst Hrest]; subst.
      constructor; [|constructor; [|exact Hrest]].
      * apply (trans a (number_max a b)); auto.
      * apply (trans b (number_max a b)); auto.
Qed.

Lemma fold_number_min (l : list number) (a : number) :
  P a -> Forall P l ->
  P (fold_left number_min l a) /\
  In (fold_left number_min l a) (a :: l) /\
  Forall (fun v => number_leb (fold_left number_min l a) v = true) (a :: l).
Proof.
  revert a. induction l as [|b l IH]; intros a Ha Hl; simpl.
  - split; [exact Ha|]. split; [now left|].
    constructor; [now apply total_refl | constructor].
  - inversion Hl as [|? ? Hb Hl']; subst.
    assert (P (number_min a b) /\
            number_leb (number_min a b) a = true /\
            number_leb (number_min a b) b = true /\
            (number_min a b = a \/ number_min a b = b))
      as (Hm & Hma & Hmb & Hsel).
    { unfold number_min. destruct (number_leb a b) eqn:Hab.
      - repeat split; auto. now apply total_refl.
      - repeat split; auto. now apply total_refl. }
    destruct (IH (number_min a b) Hm Hl') as (HP & Hin & Hall).
    split; [exact HP|]. split.
    + destruct Hin as [Hin|Hin]; [|now right; right].
      rewrite <- Hin. destruct Hsel as [->| ->]; [now left | now right; left].
    + inversion Hall as [|? ? Hfirst Hrest]; subst.
      constructor; [|constructor; [|exact Hrest]].
      * apply (trans (fold_left number_min l (number_min a b))
                 (number_min a b)); auto.
      * apply (trans (fold_left number_min l (number_min a b))
                 (number_min a b)); auto.
Qed.

End Reductions.

(** A reduction returns a member of the list, or NaN on the empty list. *)
Lemma reduce_member (f : number -> number -> number) (Q : number -> Prop)
  (l : list number) :
  (forall a b, f a b = a \/ f a b = b) ->
  Q (Float nan) -> Forall Q l -> Q (reduce f l).
Proof.
  intros Hsel Hnan Hl. destruct l as [|a l]; [exact Hnan|]. simpl.
  inversion Hl as [|? ? Ha Hl']; subst. clear Hl.
  revert a Ha. induction Hl' as [|b l Hb Hl' IH]; intros a Ha; simpl.
  - exact Ha.
  - apply IH. destruct (Hsel a b) as [-> | ->]; assumption.
Qed.

Lemma number_max_member (a b : number) :
  number_max a b = a \/ number_max a b = b.
Proof. unfold number_max. destruct (number_leb b a); auto. Qed.

Lemma number_min_member (a b : number) :
  number_min a b = a \/ number_min a b = b.
Proof. unfold number_min. destruct (number_leb a b); auto. Qed.

(** *** int64 *)

Lemma in_int64_bounds (z : Z) :
  in_int64 z = true <-> (int64_min <= z <= int64_max)%Z.
Proof.
  unfold in_int64. rewrite andb_true_iff, !Z.leb_le. tauto.
Qed.

Lemma wrap_int64_in_range (z : Z) :
  (int64_min <= z <= int64_max)%Z -> wrap_int64 z = z.
Proof.
  unfold wrap_int64, int64_min, int64_max, uint64_max. intros H.
  rewrite Z.mod_small; lia.
Qed.

Lemma wrap_int64_above (z : Z) :
  (int64_max < z <= int64_max - int64_min)%Z ->
  wrap_int64 z = (z - (uint64_max + 1))%Z.
Proof.
  unfold wrap_int64, int64_min, int64_max, uint64_max. intros H.
  replace (z - -9223372036854775808)%Z
    with ((z - 18446744073709551616 - -9223372036854775808)
          + 1 * (18446744073709551615 + 1))%Z by lia.
  rewrite Z.mod_add by lia.
  rewrite Z.mod_small; lia.
Qed.

Lemma int64_cells_map (zs : list Z) :
  forallb in_int64 zs = true -> int64_cells (map VInt zs) = Some zs.
Proof.
  induction zs as [|z zs IH]; simpl; [reflexivity|].
  intros H. apply andb_true_iff in H as [-> H]. now rewrite IH.
Qed.

Lemma series_numbers_int64 (zs : list Z) :
  zs <> [] -> forallb in_int64 zs = true ->
  series_numbers false (map VInt zs) = Ok (map Int64 zs).
Proof.
  intros Hne H. unfold series_numbers, array_numbers.
  rewrite int64_cells_map by exact H.
  destruct zs; [congruence | reflexivity].
Qed.

Lemma int64_cells_Some (col : list value) (zs : list Z) :
  int64_cells col = Some zs ->
  col = map VInt zs /\ forallb in_int64 zs = true.
Proof.
  revert zs. induction col as [|v col IH]; simpl; intros zs H.
  - inversion H. now split.
  - destruct v; try discriminate.
    destruct (in_int64 z) eqn:Hz; [|discriminate].
    destruct (int64_cells col) as [r|]; [|discriminate].
    inversion H; subst. destruct (IH r eq_refl) as [-> Hr].
    simpl. now rewrite Hz, Hr.
Qed.

Lemma number_cells_ints (zs : list Z) :
  number_cells (map VInt zs) = Some (map PyInt zs).
Proof.
  induction zs as [|z zs IH]; simpl; [reflexivity|]. now rewrite IH.
Qed.

(** Ints that pandas does not hold in int64: Python ints, or a column with
    an int beyond the int64 range. *)
Lemma series_numbers_exact (object : bool) (zs : list Z) :
  object = true \/ forallb in_int64 zs = false ->
  series_numbers object (map VInt zs) = Ok (map PyInt zs).
Proof.
  intros H. unfold series_numbers, array_numbers, object_numbers.
  rewrite number_cells_ints.
  destruct object; [reflexivity|]. destruct H as [H|H]; [discriminate|].
  destruct (int64_cells (map VInt zs)) as [[|z r]|] eqn:Hc.
  - apply int64_cells_Some in Hc as [Heq _].
    destruct zs; [discriminate H | discriminate Heq].
  - apply int64_cells_Some in Hc as [Heq Hr].
    assert (zs = z :: r) as ->.
    { revert Heq. generalize (z :: r). clear.
      induction zs as [|a zs IH]; intros [|b l] H; simpl in H;
        try discriminate; [reflexivity|].
      inversion H. f_equal. now apply IH. }
    congruence.
  - destruct zs; reflexivity.
Qed.

Lemma int64_cells_floats (ys : list float) :
  int64_cells (map VFloat ys) = match ys with [] => Some [] | _ => None end.
Proof. destruct ys; reflexivity. Qed.

Lemma Forall_map_Int64 (Q : number -> Prop) (zs : list Z) :
  (forall z, Q (Int64 z)) -> Forall Q (map Int64 zs).
Proof. intros H. rewrite Forall_map. now apply Forall_forall. Qed.

(** The reductions of a column of ints, numpy's or Python's: [c] is
    [Int64] or [PyInt]. *)
Section Ints.
Variable c : Z -> number.
Hypothesis c_leb : forall x y, number_leb (c x) (c y) = (x <=? y)%Z.
Hypothesis c_inj : forall x y, c x = c y -> x = y.

Lemma Forall_map_ints (zs : list Z) :
  Forall (fun n => exists z, n = c z) (map c zs).
Proof. rewrite Forall_map. apply Forall_forall. eauto. Qed.

Lemma reduce_max_ints (zs : list Z) (hi : Z) :
  largest hi zs -> reduce number_max (map c zs) = c hi.
Proof.
  intros [Hin Hall]. destruct zs as [|a l]; [contradiction|]. simpl.
  destruct (fold_number_max (fun n => exists z, n = c z)) with
    (l := map c l) (a := c a) as ([m Hm] & Hmem & Hle).
  - intros ? ? [x ->] [y ->]. rewrite !c_leb, Z.leb_gt, Z.leb_le. lia.
  - intros ? ? ? [x ->] [y ->] [z ->]. rewrite !c_leb, !Z.leb_le. lia.
  - eauto.
  - apply Forall_map_ints.
  - rewrite Hm in *. f_equal.
    change (c a :: map c l) with (map c (a :: l)) in *.
    apply in_map_iff in Hmem as (z & Hz & Hzin). apply c_inj in Hz; subst z.
    rewrite Forall_map, Forall_forall in Hle. rewrite Forall_forall in Hall.
    specialize (Hle hi Hin). simpl in Hle. rewrite c_leb in Hle.
    apply Z.leb_le in Hle.
    specialize (Hall m Hzin). lia.
Qed.

Lemma reduce_min_ints (zs : list Z) (lo : Z) :
  smallest lo zs -> reduce number_min (map c zs) = c lo.
Proof.
  intros [Hin Hall]. destruct zs as [|a l]; [contradiction|]. simpl.
  destruct (fold_number_min (fun n => exists z, n = c z)) with
    (l := map c l) (a := c a) as ([m Hm] & Hmem & Hle).
  - intros ? ? [x ->] [y ->]. rewrite !c_leb, Z.leb_gt, Z.leb_le. lia.
  - intros ? ? ? [x ->] [y ->] [z ->]. rewrite !c_leb, !Z.leb_le. lia.
  - eauto.
  - apply Forall_map_ints.
  - rewrite Hm in *. f_equal.
    change (c a :: map c l) with (map c (a :: l)) in *.
    apply in_map_iff in Hmem as (z & Hz & Hzin). apply c_inj in Hz; subst z.
    rewrite Forall_map, Forall_forall in Hle. rewrite Forall_forall in Hall.
    specialize (Hle lo Hin). simpl in Hle. rewrite c_leb in Hle.
    apply Z.leb_le in Hle.
    specialize (Hall m Hzin). lia.
Qed.

End Ints.

Lemma reduce_max_int64 (zs : list Z) (hi : Z) :
  largest hi zs -> reduce number_max (map Int64 zs) = Int64 hi.
Proof. apply reduce_max_ints; [reflexivity | congruence]. Qed.

Lemma reduce_min_int64 (zs : list Z) (lo : Z) :
  smallest lo zs -> reduce number_min (map Int64 zs) = Int64 lo.
Proof. apply reduce_min_ints; [reflexivity | congruence]. Qed.

Lemma reduce_max_exact (zs : list Z) (hi : Z) :
  largest hi zs -> reduce number_max (map PyInt zs) = PyInt hi.
Proof. apply reduce_max_ints; [reflexivity | congruence]. Qed.

Lemma reduce_min_exact (zs : list Z) (lo : Z) :
  smallest lo zs -> reduce number_min (map PyInt zs) = PyInt lo.
Proof. apply reduce_min_ints; [reflexivity | congruence]. Qed.

(** *** float64 *)

Lemma number_cells_floats (ys : list float) :
  number_cells (map VFloat ys) = Some (map Float (not_nan ys)).
Proof.
  induction ys as [|f ys IH]; simpl; [reflexivity|].
  rewrite IH. now destruct (PrimFloat.is_nan f).
Qed.

Lemma series_numbers_floats (object : bool) (ys : list float) :
  series_numbers object (map VFloat ys) = Ok (map Float (not_nan ys)).
Proof.
  unfold series_numbers, array_numbers, object_numbers.
  rewrite number_cells_floats, int64_cells_floats.
  destruct object; [reflexivity|]. destruct ys; reflexivity.
Qed.

Lemma reduce_floats (ys : list float) :
  Forall (fun f => PrimFloat.is_nan f = false) ys -> ys <> [] ->
  exists hi lo,
    largest_float hi ys /\ smallest_float lo ys /\
    reduce number_max (map Float ys) = Float hi /\
    reduce number_min (map Float ys) = Float lo.
Proof.
  intros Hnn Hne. destruct ys as [|a l]; [congruence|]. simpl.
  inversion Hnn as [|? ? Ha Hl]; subst.
  set (P := fun n => exists f, n = Float f /\ PrimFloat.is_nan f = false).
  assert (forall a b, P a -> P b ->
                      number_leb a b = false -> number_leb b a = true)
    as Htotal.
  { intros ? ? (x & -> & Hx) (y & -> & Hy). simpl. now apply leb_total. }
  assert (forall a b c, P a -> P b -> P c ->
                        number_leb a b = true -> number_leb b c = true ->
                        number_leb a c = true) as Htrans.
  { intros ? ? ? (x & -> & Hx) (y & -> & Hy) (z & -> & Hz). simpl.
    apply leb_trans. }
  assert (P (Float a)) as HPa by (exists a; auto).
  assert (Forall P (map Float l)) as HPl.
  { rewrite Forall_map. eapply Forall_impl; [|exact Hl].
    intros f Hf. exists f. auto. }
  destruct (fold_number_max P Htotal Htrans (map Float l) (Float a) HPa HPl)
    as ((hi & Hhi & _) & Hmax_in & Hmax_le).
  destruct (fold_number_min P Htotal Htrans (map Float l) (Float a) HPa HPl)
    as ((lo & Hlo & _) & Hmin_in & Hmin_le).
  exists hi, lo. rewrite Hhi, Hlo in *.
  change (Float a :: map Float l) with (map Float (a :: l)) in *.
  repeat split; try reflexivity.
  - apply in_map_iff in Hmax_in as (f & Hf & Hfin). now inversion Hf; subst.
  - rewrite Forall_map in Hmax_le. exact Hmax_le.
  - apply in_map_iff in Hmin_in as (f & Hf & Hfin). now inversion Hf; subst.
  - rewrite Forall_map in Hmin_le. exact Hmin_le.
Qed.

(** *** Columns of numbers *)

Lemma within_int64_coercible (a : number) : within_int64 a -> coercible a.
Proof.
  destruct a as [z|z|f]; simpl; auto.
  rewrite in_int64_bounds. unfold int64_min, int64_max, float_limit. lia.
Qed.

Lemma to_float_coercible (a : number) :
  coercible a -> exists f, to_float a = Ok f.
Proof.
  destruct a as [z|z|f]; simpl; eauto.
  intros H. apply Z.ltb_lt in H. rewrite H. eauto.
Qed.

Lemma number_sub_within (a b : number) :
  within_int64 a -> within_int64 b ->
  exists r, number_sub a b = Ok r /\ coercible r.
Proof.
  destruct a as [x|x|f], b as [y|y|g]; simpl; intros Ha Hb;
    try rewrite Ha; try rewrite Hb;
    try (eexists; split; [reflexivity | exact I]).
  - eexists. split; [reflexivity|]. simpl.
    apply in_int64_bounds in Ha, Hb.
    unfold int64_min, int64_max, float_limit in *. lia.
  - apply (within_int64_coercible (PyInt x)) in Ha. simpl in Ha.
    apply Z.ltb_lt in Ha. rewrite Ha.
    eexists; split; [reflexivity | exact I].
  - apply (within_int64_coercible (PyInt y)) in Hb. simpl in Hb.
    apply Z.ltb_lt in Hb. rewrite Hb.
    eexists; split; [reflexivity | exact I].
Qed.

Lemma numbers_number_cells (col : list value) (l : list float) :
  numbers col = Some l ->
  exists ns, number_cells col = Some ns /\ Forall within_int64 ns.
Proof.
  revert l. induction col as [|v col IH]; simpl; intros l H.
  - exists []. split; [reflexivity | constructor].
  - destruct (numbers col) as [r|]; [|discriminate].
    destruct (IH r eq_refl) as (ns & -> & Hns).
    destruct v; try discriminate; eauto.
    + destruct (in_int64 z) eqn:Hz; [|discriminate].
      eexists. split; [reflexivity|]. now constructor.
    + destruct (PrimFloat.is_nan f); eauto.
      eexists. split; [reflexivity|]. now constructor.
Qed.

Lemma numbers_series_numbers (object : bool) (col : list value)
  (l : list float) :
  numbers col = Some l ->
  exists ns, series_numbers object col = Ok ns /\ Forall within_int64 ns.
Proof.
  intros H. unfold series_numbers, array_numbers, object_numbers.
  destruct (numbers_number_cells _ _ H) as (ns & Hns & Hall).
  destruct object; [rewrite Hns; eauto|].
  destruct (int64_cells col) as [[|z zs]|].
  2: { exists (map Int64 (z :: zs)). split; [reflexivity|].
       apply Forall_map_Int64. intros ?. exact I. }
  all: rewrite Hns;
    assert (match col with [] => false | _ :: _ => forallb is_bool col end
            = false) as ->
      by (destruct col as [|v col]; [reflexivity|];
          simpl in H; destruct (numbers col); [|discriminate];
          destruct v; try discriminate; reflexivity);
    eauto.
Qed.

(** On a column of numbers the bounds are computed. *)
Lemma padded_range_numbers (object : bool) (col : list value)
  (l : list float) :
  numbers col = Some l ->
  exists low high,
    padded_range object col = Ok (VList [VFloat low; VFloat high]).
Proof.
  intros H.
  destruct (numbers_series_numbers object col l H) as (ns & Hns & Hall).
  assert (within_int64 (reduce number_max ns)) as Hhi
    by (apply reduce_member; [apply number_max_member | exact I | exact Hall]).
  assert (within_int64 (reduce number_min ns)) as Hlo
    by (apply reduce_member; [apply number_min_member | exact I | exact Hall]).
  unfold padded_range, series_max, series_min. rewrite Hns. simpl and_then.
  destruct (number_sub_within _ _ Hhi Hlo) as (r & -> & Hr). simpl and_then.
  unfold number_mul_float, number_sub_float, number_add_float.
  destruct (to_float_coercible r Hr) as [f ->]. simpl and_then.
  destruct (to_float_coercible _ (within_int64_coercible _ Hlo)) as [flo ->].
  simpl and_then.
  destruct (to_float_coercible _ (within_int64_coercible _ Hhi)) as [fhi ->].
  simpl and_then. eauto.
Qed.

Lemma padded_range_int64 (zs : list Z) (hi lo : Z) :
  forallb in_int64 zs = true -> largest hi zs -> smallest lo zs ->
  padded_range false (map VInt zs)
  = Ok (VList
          [VFloat (of_Z lo - of_Z (wrap_int64 (hi - lo)) * spacing)%float;
           VFloat (of_Z hi + of_Z (wrap_int64 (hi - lo)) * spacing)%float]).
Proof.
  intros Hin Hhi Hlo.
  assert (zs <> []) as Hne by (destruct Hhi as [H _]; now destruct zs).
  unfold padded_range, series_max, series_min.
  rewrite (series_numbers_int64 zs Hne Hin).
  now rewrite (reduce_max_int64 zs hi Hhi), (reduce_min_int64 zs lo Hlo).
Qed.

(** With the exact difference the bounds are the padded ones, and an int
    that rounds to no binary64 raises an [OverflowError]. *)
Lemma padded_range_exact (object : bool) (zs : list Z) (hi lo : Z) :
  object = true \/ forallb in_int64 zs = false ->
  largest hi zs -> smallest lo zs ->
  padded_range object (map VInt zs)
  = if ((Z.abs (hi - lo) <? float_limit) && (Z.abs lo <? float_limit)
        && (Z.abs hi <? float_limit))%Z
    then Ok (VList [VFloat (of_Z lo - of_Z (hi - lo) * spacing)%float;
                    VFloat (of_Z hi + of_Z (hi - lo) * spacing)%float])
    else Raise OverflowError.
Proof.
  intros Hex Hhi Hlo.
  unfold padded_range, series_max, series_min.
  rewrite (series_numbers_exact object zs Hex).
  rewrite (reduce_max_exact zs hi Hhi), (reduce_min_exact zs lo Hlo).
  simpl and_then.
  unfold number_mul_float, number_sub_float, number_add_float, to_float.
  destruct (Z.abs (hi - lo) <? float_limit)%Z; [|reflexivity].
  simpl and_then.
  destruct (Z.abs lo <? float_limit)%Z; [|reflexivity]. simpl and_then.
  destruct (Z.abs hi <? float_limit)%Z; reflexivity.
Qed.

Lemma padded_range_floats (object : bool) (ys : list float) :
  not_nan ys <> [] ->
  exists hi lo,
    largest_float hi (not_nan ys) /\ smallest_float lo (not_nan ys) /\
    padded_range object (map VFloat ys)
    = Ok (VList [VFloat (lo - (hi - lo) * spacing)%float;
                 VFloat (hi + (hi - lo) * spacing)%float]).
Proof.
  intros Hne.
  destruct (reduce_floats (not_nan ys)) as (hi & lo & Hhi & Hlo & Hmax & Hmin).
  { unfold not_nan. rewrite Forall_forall. intros f Hf.
    apply filter_In in Hf as [_ Hf]. now apply negb_true_iff in Hf. }
  { exact Hne. }
  exists hi, lo. split; [exact Hhi|]. split; [exact Hlo|].
  unfold padded_range, series_max, series_min.
  rewrite series_numbers_floats. now rewrite Hmax, Hmin.
Qed.

(** ** Columns *)

(** What pandas makes of a list keeps the length, and a cell is missing in
    the column exactly when it is missing in the list. *)
Lemma isna_to_float64 (v : value) : isna (to_float64 v) = isna v.
Proof.
  destruct v; simpl; try reflexivity. apply of_Z_not_nan.
Qed.

Lemma infer_length (col : list value) :
  List.length (infer col) = List.length col.
Proof.
  unfold infer. destruct (_ && _); [apply length_map | reflexivity].
Qed.

Lemma isna_infer (col : list value) : map isna (infer col) = map isna col.
Proof.
  unfold infer. destruct (_ && _); [|reflexivity].
  rewrite map_map. apply map_ext. apply isna_to_float64.
Qed.

Lemma isna_nth_infer (col : list value) (i : nat) :
  isna (nth i (infer col) VNone) = isna (nth i col VNone).
Proof.
  rewrite <- (map_nth isna (infer col) VNone i), isna_infer.
  apply (map_nth isna col VNone i).
Qed.

Lemma map_nth_seq_all {A} (l : list A) (d : A) :
  map (fun i => nth i l d) (seq 0 (List.length l)) = l.
Proof.
  induction l as [|a l IH]; simpl; [reflexivity|].
  f_equal. rewrite <- seq_shift, map_map. exact IH.
Qed.

Lemma combine_nth_seq {A B} (l : list A) (l' : list B) (d : A) (d' : B) :
  List.length l' = List.length l ->
  combine l l' = map (fun i => (nth i l d, nth i l' d')) (seq 0 (List.length l)).
Proof.
  revert l'. induction l as [|a l IH]; intros [|b l'] H; simpl in *;
    try discriminate; [reflexivity|].
  f_equal. rewrite <- seq_shift, map_map. apply IH. lia.
Qed.

Lemma filter_map_comm {A B} (f : A -> B) (p : B -> bool) (l : list A) :
  filter p (map f l) = map f (filter (fun a => p (f a)) l).
Proof.
  induction l as [|a l IH]; simpl; [reflexivity|].
  destruct (p (f a)); simpl; now rewrite IH.
Qed.

(** ** The data preparer *)

Lemma is_None_true (v : value) : is_None v = true <-> v = VNone.
Proof. destruct v; simpl; split; congruence. Qed.

Lemma array_of_other_length_true (v : value) (n : nat) :
  array_of_other_length v n = true <->
  exists l, v = VList l /\ List.length l <> n.
Proof.
  destruct v; simpl; split; try discriminate;
    try (intros (l0 & H & _); discriminate).
  - intros H. exists l. split; [reflexivity|].
    apply negb_true_iff, Nat.eqb_neq in H. exact H.
  - intros (l0 & H & Hl). inversion H; subst l0.
    now apply negb_true_iff, Nat.eqb_neq.
Qed.

Lemma invalid_input_true (x : list string) (y : list value)
  (size stroke opacity : value) :
  invalid_input x y size stroke opacity = true <->
  List.length x <> List.length y \/
  size = VNone \/
  (exists l, size = VList l /\ List.length l <> List.length x) \/
  stroke = VNone \/
  (exists l, stroke = VList l /\ List.length l <> List.length x) \/
  opacity = VNone \/
  (exists l, opacity = VList l /\ List.length l <> List.length x).
Proof.
  unfold invalid_input.
  rewrite !orb_true_iff, !is_None_true, !array_of_other_length_true,
    negb_true_iff, Nat.eqb_neq.
  tauto.
Qed.

Lemma when_raise_Ok_inv (c : bool) (e : exn) (w w' : world) (u : unit) :
  when c (raise e) w = (Ok u, w') -> c = false /\ w' = w.
Proof.
  destruct c; simpl; [discriminate|].
  intros H. apply ret_Ok_inv in H as [_ ->]. now split.
Qed.

Section Preparer.
Context {E : Externals}.

Lemma set_edge_properties_rejects (x : list string) (y : list value)
  (config : loc) (color size stroke opacity tooltip : value) (lg : logger)
  (w : world) :
  invalid_input x y size stroke opacity = true ->
  exists msg,
    set_edge_properties x y config color size stroke opacity tooltip lg w
    = @raise_logged frame lg msg w.
Proof.
  unfold invalid_input, set_edge_properties.
  repeat (rewrite check_step; cbv beta).
  destruct (negb (List.length x =? List.length y)%nat); [eauto|].
  destruct (is_None size); [eauto|].
  destruct (array_of_other_length size (List.length x)); [eauto|].
  destruct (is_None stroke); [eauto|].
  destruct (array_of_other_length stroke (List.length x)); [eauto|].
  destruct (is_None opacity); [eauto|].
  destruct (array_of_other_length opacity (List.length x)); [eauto|].
  discriminate.
Qed.

(** C2: an input that fails a check (lengths of [x] and [y] differ; [size],
    [stroke] or [opacity] is [None] or an array of another length than [x])
    ends the call in an exception before any table is built, and no dict,
    table or file has changed.  With a logger it is the module's exception
    and the message is logged; without one it is an [AttributeError],
    raised by the logging call. *)
Theorem set_edge_properties_invalid_input (x : list string) (y : list value)
  (config : loc) (color size stroke opacity tooltip : value) (w : world) :
  List.length x <> List.length y \/
  size = VNone \/
  (exists l, size = VList l /\ List.length l <> List.length x) \/
  stroke = VNone \/
  (exists l, stroke = VList l /\ List.length l <> List.length x) \/
  opacity = VNone \/
  (exists l, opacity = VList l /\ List.length l <> List.length x) ->
  (exists msg,
     set_edge_properties x y config color size stroke opacity tooltip
       Logger w
     = (Raise Exception,
        mkWorld (dicts w) (frames w) (files w) (log w ++ [(ERROR, msg)]))) /\
  set_edge_properties x y config color size stroke opacity tooltip
    LoggerNone w
  = (Raise AttributeError, w).
Proof.
  intros Hbad. apply invalid_input_true in Hbad. split.
  - destruct (set_edge_properties_rejects x y config color size stroke
                opacity tooltip Logger w Hbad) as [msg ->].
    exists msg. now rewrite raise_logged_result.
  - destruct (set_edge_properties_rejects x y config color size stroke
                opacity tooltip LoggerNone w Hbad) as [msg ->].
    now rewrite raise_logged_result.
Qed.

(** What a call that returns has done. *)
Lemma set_edge_properties_Ok_inv (x : list string) (y : list value)
  (config : loc) (color size stroke opacity tooltip : value) (lg : logger)
  (w w' : world) (df : frame) :
  set_edge_properties x y config color size stroke opacity tooltip lg w
  = (Ok df, w') ->
  lg = Logger /\ same_objects w w' /\
  invalid_input x y size stroke opacity = false /\
  exists df0 x_order df2 df3,
    DataFrame x y color size stroke opacity tooltip = Ok df0 /\
    config_item w config "x_order" = Some x_order /\
    (if is_None x_order then df2 = drop_missing df0
     else exists classes,
         str_join "|" x_order = Ok classes /\
         x <> [] /\ re_compiles classes = true /\
         df2 = loc_rows (fun r => re_search classes (r_x r))
                 (drop_missing df0)) /\
    (if is_None color
     then exists cmap,
         config_item w config "cmap" = Some cmap /\
         assign_color (fromlist (col_y df2) cmap) df2 = Ok df3
     else df3 = df2) /\
    df = reset_index df3.
Proof.
  unfold set_edge_properties, invalid_input.
  repeat (rewrite check_step; cbv beta).
  rewrite !raise_logged_result.
  destruct (negb (List.length x =? List.length y)%nat);
    [destruct lg; discriminate|].
  destruct (is_None size); [destruct lg; discriminate|].
  destruct (array_of_other_length size (List.length x));
    [destruct lg; discriminate|].
  destruct (is_None stroke); [destruct lg; discriminate|].
  destruct (array_of_other_length stroke (List.length x));
    [destruct lg; discriminate|].
  destruct (is_None opacity); [destruct lg; discriminate|].
  destruct (array_of_other_length opacity (List.length x));
    [destruct lg; discriminate|].
  intros H.
  apply bind_Ok_inv in H as (df0 & w1 & H0 & H).
  apply lift_Ok_inv in H0 as [HDF ->].
  apply bind_Ok_inv in H as (df1 & w1 & H1 & H).
  assert (df1 = drop_missing df0 /\ same_objects w w1) as [-> Hw1].
  { destruct (existsb (fun b => b) (map isna (col_y df0))) eqn:Hex.
    - apply bind_Ok_inv in H1 as (u & w2 & Hl & Hr).
      apply logger_info_Ok_inv in Hl as [_ ->].
      apply ret_Ok_inv in Hr as [<- ->].
      split; [reflexivity | apply same_objects_log].
    - apply ret_Ok_inv in H1 as [<- ->].
      split; [|apply same_objects_refl].
      unfold drop_missing. symmetry. apply loc_rows_all.
      now apply no_missing_forallb. }
  apply bind_Ok_inv in H as (x_order & w2 & Hg & H).
  apply getitem_Ok_inv in Hg as [-> Hxo].
  apply bind_Ok_inv in H as (df2 & w2 & H2 & H).
  assert ((if is_None x_order then df2 = drop_missing df0
           else exists classes,
               str_join "|" x_order = Ok classes /\
               x <> [] /\ re_compiles classes = true /\
               df2 = loc_rows (fun r => re_search classes (r_x r))
                       (drop_missing df0)) /\ same_objects w1 w2)
    as [Hdf2 Hw2].
  { destruct (is_None x_order); simpl in H2.
    - apply ret_Ok_inv in H2 as [<- ->].
      split; [reflexivity | apply same_objects_refl].
    - apply bind_Ok_inv in H2 as (classes & w3 & Hj & H2).
      apply lift_Ok_inv in Hj as [Hj ->].
      apply bind_Ok_inv in H2 as (u1 & w3 & Hx & H2).
      apply when_raise_Ok_inv in Hx as [Hx ->].
      apply bind_Ok_inv in H2 as (u2 & w3 & Hc & H2).
      apply when_raise_Ok_inv in Hc as [Hc ->].
      apply bind_Ok_inv in H2 as (u & w3 & Hl & Hr).
      apply logger_info_Ok_inv in Hl as [_ ->].
      apply ret_Ok_inv in Hr as [<- ->].
      split; [|apply same_objects_log].
      exists classes. split; [exact Hj|]. split.
      + intros ->. discriminate Hx.
      + split; [now apply negb_false_iff in Hc | reflexivity]. }
  apply bind_Ok_inv in H as (df3 & w3 & H3 & H).
  assert ((if is_None color
           then exists cmap,
               config_item w config "cmap" = Some cmap /\
               assign_color (fromlist (col_y df2) cmap) df2 = Ok df3
           else df3 = df2) /\ w3 = w2) as [Hdf3 ->].
  { destruct (is_None color).
    - apply bind_Ok_inv in H3 as (cmap & w4 & Hg & H3).
      apply getitem_Ok_inv in Hg as [-> Hcm].
      apply lift_Ok_inv in H3 as [Ha ->].
      split; [|reflexivity]. exists cmap. split; [|exact Ha].
      rewrite <- Hcm. symmetry. apply same_objects_config_item.
      eapply same_objects_trans; eauto.
    - apply ret_Ok_inv in H3 as [<- ->]. now split. }
  apply bind_Ok_inv in H as (u & w4 & Hl & Hr).
  apply logger_info_Ok_inv in Hl as [-> ->].
  apply ret_Ok_inv in Hr as [<- ->].
  split; [reflexivity|].
  split; [eapply same_objects_trans;
          [eapply same_objects_trans; eauto | apply same_objects_log]|].
  split; [reflexivity|].
  exists df0, x_order, df2, df3. repeat split; auto.
  rewrite <- Hxo. symmetry. now apply same_objects_config_item.
Qed.

Lemma column_Ok (n : nat) (v : value) :
  array_of_other_length v n = false -> exists l, column n v = Ok l.
Proof.
  destruct v; simpl; eauto.
  intros H. apply negb_false_iff in H. rewrite H. eauto.
Qed.

Lemma bind_lift_Ok {A B} (a : A) (k : A -> M B) (w : world) :
  bind (lift (Ok a)) k w = k a w.
Proof. reflexivity. Qed.

Lemma bind_lift_Ok_eta {A B} (a : A) (k : A -> M B) :
  bind (lift (Ok a)) k = k a.
Proof. reflexivity. Qed.

(** An input that passes the checks, with colours and tooltips that fit the
    rows, makes a table. *)
Lemma DataFrame_Ok (x : list string) (y : list value)
  (color size stroke opacity tooltip : value) :
  invalid_input x y size stroke opacity = false ->
  array_of_other_length color (List.length x) = false ->
  array_of_other_length tooltip (List.length x) = false ->
  exists df0, DataFrame x y color size stroke opacity tooltip = Ok df0.
Proof.
  intros Hvalid Hcol Htip. unfold invalid_input in Hvalid.
  repeat (apply orb_false_iff in Hvalid as [Hvalid ?]).
  apply negb_false_iff, Nat.eqb_eq in Hvalid.
  unfold DataFrame.
  destruct (column_Ok (List.length x) (VList y)) as [ys ->].
  { simpl. rewrite <- Hvalid. now rewrite Nat.eqb_refl. }
  destruct (column_Ok _ _ Hcol) as [cs ->].
  destruct (column_Ok (List.length x) size) as [ss ->]; [assumption|].
  destruct (column_Ok (List.length x) stroke) as [ks ->]; [assumption|].
  destruct (column_Ok (List.length x) opacity) as [os ->]; [assumption|].
  destruct (column_Ok _ _ Htip) as [ts ->]. eauto.
Qed.

(** The categories of the rows that have a [y], read off the table and read
    off the two sequences. *)
Lemma DataFrame_with_y (x : list string) (y : list value)
  (color size stroke opacity tooltip : value) (df0 : frame) :
  DataFrame x y color size stroke opacity tooltip = Ok df0 ->
  map r_x (filter (fun r => negb (isna (r_y r))) (rows df0))
  = map fst (filter (fun xy => negb (isna (snd xy))) (combine x y)).
Proof.
  unfold DataFrame. simpl column at 1.
  destruct (List.length y =? List.length x)%nat eqn:Hlen; [|discriminate].
  apply Nat.eqb_eq in Hlen.
  destruct (column (List.length x) color) as [cs|]; [|discriminate].
  destruct (column (List.length x) size) as [ss|]; [|discriminate].
  destruct (column (List.length x) stroke) as [ks|]; [|discriminate].
  destruct (column (List.length x) opacity) as [os|]; [|discriminate].
  destruct (column (List.length x) tooltip) as [ts|]; [|discriminate].
  intros H. inversion H; subst df0; clear H.
  rewrite (combine_nth_seq x y "" VNone Hlen).
  unfold rows. rewrite map_map. simpl.
  rewrite !filter_map_comm, !map_map. simpl.
  f_equal. apply filter_ext. intros i. now rewrite isna_nth_infer.
Qed.

(** The table of the example: the int beside [None] has become a float. *)
Lemma DataFrame_example :
  DataFrame ["a"; "b"] [VInt 1; VNone] default_color default_size
    default_stroke default_opacity default_tooltip
  = Ok [(0, mkRow "a" (VFloat 1) VNone default_size default_stroke
                  default_opacity default_tooltip false);
        (1, mkRow "b" (VFloat nan) VNone default_size default_stroke
                  default_opacity default_tooltip false)].
Proof. vm_compute. reflexivity. Qed.

Lemma set_edge_properties_example (config : loc) (w : world) (cmap : value) :
  config_item w config "x_order" = Some VNone ->
  config_item w config "cmap" = Some cmap ->
  List.length (fromlist [VFloat 1] cmap) = 1 ->
  exists df w',
    set_edge_properties ["a"; "b"] [VInt 1; VNone] config default_color
      default_size default_stroke default_opacity default_tooltip Logger w
    = (Ok df, w') /\
    List.length df = 1 /\ col_x df = ["a"] /\ col_y df = [VFloat 1].
Proof.
  intros Hxo Hcm Hlen.
  destruct (fromlist [VFloat 1] cmap) as [|c [|c' cs]] eqn:Hfl;
    try discriminate.
  unfold set_edge_properties.
  repeat (rewrite check_step; cbv beta).
  rewrite DataFrame_example, bind_lift_Ok.
  cbn -[getitem fromlist].
  erewrite bind_Ok; [|apply getitem_result; unfold config_item; exact Hxo].
  cbn -[getitem fromlist].
  erewrite bind_Ok;
    [|erewrite bind_Ok; [|apply getitem_result; unfold config_item; exact Hcm];
      cbn -[fromlist]; unfold col_y, rows; cbn -[fromlist]; rewrite Hfl;
      reflexivity].
  cbn. eexists. eexists. split; [reflexivity|]. repeat split.
Qed.

(** Without a logger the call of the example ends at the record that
    reports the removed row. *)
Lemma set_edge_properties_example_no_logger (config : loc) (w : world) :
  set_edge_properties ["a"; "b"] [VInt 1; VNone] config default_color
    default_size default_stroke default_opacity default_tooltip LoggerNone w
  = (Raise AttributeError, w).
Proof.
  unfold set_edge_properties.
  repeat (rewrite check_step; cbv beta).
  rewrite DataFrame_example, bind_lift_Ok.
  reflexivity.
Qed.

(** With a logger, an input that passes the checks, colours and tooltips
    that fit the rows, categories (if any) that make a well-formed pattern
    for a table that is not empty, and one colour per value from
    [colourmap], the call returns a record set. *)
Lemma set_edge_properties_returns (x : list string) (y : list value)
  (config : loc) (color size stroke opacity tooltip : value) (w : world)
  (x_order : value) :
  invalid_input x y size stroke opacity = false ->
  array_of_other_length color (List.length x) = false ->
  array_of_other_length tooltip (List.length x) = false ->
  config_item w config "x_order" = Some x_order ->
  (x_order = VNone \/
   exists classes,
     str_join "|" x_order = Ok classes /\
     x <> [] /\ re_compiles classes = true) ->
  (color = VNone ->
   exists cmap,
     config_item w config "cmap" = Some cmap /\
     forall ys, List.length (fromlist ys cmap) = List.length ys) ->
  exists df w',
    set_edge_properties x y config color size stroke opacity tooltip Logger w
    = (Ok df, w').
Proof.
  intros Hvalid Hcol Htip Hxo Hjoin Hcmap.
  assert (forall e,
             fst (set_edge_properties x y config color size stroke opacity
                    tooltip Logger w) <> Raise e) as Hrun.
  { intros e.
    destruct (DataFrame_Ok x y color size stroke opacity tooltip Hvalid Hcol
                Htip) as [df0 HDF].
    unfold invalid_input in Hvalid.
    repeat (apply orb_false_iff in Hvalid as [Hvalid ?]).
    unfold set_edge_properties.
    repeat (rewrite check_step; cbv beta).
    repeat match goal with
           | H : _ = false |- context [if ?c then _ else _] =>
               rewrite H
           end.
    rewrite HDF, bind_lift_Ok.
    destruct (existsb (fun b => b) (map isna (col_y df0)));
      (erewrite bind_Ok; [|reflexivity]; cbv beta;
       (erewrite bind_Ok; [|apply getitem_result; exact Hxo]); cbv beta).
    all: destruct Hjoin as [-> | (classes & Hj & Hx & Hre)].
    all: try (assert ((List.length x =? 0)%nat = false) as Hz
                by (destruct x; [congruence | reflexivity]);
              destruct (is_None x_order);
              [|rewrite Hj, bind_lift_Ok_eta, Hz, Hre]).
    all: erewrite bind_Ok; [|reflexivity]; cbv beta.
    all: destruct (is_None color) eqn:Hc;
      [apply is_None_true in Hc;
       destruct (Hcmap Hc) as (cmap & Hcm & Hlen);
       (erewrite bind_Ok;
        [|erewrite bind_Ok; [|apply getitem_result; exact Hcm]; cbv beta;
          unfold assign_color, lift;
          rewrite Hlen; unfold col_y, rows; rewrite !length_map;
          rewrite Nat.eqb_refl; reflexivity])
      |erewrite bind_Ok; [|reflexivity]]; cbv beta.
    all: discriminate. }
  destruct (set_edge_properties x y config color size stroke opacity tooltip
              Logger w) as [[df|e] w'].
  - eauto.
  - exfalso. now apply (Hrun e).
Qed.

(** C4, as the code has it.  Every record set that the preparer returns
    has no missing [y] and its rows are numbered 0, 1, 2, ...; with no
    category order configured its rows are exactly the rows of the input
    that have a [y].  On x = a, b and y = 1, None the call returns one row,
    with [y] the float 1.0, when it is given a logger; with the logger left
    at [None] it raises an [AttributeError] where the removed row is to be
    logged, and returns nothing.  With a logger, no category order,
    an input that passes the checks and collaborators that fit, the call
    returns. *)
Theorem set_edge_properties_drops_missing_y :
  (forall (x : list string) (y : list value) (config : loc)
          (color size stroke opacity tooltip : value) (lg : logger)
          (w w' : world) (df : frame),
      set_edge_properties x y config color size stroke opacity tooltip lg w
      = (Ok df, w') ->
      Forall (fun v => isna v = false) (col_y df) /\
      index_labels df = seq 0 (List.length df) /\
      (config_item w config "x_order" = Some VNone ->
       col_x df = categories_with_y x y /\
       exists df0,
         DataFrame x y color size stroke opacity tooltip = Ok df0 /\
         map uncoloured (rows df)
         = map uncoloured
             (filter (fun r => negb (isna (r_y r))) (rows df0)))) /\
  (forall (config : loc) (w : world) (cmap : value),
      config_item w config "x_order" = Some VNone ->
      config_item w config "cmap" = Some cmap ->
      List.length (fromlist [VFloat 1] cmap) = 1 ->
      exists df w',
        set_edge_properties ["a"; "b"] [VInt 1; VNone] config default_color
          default_size default_stroke default_opacity default_tooltip
          Logger w
        = (Ok df, w') /\
        List.length df = 1 /\ col_x df = ["a"] /\ col_y df = [VFloat 1]) /\
  (forall (config : loc) (w : world),
      set_edge_properties ["a"; "b"] [VInt 1; VNone] config default_color
        default_size default_stroke default_opacity default_tooltip
        LoggerNone w
      = (Raise AttributeError, w)) /\
  (forall (x : list string) (y : list value) (config : loc)
          (color size stroke opacity tooltip : value) (w : world),
      invalid_input x y size stroke opacity = false ->
      array_of_other_length color (List.length x) = false ->
      array_of_other_length tooltip (List.length x) = false ->
      config_item w config "x_order" = Some VNone ->
      (color = VNone ->
       exists cmap,
         config_item w config "cmap" = Some cmap /\
         forall ys, List.length (fromlist ys cmap) = List.length ys) ->
      exists df w',
        set_edge_properties x y config color size stroke opacity tooltip
          Logger w
        = (Ok df, w')).
Proof.
  split; [|split;
           [apply set_edge_properties_example
           |split;
            [apply set_edge_properties_example_no_logger
            |intros; eapply set_edge_properties_returns; eauto]]].
  intros x y config color size stroke opacity tooltip lg w w' df H.
  apply set_edge_properties_Ok_inv in H
    as (_ & _ & _ & df0 & x_order & df2 & df3 & HDF & Hxo & H2 & H3 & ->).
  assert (Forall (fun v => isna v = false) (col_y df2)) as Hy2.
  { assert (Forall (fun v => isna v = false) (col_y (drop_missing df0)))
      as Hd.
    { unfold col_y, drop_missing. rewrite rows_loc_rows.
      rewrite Forall_forall. intros v Hv.
      apply in_map_iff in Hv as (r & <- & Hr).
      apply filter_In in Hr as [_ Hr]. now apply negb_true_iff in Hr. }
    destruct (is_None x_order); [now subst df2|].
    destruct H2 as (classes & _ & _ & _ & ->).
    unfold col_y in *. rewrite rows_loc_rows.
    rewrite Forall_forall in *. intros v Hv.
    apply in_map_iff in Hv as (r & <- & Hr).
    apply filter_In in Hr as [Hr _]. apply Hd. now apply in_map. }
  assert (map uncoloured (rows df3) = map uncoloured (rows df2) /\
          col_y df3 = col_y df2 /\ col_x df3 = col_x df2)
    as (Hr3 & Hy3 & Hx3).
  { destruct (is_None color); [|now subst df3].
    destruct H3 as (cmap & _ & Ha).
    now apply assign_color_rows in Ha. }
  split; [|split].
  - unfold col_y in *. rewrite rows_reset_index. now rewrite Hy3.
  - rewrite index_reset_index. now rewrite reset_index_length.
  - intros Hxo'. rewrite Hxo in Hxo'. inversion Hxo'; subst x_order.
    simpl in H2. subst df2. split.
    + unfold col_x in *. rewrite rows_reset_index, Hx3.
      unfold drop_missing. rewrite rows_loc_rows.
      now apply DataFrame_with_y in HDF.
    + exists df0. split; [exact HDF|].
      rewrite rows_reset_index, Hr3. unfold drop_missing.
      now rewrite rows_loc_rows.
Qed.





End Preparer.


(** ** The configuration builder *)

Lemma world_at (w : world) (c : loc) (d : Dict.t value) :
  nth_error (dicts w) c = Some d ->
  w = mkWorld (list_set c d (dicts w)) (frames w) (files w) (log w).
Proof.
  intros H. rewrite (list_set_same _ _ _ H). now destruct w.
Qed.

Lemma setitem_at (w : world) (c : loc) (d : Dict.t value) (k : string)
  (v : value) :
  c < List.length (dicts w) ->
  setitem c k v (mkWorld (list_set c d (dicts w)) (frames w) (files w) (log w))
  = (Ok tt,
     mkWorld (list_set c (Dict.set k v d) (dicts w)) (frames w) (files w)
             (log w)).
Proof.
  intros Hc. unfold setitem, getdict, putdict, bind. simpl.
  rewrite nth_error_list_set_eq by exact Hc. simpl.
  now rewrite list_set_twice.
Qed.

Section Configuration.
Context {E : Externals}.

Lemma set_config_run (config : option loc) (kwargs : Dict.t value)
  (w : world) (d : Dict.t value) :
  config_object config < List.length (dicts w) ->
  exists d',
    set_config config kwargs
      (mkWorld (list_set (config_object config) d (dicts w)) (frames w)
               (files w) (log w))
    = (Ok (config_object config),
       mkWorld (list_set (config_object config) d' (dicts w)) (frames w)
               (files w) (log w)) /\
    Dict.get "chart" d' = Some (VStr "violin") /\
    Dict.get "filepath" d'
    = Some (set_path (kwargs_get kwargs "filepath" (VStr "violin.html"))) /\
    (forall k default,
        In (k, default) option_defaults ->
        Dict.get k d' = Some (kwargs_get kwargs k default)) /\
    (forall k, ~ In k recognized_options -> Dict.get k d' = Dict.get k d).
Proof.
  intros Hlt. eexists. split.
  - unfold set_config. fold (config_object config). cbv zeta.
    repeat (erewrite bind_Ok; [|apply setitem_at; exact Hlt]).
    reflexivity.
  - split; [|split; [|split]].
    + now rewrite !dict_get_set.
    + now rewrite !dict_get_set.
    + intros k default Hin. simpl in Hin.
      repeat (destruct Hin as [Hin|Hin];
              [inversion Hin; subst; now rewrite !dict_get_set|]).
      contradiction.
    + intros k Hk.
      repeat (rewrite dict_get_set_other;
              [|intros <-; apply Hk; simpl; tauto]).
      reflexivity.
Qed.

(** C9, as the code has it: [set_config] writes every recognized option,
    the override or else the stated default, into the dict object it was
    given (the caller's, or the one shared default object) and returns this
    object.  Keys that are not options are neither added from the overrides
    nor touched in the dict, and no other dict, no table, no file and no log
    record changes. *)
Theorem set_config_populates (config : option loc) (kwargs : Dict.t value)
  (w : world) (d : Dict.t value) :
  nth_error (dicts w) (config_object config) = Some d ->
  exists d',
    set_config config kwargs w
    = (Ok (config_object config),
       mkWorld (list_set (config_object config) d' (dicts w)) (frames w)
               (files w) (log w)) /\
    Dict.get "chart" d' = Some (VStr "violin") /\
    Dict.get "filepath" d'
    = Some (set_path (kwargs_get kwargs "filepath" (VStr "violin.html"))) /\
    (forall k default,
        In (k, default) option_defaults ->
        Dict.get k d' = Some (kwargs_get kwargs k default)) /\
    (forall k, ~ In k recognized_options -> Dict.get k d' = Dict.get k d).
Proof.
  intros Hd.
  destruct (set_config_run config kwargs w d (nth_error_Some_lt _ _ _ Hd))
    as (d' & Hrun & Hprops).
  exists d'. split; [|exact Hprops].
  rewrite <- Hrun. f_equal. apply world_at. exact Hd.
Qed.

End Configuration.

(** ** What a computation leaves alone *)

Lemma preserves_bind {A B T} (f : world -> T) (m : M A) (k : A -> M B) :
  preserves f m -> (forall a, preserves f (k a)) -> preserves f (bind m k).
Proof.
  intros Hm Hk w. unfold bind. specialize (Hm w).
  destruct (m w) as [[a|e] w1]; simpl in *.
  - now rewrite Hk.
  - exact Hm.
Qed.

Lemma preserves_ret {A T} (f : world -> T) (a : A) : preserves f (ret a).
Proof. now intros w. Qed.

Lemma preserves_raise {A T} (f : world -> T) (e : exn) :
  preserves f (@raise A e).
Proof. now intros w. Qed.

Lemma preserves_lift {A T} (f : world -> T) (o : outcome A) :
  preserves f (lift o).
Proof. now intros w. Qed.

Lemma preserves_when {T} (f : world -> T) (c : bool) (body : M unit) :
  preserves f body -> preserves f (when c body).
Proof. destruct c; simpl; auto using preserves_ret. Qed.

Lemma preserves_getdict {T} (f : world -> T) (c : loc) :
  preserves f (getdict c).
Proof. intros w. unfold getdict. now destruct (nth_error (dicts w) c). Qed.

Lemma preserves_getitem {T} (f : world -> T) (c : loc) (k : string) :
  preserves f (getitem c k).
Proof.
  apply preserves_bind; [apply preserves_getdict|].
  intros d. destruct (Dict.get k d);
    auto using preserves_ret, preserves_raise.
Qed.

Lemma preserves_getframe {T} (f : world -> T) (l : loc) :
  preserves f (getframe l).
Proof. intros w. unfold getframe. now destruct (nth_error (frames w) l). Qed.

Lemma preserves_isfile {T} (f : world -> T) (path : string) :
  preserves f (isfile path).
Proof. now intros w. Qed.

Lemma preserves_Ok {A T} (f : world -> T) (m : M A) (w w' : world)
  (r : outcome A) :
  preserves f m -> m w = (r, w') -> f w' = f w.
Proof. intros Hm H. specialize (Hm w). now rewrite H in Hm. Qed.

Lemma config_item_of_dicts {A} (m : M A) (c : loc) (k : string) :
  preserves dicts m -> preserves (fun w => config_item w c k) m.
Proof. intros H w. unfold config_item. now rewrite H. Qed.

Lemma setitem_other_key (c c' : loc) (k k' : string) (v : value) :
  k <> k' -> preserves (fun w => config_item w c' k') (setitem c k v).
Proof.
  intros Hk w. unfold setitem, getdict, putdict, bind, config_item.
  destruct (nth_error (dicts w) c) as [d|] eqn:Hd; simpl; [|reflexivity].
  destruct (Nat.eq_dec c c') as [<-|Hc].
  - rewrite nth_error_list_set_eq by (eapply nth_error_Some_lt; eauto).
    rewrite Hd. now apply dict_get_set_other.
  - now rewrite nth_error_list_set_neq.
Qed.

Lemma setitem_Ok_inv (c : loc) (k : string) (v : value) (w w' : world)
  (u : unit) :
  setitem c k v w = (Ok u, w') -> config_item w' c k = Some v.
Proof.
  unfold setitem, getdict, putdict, bind, config_item.
  destruct (nth_error (dicts w) c) as [d|] eqn:Hd; [|discriminate].
  intros H. inversion H; subst w'; clear H. simpl.
  rewrite nth_error_list_set_eq by (eapply nth_error_Some_lt; eauto).
  apply dict_get_set_same.
Qed.

Lemma setitem_result (c : loc) (k : string) (v : value) (w : world)
  (d : Dict.t value) :
  nth_error (dicts w) c = Some d ->
  exists w', setitem c k v w = (Ok tt, w') /\ config_item w' c k = Some v.
Proof.
  intros Hd. eexists. split.
  - unfold setitem, getdict, putdict, bind. rewrite Hd. reflexivity.
  - unfold config_item. simpl.
    rewrite nth_error_list_set_eq by (eapply nth_error_Some_lt; eauto).
    apply dict_get_set_same.
Qed.

Lemma setitem_frames (c : loc) (k : string) (v : value) :
  preserves frames (setitem c k v).
Proof.
  intros w. unfold setitem, getdict, putdict, bind.
  now destruct (nth_error (dicts w) c).
Qed.

Lemma putframe_dicts (l : loc) (df : frame) : preserves dicts (putframe l df).
Proof. now intros w. Qed.

Lemma write_file_dicts (path content : string) :
  preserves dicts (write_file path content).
Proof. now intros w. Qed.

Lemma write_file_frames (path content : string) :
  preserves frames (write_file path content).
Proof. now intros w. Qed.

Lemma remove_file_dicts (path : string) : preserves dicts (remove_file path).
Proof. now intros w. Qed.

Lemma remove_file_frames (path : string) :
  preserves frames (remove_file path).
Proof. now intros w. Qed.

Lemma logger_info_dicts (lg : logger) (msg : string) :
  preserves dicts (logger_info lg msg).
Proof. intros w. now destruct lg. Qed.

Lemma logger_info_frames (lg : logger) (msg : string) :
  preserves frames (logger_info lg msg).
Proof. intros w. now destruct lg. Qed.

Create HintDb preserve.

#[global] Hint Resolve preserves_ret preserves_raise preserves_lift
  preserves_getdict preserves_getitem preserves_getframe preserves_isfile
  setitem_frames putframe_dicts write_file_dicts write_file_frames
  remove_file_dicts remove_file_frames logger_info_dicts logger_info_frames
  : preserve.

#[global] Hint Extern 2 (preserves (fun w => config_item w _ _) (setitem _ _ _)) =>
  apply setitem_other_key; discriminate : preserve.

#[global] Hint Extern 5 (preserves (fun w => config_item w _ _) _) =>
  apply config_item_of_dicts : preserve.

Ltac preserve_step :=
  first
    [ solve [auto with preserve]
    | apply preserves_when
    | apply preserves_bind; [|intros ?]
    | match goal with
      | |- preserves _ (if ?c then _ else _) => destruct c
      | |- preserves _ (match ?v with _ => _ end) => destruct v
      end ].

Ltac preserve := repeat preserve_step.

Section Renderer.
Context {E : Externals}.

Lemma get_data_ready_for_d3_dicts (df : loc) :
  preserves dicts (get_data_ready_for_d3 df).
Proof. unfold get_data_ready_for_d3. preserve. Qed.

Lemma write_html_dicts (X : string) (config : loc) (lg : logger) :
  preserves dicts (write_html X config lg).
Proof. unfold write_html. preserve. Qed.

Lemma write_html_frames (X : string) (config : loc) (lg : logger) :
  preserves frames (write_html X config lg).
Proof. unfold write_html. preserve. Qed.

Lemma get_data_ready_for_d3_result (df : loc) (w : world) (fr : frame) :
  nth_error (frames w) df = Some fr ->
  get_data_ready_for_d3 df w
  = (Ok (to_json (y_as_str fr)),
     mkWorld (dicts w) (list_set df (y_as_str fr) (frames w)) (files w)
             (log w)).
Proof.
  intros Hfr. unfold get_data_ready_for_d3, getframe, putframe, bind.
  now rewrite Hfr.
Qed.

(** The steps of a call of [show] that returns: the store [w2] after the
    tooltip test still has the tables of the start and has the three mouse
    bindings set; then the table is serialized and the page written. *)
Lemma show_Ok_inv (df config : loc) (node_properties : Dict.t node)
  (lg : logger) (w w' : world) (c : loc) :
  show df config node_properties lg w = (Ok c, w') ->
  exists w2 w3 X,
    frames w2 = frames w /\
    (forall fr,
        nth_error (frames w) df = Some fr ->
        config_item w2 config "mouseover"
        = Some (VStr (if tooltips_off fr then "" else mouseover_binding)) /\
        config_item w2 config "mousemove"
        = Some (VStr (if tooltips_off fr then "" else mousemove_binding)) /\
        config_item w2 config "mouseleave"
        = Some (VStr (if tooltips_off fr then "" else mouseleave_binding))) /\
    get_data_ready_for_d3 df w2 = (Ok X, w3) /\
    write_html X config lg w3 = (Ok tt, w') /\
    c = config.
Proof.
  unfold show, convert_dataframe_dict. intros H.
  apply bind_Ok_inv in H as (ylim & w1 & H1 & H).
  apply (preserves_Ok frames) in H1; [|preserve].
  apply bind_Ok_inv in H as (auto_ylim & w1' & H2 & H).
  apply (preserves_Ok frames) in H2; [|preserve].
  apply bind_Ok_inv in H as (u3 & w3 & H3 & H).
  apply (preserves_Ok frames) in H3; [|preserve].
  apply bind_Ok_inv in H as (x_order & w4 & H4 & H).
  apply (preserves_Ok frames) in H4; [|preserve].
  apply bind_Ok_inv in H as (u5 & w5 & H5 & H).
  apply (preserves_Ok frames) in H5; [|preserve].
  apply bind_Ok_inv in H as (figsize & w6 & H6 & H).
  apply (preserves_Ok frames) in H6; [|preserve].
  apply bind_Ok_inv in H as (width & w7 & H7 & H).
  apply (preserves_Ok frames) in H7; [|preserve].
  apply bind_Ok_inv in H as (u8 & w8 & H8 & H).
  apply (preserves_Ok frames) in H8; [|preserve].
  apply bind_Ok_inv in H as (figsize' & w9 & H9 & H).
  apply (preserves_Ok frames) in H9; [|preserve].
  apply bind_Ok_inv in H as (height & w10 & H10 & H).
  apply (preserves_Ok frames) in H10; [|preserve].
  apply bind_Ok_inv in H as (u11 & w11 & H11 & H).
  apply (preserves_Ok frames) in H11; [|preserve].
  assert (frames w11 = frames w) as Hfr11 by congruence.
  clear H1 H2 H3 H4 H5 H6 H7 H8 H9 H10 H11.
  apply bind_Ok_inv in H as (d & w12 & H12 & H).
  assert (w12 = w11 /\ nth_error (frames w11) df = Some d) as [-> Hd].
  { unfold getframe in H12.
    destruct (nth_error (frames w11) df); inversion H12; now subst. }
  apply bind_Ok_inv in H as (u13 & w13 & H13 & H).
  apply bind_Ok_inv in H as (X & w14 & H14 & H).
  apply bind_Ok_inv in H as (u15 & w15 & H15 & H).
  apply ret_Ok_inv in H as [<- ->]. destruct u15.
  exists w13, w14, X.
  assert (frames w13 = frames w11) as Hfr13.
  { apply (preserves_Ok frames) in H13; [exact H13 | preserve]. }
  split; [congruence|].
  split; [|now repeat split].
  intros fr Hfr. rewrite <- Hfr11, Hd in Hfr. inversion Hfr; subst d.
  fold (tooltips_off fr) in H13.
  destruct (tooltips_off fr).
  - apply bind_Ok_inv in H13 as (ua & wa & Ha & H13).
    apply bind_Ok_inv in H13 as (ub & wb & Hb & Hc).
    pose proof (setitem_Ok_inv _ _ _ _ _ _ Ha) as Ga.
    pose proof (setitem_Ok_inv _ _ _ _ _ _ Hb) as Gb.
    pose proof (setitem_Ok_inv _ _ _ _ _ _ Hc) as Gc.
    apply (preserves_Ok (fun w0 => config_item w0 config "mouseover")) in Hb;
      [|preserve].
    pose proof Hc as Hc'.
    apply (preserves_Ok (fun w0 => config_item w0 config "mouseover")) in Hc;
      [|preserve].
    apply (preserves_Ok (fun w0 => config_item w0 config "mousemove")) in Hc';
      [|preserve].
    simpl in *. repeat split; congruence.
  - apply bind_Ok_inv in H13 as (ua & wa & Ha & H13).
    apply bind_Ok_inv in H13 as (ub & wb & Hb & Hc).
    pose proof (setitem_Ok_inv _ _ _ _ _ _ Ha) as Ga.
    pose proof (setitem_Ok_inv _ _ _ _ _ _ Hb) as Gb.
    pose proof (setitem_Ok_inv _ _ _ _ _ _ Hc) as Gc.
    apply (preserves_Ok (fun w0 => config_item w0 config "mouseover")) in Hb;
      [|preserve].
    pose proof Hc as Hc'.
    apply (preserves_Ok (fun w0 => config_item w0 config "mouseover")) in Hc;
      [|preserve].
    apply (preserves_Ok (fun w0 => config_item w0 config "mousemove")) in Hc';
      [|preserve].
    simpl in *. repeat split; congruence.
Qed.

Lemma renderable_inv (w : world) (df config : loc) :
  renderable w df config = true ->
  exists fr d title a b lo hi x_order bins path overwrite,
    nth_error (frames w) df = Some fr /\
    nth_error (dicts w) config = Some d /\
    Dict.get "title" d = Some title /\
    Dict.get "figsize" d = Some (VList [a; b]) /\
    Dict.get "ylim" d = Some (VList [lo; hi]) /\
    Dict.get "x_order" d = Some x_order /\
    Dict.get "bins" d = Some bins /\
    Dict.get "filepath" d = Some (VStr path) /\
    Dict.get "overwrite" d = Some overwrite /\
    (eq_None_None (VList [lo; hi]) = true ->
     exists l, numbers (col_y fr) = Some l).
Proof.
  unfold renderable. intros H.
  repeat match type of H with
         | context [match ?x with _ => _ end] =>
             destruct x eqn:?; try discriminate H
         end;
    subst; do 11 eexists;
    repeat (split; [first [reflexivity | eassumption]|]); intros Hnn.
  - eauto.
  - match goal with
    | Hb : is_None ?lo && is_None ?hi = false |- _ =>
        destruct lo; try discriminate Hnn;
        destruct hi; try discriminate Hnn; discriminate Hb
    end.
Qed.

(** *** Running [show] forward *)

Lemma getitem_at (w : world) (c : loc) (d : Dict.t value) (k : string)
  (v : value) :
  c < List.length (dicts w) ->
  Dict.get k d = Some v ->
  getitem c k (mkWorld (list_set c d (dicts w)) (frames w) (files w) (log w))
  = (Ok v,
     mkWorld (list_set c d (dicts w)) (frames w) (files w) (log w)).
Proof.
  intros Hc Hk. apply getitem_result. unfold config_item. simpl.
  now rewrite nth_error_list_set_eq.
Qed.

Lemma getframe_at (w : world) (c l : loc) (d : Dict.t value) (fr : frame) :
  nth_error (frames w) l = Some fr ->
  getframe l (mkWorld (list_set c d (dicts w)) (frames w) (files w) (log w))
  = (Ok fr,
     mkWorld (list_set c d (dicts w)) (frames w) (files w) (log w)).
Proof. intros H. unfold getframe. simpl. now rewrite H. Qed.

Ltac dict_lookup :=
  rewrite ?dict_get_set; simpl; first [reflexivity | eassumption].

Ltac run_to_Ok Hlt :=
  unfold when; cbv beta iota;
  try match goal with
      | H : padded_range _ _ = Ok _ |- _ => rewrite ?H
      end;
  first
    [ apply getitem_at; [exact Hlt | dict_lookup]
    | apply setitem_at; exact Hlt
    | apply getframe_at; eassumption
    | reflexivity
    | erewrite bind_Ok; [|solve [run_to_Ok Hlt]]; run_to_Ok Hlt ].

Ltac run_step Hlt :=
  erewrite bind_Ok; [|solve [run_to_Ok Hlt]]; cbv beta.

Lemma write_html_returns (X : string) (config : loc) (lg : logger)
  (w : world) (d : Dict.t value)
  (title fa fb ya yb x_order bins mo mm ml overwrite : value)
  (path : string) :
  nth_error (dicts w) config = Some d ->
  Dict.get "title" d = Some title ->
  Dict.get "figsize" d = Some (VList [fa; fb]) ->
  Dict.get "ylim" d = Some (VList [ya; yb]) ->
  Dict.get "x_order" d = Some x_order ->
  Dict.get "bins" d = Some bins ->
  Dict.get "mouseover" d = Some mo ->
  Dict.get "mousemove" d = Some mm ->
  Dict.get "mouseleave" d = Some ml ->
  Dict.get "filepath" d = Some (VStr path) ->
  Dict.get "overwrite" d = Some overwrite ->
  exists w', write_html X config lg w = (Ok tt, w').
Proof.
  intros Hd Ht Hf Hy Hx Hb Hmo Hmm Hml Hp Ho.
  assert (forall k v, Dict.get k d = Some v -> getitem config k w = (Ok v, w))
    as Hget.
  { intros k v Hk. apply getitem_result. unfold config_item.
    now rewrite Hd. }
  unfold write_html.
  repeat (erewrite bind_Ok;
          [|first [apply Hget; eassumption | reflexivity]]; cbv beta).
  destruct (truthy overwrite).
  - erewrite bind_Ok; [|reflexivity]. cbv beta.
    destruct (Dict.mem path (files w)); destruct lg; eexists; reflexivity.
  - erewrite bind_Ok; [|reflexivity]. cbv beta.
    eexists; reflexivity.
Qed.

Lemma show_run (df config : loc) (node_properties : Dict.t node)
  (lg : logger) (w : world) (fr : frame) (d : Dict.t value)
  (title a b lo hi x_order bins overwrite : value) (path : string) :
  config < List.length (dicts w) ->
  nth_error (frames w) df = Some fr ->
  Dict.get "title" d = Some title ->
  Dict.get "figsize" d = Some (VList [a; b]) ->
  Dict.get "ylim" d = Some (VList [lo; hi]) ->
  Dict.get "x_order" d = Some x_order ->
  Dict.get "bins" d = Some bins ->
  Dict.get "filepath" d = Some (VStr path) ->
  Dict.get "overwrite" d = Some overwrite ->
  (eq_None_None (VList [lo; hi]) = true ->
   exists l, numbers (col_y fr) = Some l) ->
  fst (show df config node_properties lg
         (mkWorld (list_set config d (dicts w)) (frames w) (files w) (log w)))
  = Ok config.
Proof.
  intros Hlt Hfr Ht Hf Hy Hx Hb Hp Ho Hnum.
  unfold show, convert_dataframe_dict.
  run_step Hlt.
  destruct (eq_None_None (VList [lo; hi])) eqn:Hauto.
  - destruct Hnum as [l Hl]; [reflexivity|].
    destruct (padded_range_numbers (y_object fr) _ _ Hl)
      as (low & high & Hpr).
    run_step Hlt. run_step Hlt. run_step Hlt.
    destruct (is_None x_order); run_step Hlt; run_step Hlt; run_step Hlt;
      (destruct (is_None a); run_step Hlt; run_step Hlt; run_step Hlt;
       (destruct (is_None b); run_step Hlt; run_step Hlt;
        (destruct (forallb eq_empty_str (col_tooltip fr)
                   || forallb isna (col_tooltip fr));
         run_step Hlt;
         (erewrite bind_Ok;
          [|apply get_data_ready_for_d3_result; exact Hfr]; cbv beta;
          match goal with
          | |- fst (bind (write_html ?X ?c ?g) _ ?w0) = _ =>
              let Hw := fresh in
              assert (exists w', write_html X c g w0 = (Ok tt, w')) as [w' Hw];
              [eapply write_html_returns;
               [simpl; apply nth_error_list_set_eq; exact Hlt
               |dict_lookup..]
              |rewrite (bind_Ok _ _ _ _ _ Hw); reflexivity]
          end)))).
  - clear Hnum.
    run_step Hlt. run_step Hlt. run_step Hlt.
    destruct (is_None x_order); run_step Hlt; run_step Hlt; run_step Hlt;
      (destruct (is_None a); run_step Hlt; run_step Hlt; run_step Hlt;
       (destruct (is_None b); run_step Hlt; run_step Hlt;
        (destruct (forallb eq_empty_str (col_tooltip fr)
                   || forallb isna (col_tooltip fr));
         run_step Hlt;
         (erewrite bind_Ok;
          [|apply get_data_ready_for_d3_result; exact Hfr]; cbv beta;
          match goal with
          | |- fst (bind (write_html ?X ?c ?g) _ ?w0) = _ =>
              let Hw := fresh in
              assert (exists w', write_html X c g w0 = (Ok tt, w')) as [w' Hw];
              [eapply write_html_returns;
               [simpl; apply nth_error_list_set_eq; exact Hlt
               |dict_lookup..]
              |rewrite (bind_Ok _ _ _ _ _ Hw); reflexivity]
          end)))).
Qed.

(** On a renderable store [show] returns the configuration. *)
Lemma show_returns (df config : loc) (node_properties : Dict.t node)
  (lg : logger) (w : world) :
  renderable w df config = true ->
  exists w', show df config node_properties lg w = (Ok config, w').
Proof.
  intros H.
  apply renderable_inv in H
    as (fr & d & title & a & b & lo & hi & x_order & bins & path & overwrite
        & Hfr & Hd & Ht & Hf & Hy & Hx & Hb & Hp & Ho & Hnum).
  pose proof (show_run df config node_properties lg w fr d title a b lo hi
                x_order bins overwrite path (nth_error_Some_lt _ _ _ Hd)
                Hfr Ht Hf Hy Hx Hb Hp Ho Hnum) as Hrun.
  rewrite <- (world_at w config d Hd) in Hrun.
  destruct (show df config node_properties lg w) as [r w'].
  simpl in Hrun. subst r. eauto.
Qed.

(** With [ylim] equal to [[None, None]] or empty, the bounds computed from
    the [y] column are in the configuration after the call, whatever the
    rest of the call does. *)
Lemma show_sets_padded_range (df config : loc)
  (node_properties : Dict.t node) (lg : logger) (w : world) (fr : frame)
  (ylim bounds : value) :
  config_item w config "ylim" = Some ylim ->
  eq_None_None ylim = true \/ py_len ylim = Ok 0 ->
  nth_error (frames w) df = Some fr ->
  padded_range (y_object fr) (col_y fr) = Ok bounds ->
  config_item (snd (show df config node_properties lg w)) config "ylim"
  = Some bounds.
Proof.
  intros Hyl Hauto Hfr Hpr.
  assert (exists d, nth_error (dicts w) config = Some d) as [d Hd].
  { unfold config_item in Hyl.
    destruct (nth_error (dicts w) config); [eauto | discriminate]. }
  unfold show, convert_dataframe_dict.
  rewrite (bind_Ok _ _ _ _ _ (getitem_result config "ylim" w ylim Hyl)).
  assert ((if eq_None_None ylim then ret true
           else n <- lift (py_len ylim) ;; ret (n =? 0)%nat) w
          = (Ok true, w)) as Hstep.
  { destruct (eq_None_None ylim); [reflexivity|].
    destruct Hauto as [Hauto|Hauto]; [discriminate|].
    unfold bind, lift. now rewrite Hauto. }
  rewrite (bind_Ok _ _ _ _ _ Hstep). clear Hstep.
  destruct (setitem_result config "ylim" bounds w d Hd) as (w1 & Hset & Hget).
  assert (getframe df w = (Ok fr, w)) as Hgf.
  { unfold getframe. now rewrite Hfr. }
  simpl when.
  rewrite (bind_Ok _ _ _ w1 tt).
  - rewrite <- Hget.
    match goal with
    | |- config_item (snd (?m ?w0)) ?c ?k = _ =>
        assert (preserves (fun w2 => config_item w2 c k) m) as Hp by preserve;
        exact (Hp w0)
    end.
  - rewrite (bind_Ok _ _ _ _ _ Hgf). rewrite Hpr.
    unfold bind at 1. unfold lift at 1.
    exact Hset.
Qed.

(** C5, as the code has it.  With [ylim] equal to [[None, None]] or empty,
    [show] sets [ylim] to [[min(y) - y_spacing, max(y) + y_spacing]] with
    [y_spacing = (max(y) - min(y)) * 0.10], and the value is in the
    configuration whatever the rest of the call does.  On a column of floats
    the arithmetic is that of binary64 and missing values are skipped.  On a
    column of dtype int64 the difference [max(y) - min(y)] is taken in
    int64: it is the difference of the two integers when this is below
    2^63, and otherwise it has wrapped around to a negative number, with
    which the bounds are drawn in instead of out.  On Python ints (a column
    of dtype object) and on a column with an int beyond the int64 range the
    difference is the exact one, as long as it and the two extrema round to
    a binary64. *)
Theorem show_auto_ylim (df config : loc) (node_properties : Dict.t node)
  (lg : logger) (w : world) (fr : frame) (ylim : value) :
  config_item w config "ylim" = Some ylim ->
  eq_None_None ylim = true \/ py_len ylim = Ok 0 ->
  nth_error (frames w) df = Some fr ->
  (forall ys : list float,
      col_y fr = map VFloat ys -> not_nan ys <> [] ->
      exists hi lo,
        largest_float hi (not_nan ys) /\ smallest_float lo (not_nan ys) /\
        let y_spacing := ((hi - lo) * spacing)%float in
        config_item (snd (show df config node_properties lg w)) config "ylim"
        = Some (VList [VFloat (lo - y_spacing)%float;
                       VFloat (hi + y_spacing)%float])) /\
  (forall (zs : list Z) (hi lo : Z),
      col_y fr = map VInt zs ->
      y_object fr = false -> forallb in_int64 zs = true ->
      largest hi zs -> smallest lo zs ->
      exists range,
        ((hi - lo <= int64_max)%Z -> range = (hi - lo)%Z) /\
        ((int64_max < hi - lo)%Z -> range = (hi - lo - (uint64_max + 1))%Z) /\
        let y_spacing := (of_Z range * spacing)%float in
        config_item (snd (show df config node_properties lg w)) config "ylim"
        = Some (VList [VFloat (of_Z lo - y_spacing)%float;
                       VFloat (of_Z hi + y_spacing)%float])) /\
  (forall (zs : list Z) (hi lo : Z),
      col_y fr = map VInt zs ->
      y_object fr = true \/ forallb in_int64 zs = false ->
      largest hi zs -> smallest lo zs ->
      (Z.abs lo < float_limit)%Z -> (Z.abs hi < float_limit)%Z ->
      (hi - lo < float_limit)%Z ->
      let y_spacing := (of_Z (hi - lo) * spacing)%float in
      config_item (snd (show df config node_properties lg w)) config "ylim"
      = Some (VList [VFloat (of_Z lo - y_spacing)%float;
                     VFloat (of_Z hi + y_spacing)%float])).
Proof.
  intros Hyl Hauto Hfr. split; [|split].
  - intros ys Hcol Hne.
    destruct (padded_range_floats (y_object fr) ys Hne)
      as (hi & lo & Hhi & Hlo & Hpr).
    exists hi, lo. split; [exact Hhi|]. split; [exact Hlo|].
    rewrite <- Hcol in Hpr.
    exact (show_sets_padded_range df config node_properties lg w fr ylim _
             Hyl Hauto Hfr Hpr).
  - intros zs hi lo Hcol Hobj Hin Hhi Hlo.
    exists (wrap_int64 (hi - lo)).
    assert (int64_min <= hi <= int64_max /\ int64_min <= lo <= int64_max)%Z
      as [Bhi Blo].
    { rewrite forallb_forall in Hin.
      split; apply in_int64_bounds, Hin; [apply Hhi | apply Hlo]. }
    assert (lo <= hi)%Z as Hle.
    { destruct Hhi as [_ Hall]. rewrite Forall_forall in Hall.
      apply Hall, Hlo. }
    split; [|split].
    + intros H. apply wrap_int64_in_range.
      unfold int64_min, int64_max in *. lia.
    + intros H. apply wrap_int64_above.
      unfold int64_min, int64_max in *. lia.
    + pose proof (padded_range_int64 zs hi lo Hin Hhi Hlo) as Hpr.
      rewrite <- Hcol, <- Hobj in Hpr.
      exact (show_sets_padded_range df config node_properties lg w fr ylim _
               Hyl Hauto Hfr Hpr).
  - intros zs hi lo Hcol Hex Hhi Hlo Blo Bhi Brange y_spacing.
    assert (lo <= hi)%Z as Hle.
    { destruct Hhi as [_ Hall]. rewrite Forall_forall in Hall.
      apply Hall, Hlo. }
    pose proof (padded_range_exact (y_object fr) zs hi lo Hex Hhi Hlo) as Hpr.
    rewrite <- Hcol in Hpr.
    assert (((Z.abs (hi - lo) <? float_limit) && (Z.abs lo <? float_limit)
             && (Z.abs hi <? float_limit))%Z = true) as Hfits.
    { rewrite !andb_true_iff, !Z.ltb_lt. lia. }
    rewrite Hfits in Hpr.
    exact (show_sets_padded_range df config node_properties lg w fr ylim _
             Hyl Hauto Hfr Hpr).
Qed.

Lemma show_tooltip_bindings_of_run (df config : loc)
  (node_properties : Dict.t node) (lg : logger) (w w' : world) (c : loc)
  (fr : frame) :
  show df config node_properties lg w = (Ok c, w') ->
  nth_error (frames w) df = Some fr ->
  config_item w' config "mouseover"
  = Some (VStr (if tooltips_off fr then "" else mouseover_binding)) /\
  config_item w' config "mousemove"
  = Some (VStr (if tooltips_off fr then "" else mousemove_binding)) /\
  config_item w' config "mouseleave"
  = Some (VStr (if tooltips_off fr then "" else mouseleave_binding)).
Proof.
  intros H Hfr.
  apply show_Ok_inv in H as (w2 & w3 & X & _ & Hkeys & Hser & Hwr & _).
  specialize (Hkeys fr Hfr).
  assert (dicts w' = dicts w2) as Hdicts.
  { apply (preserves_Ok dicts) in Hwr; [|apply write_html_dicts].
    apply (preserves_Ok dicts) in Hser;
      [|apply get_data_ready_for_d3_dicts].
    congruence. }
  unfold config_item in *. now rewrite Hdicts.
Qed.

(** C6, as the code has it: every call of [show] that returns has set the
    three mouse bindings to the empty text when all tooltips are the empty
    text or all are missing, and to the event snippets otherwise, so also
    for a table whose tooltips are partly empty and partly missing; and on
    a renderable store the call does return. *)
Theorem show_tooltip_bindings (df config : loc)
  (node_properties : Dict.t node) (lg : logger) (w : world) (fr : frame) :
  nth_error (frames w) df = Some fr ->
  (forall c w',
      show df config node_properties lg w = (Ok c, w') ->
      config_item w' config "mouseover"
      = Some (VStr (if tooltips_off fr then "" else mouseover_binding)) /\
      config_item w' config "mousemove"
      = Some (VStr (if tooltips_off fr then "" else mousemove_binding)) /\
      config_item w' config "mouseleave"
      = Some (VStr (if tooltips_off fr then "" else mouseleave_binding))) /\
  (renderable w df config = true ->
   exists w', show df config node_properties lg w = (Ok config, w')).
Proof.
  intros Hfr. split.
  - intros c w' H. eapply show_tooltip_bindings_of_run; eauto.
  - apply show_returns.
Qed.

Lemma show_default_x_order_of_run (df config : loc)
  (node_properties : Dict.t node) (lg : logger) (w w' : world) (c : loc) :
  show df config node_properties lg w = (Ok c, w') ->
  config_item w config "x_order" = Some VNone ->
  config_item w' config "x_order"
  = Some (VStr ("[" ++ concat ", "
                         (map repr_label (Dict.keys node_properties))
                    ++ "]")).
Proof.
  unfold show, convert_dataframe_dict. intros H Hxo.
  apply bind_Ok_inv in H as (ylim & w1 & H1 & H).
  apply (preserves_Ok (fun w0 => config_item w0 config "x_order")) in H1;
    [|preserve].
  apply bind_Ok_inv in H as (auto_ylim & w2 & H2 & H).
  apply (preserves_Ok (fun w0 => config_item w0 config "x_order")) in H2;
    [|preserve].
  apply bind_Ok_inv in H as (u3 & w3 & H3 & H).
  apply (preserves_Ok (fun w0 => config_item w0 config "x_order")) in H3;
    [|preserve].
  simpl in H1, H2, H3.
  apply bind_Ok_inv in H as (x_order & w4 & H4 & H).
  apply getitem_Ok_inv in H4 as [-> H4].
  assert (x_order = VNone) as -> by congruence.
  apply bind_Ok_inv in H as (u5 & w5 & H5 & H).
  simpl in H5. apply setitem_Ok_inv in H5.
  apply (preserves_Ok (fun w0 => config_item w0 config "x_order")) in H;
    [|preserve].
  simpl in H. rewrite H, H5. reflexivity.
Qed.

(** C8, as the code has it: when [x_order] is [None], every call of [show]
    that returns has set it to the text of the list of the label-property
    keys, not to the list itself: Python's [str] of that list, which is the
    [repr] of every key, in the order of insertion, separated by commas and
    between brackets; and on a renderable store the call does return. *)
Theorem show_default_x_order (df config : loc)
  (node_properties : Dict.t node) (lg : logger) (w : world) :
  config_item w config "x_order" = Some VNone ->
  (forall c w',
      show df config node_properties lg w = (Ok c, w') ->
      config_item w' config "x_order"
      = Some (VStr ("[" ++ concat ", "
                             (map repr_label (Dict.keys node_properties))
                        ++ "]"))) /\
  (renderable w df config = true ->
   exists w', show df config node_properties lg w = (Ok config, w')).
Proof.
  intros Hxo. split.
  - intros c w' H. eapply show_default_x_order_of_run; eauto.
  - apply show_returns.
Qed.

(** C10: [get_data_ready_for_d3] replaces, in the DataFrame object it is
    given, every [y] by its text and serializes the result; so after every
    call of [show] that returns, the caller's table holds texts in its [y]
    column, not the values it held before; and on a renderable store the
    call does return. *)
Theorem get_data_ready_for_d3_mutates (df : loc) (w : world) (fr : frame) :
  nth_error (frames w) df = Some fr ->
  get_data_ready_for_d3 df w
  = (Ok (to_json (y_as_str fr)),
     mkWorld (dicts w) (list_set df (y_as_str fr) (frames w)) (files w)
             (log w)) /\
  col_y (y_as_str fr) = map (fun v => VStr (py_str v)) (col_y fr) /\
  (forall (config : loc) (node_properties : Dict.t node) (lg : logger),
      (forall c w',
          show df config node_properties lg w = (Ok c, w') ->
          nth_error (frames w') df = Some (y_as_str fr)) /\
      (renderable w df config = true ->
       exists w', show df config node_properties lg w = (Ok config, w'))).
Proof.
  intros Hfr. split; [now apply get_data_ready_for_d3_result|]. split.
  - unfold col_y, rows, y_as_str. now rewrite !map_map.
  - intros config node_properties lg. split; [|apply show_returns].
    intros c w' H.
    apply show_Ok_inv in H as (w2 & w3 & X & Hfr2 & _ & Hser & Hwr & _).
    rewrite <- Hfr2 in Hfr.
    rewrite (get_data_ready_for_d3_result df w2 fr Hfr) in Hser.
    inversion Hser; subst X w3; clear Hser.
    apply (preserves_Ok frames) in Hwr; [|apply write_html_frames].
    rewrite Hwr. simpl.
    apply nth_error_list_set_eq. eapply nth_error_Some_lt; eauto.
Qed.

End Renderer.

(** ** The theorems on concrete inputs *)

(** The example of the specification: b, a, b, c, a gives b, a, c with the
    ids 0, 1, 2. *)
Lemma set_labels_example :
  fst (set_labels (E := sample_externals)
         (LabelSeq ["b"; "a"; "b"; "c"; "a"]) LoggerNone caller_world)
  = Ok ["b"; "a"; "c"] /\
  set_node_properties (E := sample_externals)
    (LabelSeq ["b"; "a"; "b"; "c"; "a"]) (VStr "tab20") LoggerNone
    caller_world
  = (Ok [("b", mkNode 0 "b"); ("a", mkNode 1 "a"); ("c", mkNode 2 "c")],
     caller_world) /\
  Dict.keys (label_properties ["b"; "a"; "c"]) = ["b"; "a"; "c"] /\
  map (fun kv => node_id (snd kv)) (label_properties ["b"; "a"; "c"])
  = [0; 1; 2] /\
  map (fun kv => node_label (snd kv)) (label_properties ["b"; "a"; "c"])
  = ["b"; "a"; "c"].
Proof.
  apply (set_labels_first_occurrence_order (E := sample_externals)
           (LabelSeq ["b"; "a"; "b"; "c"; "a"]) ["b"; "a"; "b"; "c"; "a"]
           (VStr "tab20") LoggerNone caller_world).
  - reflexivity.
  - discriminate.
Defined.













(** x of length 1 and y of length 0, first with a logger, then without. *)
Lemma invalid_input_example :
  (exists msg,
      set_edge_properties (E := sample_externals) ["a"] [] 1 default_color
        default_size default_stroke default_opacity default_tooltip Logger
        configured_world
      = (Raise Exception,
         mkWorld (dicts configured_world) (frames configured_world)
                 (files configured_world)
                 (log configured_world ++ [(ERROR, msg)]))) /\
  set_edge_properties (E := sample_externals) ["a"] [] 1 default_color
    default_size default_stroke default_opacity default_tooltip LoggerNone
    configured_world
  = (Raise AttributeError, configured_world).
Proof.
  apply (set_edge_properties_invalid_input (E := sample_externals)).
  left. simpl. discriminate.
Defined.

(** x = a, b and y = 1, None on the configured dict: one row with a
    logger, an [AttributeError] without. *)
Lemma drops_missing_y_example :
  (exists df w',
      set_edge_properties (E := sample_externals) ["a"; "b"] [VInt 1; VNone]
        1 default_color default_size default_stroke default_opacity
        default_tooltip Logger configured_world
      = (Ok df, w') /\
      List.length df = 1 /\ col_x df = ["a"] /\ col_y df = [VFloat 1]) /\
  set_edge_properties (E := sample_externals) ["a"; "b"] [VInt 1; VNone]
    1 default_color default_size default_stroke default_opacity
    default_tooltip LoggerNone configured_world
  = (Raise AttributeError, configured_world).
Proof.
  split.
  - apply (proj1 (proj2 (set_edge_properties_drops_missing_y
                           (E := sample_externals)))
             1 configured_world (VStr "inferno")); reflexivity.
  - apply (proj1 (proj2 (proj2 (set_edge_properties_drops_missing_y
                                  (E := sample_externals))))).
Defined.

(** With the default [ylim]: the ints 10, 0 give the bounds -1 and 11; the
    floats 10.0, NaN, 0.0, 2.5 give the same; the ints 2^62, -2^62 of an
    int64 column, whose difference is 2^63, give bounds that lie inside the
    data; and the same two as Python ints give the bounds -1.2 * 2^62 and
    1.2 * 2^62. *)
Lemma auto_ylim_example :
  config_item
    (snd (show (E := sample_externals) 0 1 two_nodes LoggerNone
            (table_world_of (ints_table [10; 0]%Z)))) 1 "ylim"
  = Some (VList [VFloat (-1)%float; VFloat 11%float]) /\
  (exists hi lo,
      largest_float hi [10; 0; 2.5]%float /\
      smallest_float lo [10; 0; 2.5]%float /\
      config_item
        (snd (show (E := sample_externals) 0 1 two_nodes LoggerNone
                (table_world_of (floats_table [10; nan; 0; 2.5]%float))))
        1 "ylim"
      = Some (VList [VFloat (lo - (hi - lo) * spacing)%float;
                     VFloat (hi + (hi - lo) * spacing)%float])) /\
  config_item
    (snd (show (E := sample_externals) 0 1 two_nodes LoggerNone
            (table_world_of (floats_table [10; nan; 0; 2.5]%float))))
    1 "ylim"
  = Some (VList [VFloat (-1)%float; VFloat 11%float]) /\
  config_item
    (snd (show (E := sample_externals) 0 1 two_nodes LoggerNone
            (table_world_of
               (ints_table [4611686018427387904; -4611686018427387904]%Z))))
    1 "ylim"
  = Some (VList [VFloat (-0x1.999999999999ap+61)%float;
                 VFloat (0x1.999999999999ap+61)%float]) /\
  PrimFloat.ltb (of_Z (-4611686018427387904)%Z)
                (-0x1.999999999999ap+61)%float
  = true /\
  config_item
    (snd (show (E := sample_externals) 0 1 two_nodes LoggerNone
            (table_world_of
               (objects_table [4611686018427387904; -4611686018427387904]%Z))))
    1 "ylim"
  = Some (VList [VFloat (-0x1.3333333333333p+62)%float;
                 VFloat (0x1.3333333333333p+62)%float]).
Proof.
  split; [|split; [|split; [vm_compute; reflexivity
                           |split; [|split; [reflexivity|]]]]].
  - destruct (proj1 (proj2 (show_auto_ylim (E := sample_externals) 0 1
                       two_nodes
                       LoggerNone (table_world_of (ints_table [10; 0]%Z))
                       (ints_table [10; 0]%Z) (VList [VNone; VNone])
                       eq_refl (or_introl eq_refl) eq_refl))
                [10; 0]%Z 10%Z 0%Z eq_refl eq_refl eq_refl)
      as (range & Hin & _ & Hylim).
    + split; [now left | repeat constructor; lia].
    + split; [now right; left | repeat constructor; lia].
    + rewrite Hylim, (Hin ltac:(unfold int64_max; lia)).
      vm_compute. reflexivity.
  - exact (proj1 (show_auto_ylim (E := sample_externals) 0 1 two_nodes
                    LoggerNone
                    (table_world_of (floats_table [10; nan; 0; 2.5]%float))
                    (floats_table [10; nan; 0; 2.5]%float)
                    (VList [VNone; VNone])
                    eq_refl (or_introl eq_refl) eq_refl)
             [10; nan; 0; 2.5]%float eq_refl ltac:(discriminate)).
  - destruct (proj1 (proj2 (show_auto_ylim (E := sample_externals) 0 1
                       two_nodes
                       LoggerNone
                       (table_world_of
                          (ints_table
                             [4611686018427387904; -4611686018427387904]%Z))
                       (ints_table
                          [4611686018427387904; -4611686018427387904]%Z)
                       (VList [VNone; VNone])
                       eq_refl (or_introl eq_refl) eq_refl))
                [4611686018427387904; -4611686018427387904]%Z
                4611686018427387904%Z (-4611686018427387904)%Z
                eq_refl eq_refl eq_refl)
      as (range & _ & Hout & Hylim).
    + split; [now left | repeat constructor; lia].
    + split; [now right; left | repeat constructor; lia].
    + rewrite Hylim, (Hout ltac:(unfold int64_max; lia)).
      vm_compute. reflexivity.
  - rewrite (proj2 (proj2 (show_auto_ylim (E := sample_externals) 0 1
                       two_nodes
                       LoggerNone
                       (table_world_of
                          (objects_table
                             [4611686018427387904; -4611686018427387904]%Z))
                       (objects_table
                          [4611686018427387904; -4611686018427387904]%Z)
                       (VList [VNone; VNone])
                       eq_refl (or_introl eq_refl) eq_refl))
                [4611686018427387904; -4611686018427387904]%Z
                4611686018427387904%Z (-4611686018427387904)%Z
                eq_refl (or_introl eq_refl)).
    + vm_compute. reflexivity.
    + split; [now left | repeat constructor; lia].
    + split; [now right; left | repeat constructor; lia].
    + unfold float_limit. lia.
    + unfold float_limit. lia.
    + unfold float_limit. lia.
Defined.

(** Tooltips empty and missing: every row is without a tooltip, the call
    returns, and the three bindings are the event snippets. *)
Lemma mixed_tooltips_keep_bindings :
  no_tooltip mixed_tooltip_table = true /\
  fst (show (E := sample_externals) 0 1 two_nodes LoggerNone
         mixed_tooltip_world) = Ok 1 /\
  config_item
    (snd (show (E := sample_externals) 0 1 two_nodes LoggerNone
            mixed_tooltip_world)) 1 "mouseover"
  = Some (VStr mouseover_binding) /\
  config_item
    (snd (show (E := sample_externals) 0 1 two_nodes LoggerNone
            mixed_tooltip_world)) 1 "mousemove"
  = Some (VStr mousemove_binding) /\
  config_item
    (snd (show (E := sample_externals) 0 1 two_nodes LoggerNone
            mixed_tooltip_world)) 1 "mouseleave"
  = Some (VStr mouseleave_binding).
Proof.
  split; [reflexivity|]. split; [vm_compute; reflexivity|].
  apply (proj1 (show_tooltip_bindings (E := sample_externals) 0 1 two_nodes
                  LoggerNone mixed_tooltip_world mixed_tooltip_table
                  eq_refl) 1).
  vm_compute; reflexivity.
Defined.

(** No labels, with and without a logger, and through
    [set_node_properties]. *)
Lemma no_labels_example :
  fst (set_labels (E := sample_externals) (LabelSeq []) Logger caller_world)
  = Raise Exception /\
  set_labels (E := sample_externals) (LabelSeq []) LoggerNone caller_world
  = (Raise AttributeError, caller_world) /\
  set_node_properties (E := sample_externals) (LabelSeq []) (VStr "tab20")
    Logger caller_world
  = (Raise AttributeError, caller_world).
Proof.
  apply (set_labels_no_labels (E := sample_externals)).
  right. reflexivity.
Defined.

(** Label properties with the keys a, b and no category order. *)
Lemma default_x_order_example :
  renderable render_world 0 1 = true /\
  config_item
    (snd (show (E := sample_externals) 0 1 two_nodes LoggerNone render_world))
    1 "x_order"
  = Some (VStr "['a', 'b']").
Proof.
  split; [reflexivity|].
  apply (proj1 (show_default_x_order (E := sample_externals) 0 1 two_nodes
                  LoggerNone render_world eq_refl) 1).
  vm_compute; reflexivity.
Defined.

(** The claim C8 fails as stated: after the call [x_order] is a text, not
    the list of the keys. *)
Lemma show_x_order_is_not_the_list :
  fst (show (E := sample_externals) 0 1 two_nodes LoggerNone render_world)
  = Ok 1 /\
  Dict.keys two_nodes = ["a"; "b"] /\
  config_item
    (snd (show (E := sample_externals) 0 1 two_nodes LoggerNone render_world))
    1 "x_order"
  <> Some (VList [VStr "a"; VStr "b"]).
Proof.
  split; [vm_compute; reflexivity|]. split; [reflexivity|].
  vm_compute. discriminate.
Qed.

(** An override of [bins] and a key that is no option, on the caller's
    dict. *)
Lemma set_config_example :
  exists d',
    set_config (E := sample_externals) (Some 1)
      [("bins", VInt 7); ("colour", VStr "red")] caller_world
    = (Ok 1,
       mkWorld (list_set 1 d' (dicts caller_world)) (frames caller_world)
               (files caller_world) (log caller_world)) /\
    Dict.get "chart" d' = Some (VStr "violin") /\
    Dict.get "filepath" d' = Some (VStr "violin.html") /\
    (forall k default,
        In (k, default) option_defaults ->
        Dict.get k d'
        = Some (kwargs_get [("bins", VInt 7); ("colour", VStr "red")] k
                  default)) /\
    (forall k, ~ In k recognized_options -> Dict.get k d' = Dict.get k []).
Proof.
  apply (set_config_populates (E := sample_externals) (Some 1)
           [("bins", VInt 7); ("colour", VStr "red")] caller_world []).
  reflexivity.
Defined.

(** The claim C9 fails as stated: the call changes the dict of the caller. *)
Lemma set_config_changes_the_caller_dict :
  nth_error (dicts caller_world) 1 = Some [] /\
  fst (set_config (E := sample_externals) (Some 1) [] caller_world) = Ok 1 /\
  config_item
    (snd (set_config (E := sample_externals) (Some 1) [] caller_world))
    1 "chart"
  = Some (VStr "violin") /\
  snd (set_config (E := sample_externals) (Some 1) [] caller_world)
  <> caller_world.
Proof.
  split; [reflexivity|]. split; [reflexivity|]. split; [reflexivity|].
  vm_compute. discriminate.
Qed.

(** The table with y = 0, 10: after serialization, and after [show], its
    [y] column holds the texts 0.0 and 10.0. *)
Lemma mutated_table_example :
  get_data_ready_for_d3 (E := sample_externals) 0 render_world
  = (Ok (@to_json sample_externals
            (y_as_str (E := sample_externals) table_0_10)),
     mkWorld (dicts render_world)
             (list_set 0 (y_as_str (E := sample_externals) table_0_10)
                       (frames render_world))
             (files render_world) (log render_world)) /\
  col_y (y_as_str (E := sample_externals) table_0_10)
  = [VStr "0.0"; VStr "10.0"] /\
  (forall (config : loc) (node_properties : Dict.t node) (lg : logger),
      (forall c w',
          show (E := sample_externals) 0 config node_properties lg
            render_world = (Ok c, w') ->
          nth_error (frames w') 0
          = Some (y_as_str (E := sample_externals) table_0_10)) /\
      (renderable render_world 0 config = true ->
       exists w',
         show (E := sample_externals) 0 config node_properties lg
           render_world = (Ok config, w'))).
Proof.
  apply (get_data_ready_for_d3_mutates (E := sample_externals) 0 render_world
           table_0_10).
  reflexivity.
Defined.

(** * Further properties of the module *)

(** ** More on what a computation leaves alone *)

Lemma logger_info_files (lg : logger) (msg : string) :
  preserves files (logger_info lg msg).
Proof. intros w. now destruct lg. Qed.

Lemma raise_logged_dicts {A} (lg : logger) (msg : string) :
  preserves dicts (@raise_logged A lg msg).
Proof. intros w. rewrite raise_logged_result. now destruct lg. Qed.

Lemma raise_logged_frames {A} (lg : logger) (msg : string) :
  preserves frames (@raise_logged A lg msg).
Proof. intros w. rewrite raise_logged_result. now destruct lg. Qed.

Lemma raise_logged_files {A} (lg : logger) (msg : string) :
  preserves files (@raise_logged A lg msg).
Proof. intros w. rewrite raise_logged_result. now destruct lg. Qed.

Lemma no_logger_info {T} (f : world -> T) (msg : string) :
  preserves f (logger_info LoggerNone msg).
Proof. now intros w. Qed.

Lemma no_logger_raise_logged {A T} (f : world -> T) (msg : string) :
  preserves f (@raise_logged A LoggerNone msg).
Proof. now intros w. Qed.

Lemma setitem_files (c : loc) (k : string) (v : value) :
  preserves files (setitem c k v).
Proof.
  intros w. unfold setitem, getdict, putdict, bind.
  now destruct (nth_error (dicts w) c).
Qed.

Lemma setitem_other_dict (c c' : loc) (k : string) (v : value) :
  c <> c' -> preserves (fun w => nth_error (dicts w) c') (setitem c k v).
Proof.
  intros Hc w. unfold setitem, getdict, putdict, bind.
  destruct (nth_error (dicts w) c); simpl; [|reflexivity].
  now apply nth_error_list_set_neq.
Qed.

Lemma putframe_other_frame (l l' : loc) (df : frame) :
  l <> l' -> preserves (fun w => nth_error (frames w) l') (putframe l df).
Proof.
  intros Hl w. simpl. now apply nth_error_list_set_neq.
Qed.

Lemma other_dict_of_dicts {A} (m : M A) (c : loc) :
  preserves dicts m -> preserves (fun w => nth_error (dicts w) c) m.
Proof. intros H w. now rewrite H. Qed.

Lemma other_frame_of_frames {A} (m : M A) (l : loc) :
  preserves frames m -> preserves (fun w => nth_error (frames w) l) m.
Proof. intros H w. now rewrite H. Qed.

#[global] Hint Resolve logger_info_files raise_logged_dicts raise_logged_frames
  raise_logged_files no_logger_info no_logger_raise_logged setitem_files
  : preserve.

Section PreparerEffects.
Context {E : Externals}.

(** X1: whatever it is given and however it ends, [set_edge_properties]
    changes no dict, no table and no file of the store: its only effect
    besides the result is on the log. *)
Theorem set_edge_properties_only_logs (x : list string) (y : list value)
  (config : loc) (color size stroke opacity tooltip : value) (lg : logger)
  (w : world) :
  same_objects w
    (snd (set_edge_properties x y config color size stroke opacity tooltip
            lg w)).
Proof.
  unfold same_objects.
  assert (preserves dicts
            (set_edge_properties x y config color size stroke opacity
               tooltip lg)) as Hd
      by (unfold set_edge_properties; preserve).
  assert (preserves frames
            (set_edge_properties x y config color size stroke opacity
               tooltip lg)) as Hf
      by (unfold set_edge_properties; preserve).
  assert (preserves files
            (set_edge_properties x y config color size stroke opacity
               tooltip lg)) as Hfi
      by (unfold set_edge_properties; preserve).
  repeat split; [apply Hd | apply Hf | apply Hfi].
Qed.

(** X2: without a logger [set_edge_properties] never returns a record set:
    every call ends in an exception and leaves the whole store, the log
    included, as it was. *)
Theorem set_edge_properties_needs_logger (x : list string) (y : list value)
  (config : loc) (color size stroke opacity tooltip : value) (w : world) :
  exists e,
    set_edge_properties x y config color size stroke opacity tooltip
      LoggerNone w
    = (Raise e, w).
Proof.
  assert (preserves (fun w0 => w0)
            (set_edge_properties x y config color size stroke opacity
               tooltip LoggerNone)) as Hw
      by (unfold set_edge_properties; preserve).
  specialize (Hw w). simpl in Hw.
  destruct (set_edge_properties x y config color size stroke opacity tooltip
              LoggerNone w) as [[df|e] w'] eqn:Hrun; simpl in Hw; subst w'.
  - apply set_edge_properties_Ok_inv in Hrun as [Hlg _]. discriminate.
  - eauto.
Qed.

End PreparerEffects.

(** ** Errors and columns of the data preparer *)

Ltac pass_checks Hvalid :=
  let H := fresh "Hc" in
  pose proof Hvalid as H;
  unfold invalid_input in H;
  repeat (let H' := fresh "Hc" in apply orb_false_iff in H as [H H']);
  unfold set_edge_properties;
  repeat (rewrite check_step; cbv beta);
  repeat match goal with
         | Hf : _ = false |- context [if ?c then _ else _] => rewrite Hf
         end.

Lemma column_Raise (n : nat) (v : value) :
  array_of_other_length v n = true -> column n v = Raise ValueError.
Proof.
  destruct v; simpl; try discriminate.
  intros H. apply negb_true_iff in H. now rewrite H.
Qed.

Lemma column_scalar (n : nat) (v : value) :
  is_scalar v = true -> column n v = Ok (repeat v n).
Proof. destruct v; simpl; try reflexivity. discriminate. Qed.

Lemma DataFrame_rows (x : list string) (y : list value)
  (color size stroke opacity tooltip : value) (df0 : frame) :
  DataFrame x y color size stroke opacity tooltip = Ok df0 ->
  List.length df0 = List.length x /\
  (is_scalar color = true -> Forall (fun r => r_color r = color) (rows df0)) /\
  (is_scalar size = true -> Forall (fun r => r_size r = size) (rows df0)) /\
  (is_scalar stroke = true ->
   Forall (fun r => r_stroke r = stroke) (rows df0)) /\
  (is_scalar opacity = true ->
   Forall (fun r => r_opacity r = opacity) (rows df0)) /\
  (is_scalar tooltip = true ->
   Forall (fun r => r_tooltip r = tooltip) (rows df0)).
Proof.
  unfold DataFrame.
  destruct (column (List.length x) (VList y)) as [ys|]; [|discriminate].
  destruct (column (List.length x) color) as [cs|] eqn:Hcs; [|discriminate].
  destruct (column (List.length x) size) as [ss|] eqn:Hss; [|discriminate].
  destruct (column (List.length x) stroke) as [ks|] eqn:Hks; [|discriminate].
  destruct (column (List.length x) opacity) as [os|] eqn:Hos;
    [|discriminate].
  destruct (column (List.length x) tooltip) as [ts|] eqn:Hts;
    [|discriminate].
  intros H. inversion H; subst df0; clear H.
  split; [now rewrite length_map, length_seq|].
  unfold rows. rewrite map_map. simpl.
  repeat split; intros Hsc; apply column_scalar with (n := List.length x) in Hsc;
    rewrite Forall_map, Forall_forall; intros i Hi; apply in_seq in Hi;
    simpl.
  - rewrite Hcs in Hsc. inversion Hsc. apply nth_repeat_lt. lia.
  - rewrite Hss in Hsc. inversion Hsc. apply nth_repeat_lt. lia.
  - rewrite Hks in Hsc. inversion Hsc. apply nth_repeat_lt. lia.
  - rewrite Hos in Hsc. inversion Hsc. apply nth_repeat_lt. lia.
  - rewrite Hts in Hsc. inversion Hsc. apply nth_repeat_lt. lia.
Qed.

Lemma Forall_rows_loc_rows (P : row -> Prop) (keep : row -> bool)
  (df : frame) :
  Forall P (rows df) -> Forall P (rows (loc_rows keep df)).
Proof.
  rewrite rows_loc_rows, !Forall_forall. intros H r Hr.
  apply filter_In in Hr as [Hr _]. auto.
Qed.

Lemma assign_color_colors (values : list value) (df df' : frame) :
  assign_color values df = Ok df' -> col_color df' = values.
Proof.
  unfold assign_color.
  destruct (List.length values =? List.length df)%nat eqn:Hlen;
    [|discriminate].
  apply Nat.eqb_eq in Hlen. intros H. inversion H; subst df'; clear H.
  unfold col_color, rows. rewrite !map_map. simpl.
  revert values Hlen. induction df as [|[i r] df IH]; intros [|v vs] Hlen;
    simpl in *; try discriminate; auto.
  f_equal. apply IH. lia.
Qed.

Section PreparerColumns.
Context {E : Externals}.

(** X3: the checks do not look at [color] and [tooltip]: when the input
    passes them and one of the two is an array of another length than [x],
    the call ends in the [ValueError] of the DataFrame constructor, with or
    without a logger, and the store is as it was. *)
Theorem set_edge_properties_unchecked_arrays (x : list string)
  (y : list value) (config : loc)
  (color size stroke opacity tooltip : value) (lg : logger) (w : world) :
  invalid_input x y size stroke opacity = false ->
  array_of_other_length color (List.length x) = true \/
  array_of_other_length tooltip (List.length x) = true ->
  set_edge_properties x y config color size stroke opacity tooltip lg w
  = (Raise ValueError, w).
Proof.
  intros Hvalid Hbad. pass_checks Hvalid.
  assert (DataFrame x y color size stroke opacity tooltip
          = Raise ValueError) as ->; [|reflexivity].
  unfold DataFrame. destruct Hbad as [Hbad|Hbad];
    rewrite (column_Raise _ _ Hbad);
    destruct (column (List.length x) (VList y)); try reflexivity.
  destruct (column (List.length x) color);
    destruct (column (List.length x) size);
    destruct (column (List.length x) stroke);
    destruct (column (List.length x) opacity); reflexivity.
Qed.

(** X4: with a logger and an input that fits, a configuration without the
    key [x_order] ends the call in a [KeyError], and a category order that
    is not [None] and cannot be joined (a number, or a list with an item
    that is no text) ends it in a [TypeError]. *)
Theorem set_edge_properties_x_order_errors (x : list string)
  (y : list value) (config : loc)
  (color size stroke opacity tooltip : value) (w : world)
  (d : Dict.t value) :
  invalid_input x y size stroke opacity = false ->
  array_of_other_length color (List.length x) = false ->
  array_of_other_length tooltip (List.length x) = false ->
  nth_error (dicts w) config = Some d ->
  (Dict.get "x_order" d = None ->
   fst (set_edge_properties x y config color size stroke opacity tooltip
          Logger w) = Raise KeyError) /\
  (forall x_order,
      Dict.get "x_order" d = Some x_order ->
      is_None x_order = false ->
      str_join "|" x_order = Raise TypeError ->
      fst (set_edge_properties x y config color size stroke opacity tooltip
             Logger w) = Raise TypeError).
Proof.
  intros Hvalid Hcol Htip Hd.
  destruct (DataFrame_Ok x y color size stroke opacity tooltip Hvalid Hcol
              Htip) as [df0 HDF].
  split.
  - intros Hxo. pass_checks Hvalid. rewrite HDF, bind_lift_Ok.
    destruct (existsb (fun b => b) (map isna (col_y df0)));
      (erewrite bind_Ok; [|reflexivity]); cbv beta;
      unfold getitem, getdict, bind; simpl; rewrite Hd, Hxo; reflexivity.
  - intros x_order Hxo Hnn Hj. pass_checks Hvalid. rewrite HDF, bind_lift_Ok.
    destruct (existsb (fun b => b) (map isna (col_y df0)));
      (erewrite bind_Ok; [|reflexivity]); cbv beta;
      (erewrite bind_Ok;
       [|apply getitem_result; unfold config_item; simpl; rewrite Hd;
         exact Hxo]); cbv beta;
      rewrite Hnn; simpl; unfold bind, lift; rewrite Hj; reflexivity.
Qed.

(** X5: in a returned record set every argument given as a single value
    ([size], [stroke], [opacity], [tooltip], and [color] unless it is
    [None]) stands on every row. *)
Theorem set_edge_properties_broadcasts (x : list string) (y : list value)
  (config : loc) (color size stroke opacity tooltip : value) (lg : logger)
  (w w' : world) (df : frame) :
  set_edge_properties x y config color size stroke opacity tooltip lg w
  = (Ok df, w') ->
  (is_scalar size = true -> Forall (fun v => v = size) (col_size df)) /\
  (is_scalar stroke = true -> Forall (fun v => v = stroke) (col_stroke df)) /\
  (is_scalar opacity = true ->
   Forall (fun v => v = opacity) (col_opacity df)) /\
  (is_scalar tooltip = true ->
   Forall (fun v => v = tooltip) (col_tooltip df)) /\
  (is_scalar color = true -> is_None color = false ->
   Forall (fun v => v = color) (col_color df)).
Proof.
  intros H.
  apply set_edge_properties_Ok_inv in H
    as (_ & _ & _ & df0 & x_order & df2 & df3 & HDF & _ & H2 & H3 & ->).
  apply DataFrame_rows in HDF as (_ & Hc & Hs & Hk & Ho & Ht).
  assert (forall P : row -> Prop,
             Forall P (rows df0) -> Forall P (rows df2)) as Hkeep.
  { intros P HP. destruct (is_None x_order).
    - subst df2. now apply Forall_rows_loc_rows.
    - destruct H2 as (classes & _ & _ & _ & ->).
      now apply Forall_rows_loc_rows, Forall_rows_loc_rows. }
  assert (map uncoloured (rows df3) = map uncoloured (rows df2)) as Hun.
  { destruct (is_None color); [|now subst df3].
    destruct H3 as (cmap & _ & Ha). now apply assign_color_rows in Ha. }
  assert (forall (g : row -> value),
             (forall r, g (uncoloured r) = g r) ->
             map g (rows df3) = map g (rows df2)) as Hcolumn.
  { intros g Hg.
    rewrite <- (map_ext _ _ (fun r => Hg r) (rows df3)).
    rewrite <- (map_ext _ _ (fun r => Hg r) (rows df2)).
    rewrite <- !(map_map uncoloured g). now rewrite Hun. }
  unfold col_size, col_stroke, col_opacity, col_tooltip, col_color.
  rewrite !rows_reset_index.
  split; [|split; [|split; [|split]]].
  - intros Hsc. rewrite (Hcolumn r_size) by reflexivity.
    apply Forall_map, Hkeep, Hs, Hsc.
  - intros Hsc. rewrite (Hcolumn r_stroke) by reflexivity.
    apply Forall_map, Hkeep, Hk, Hsc.
  - intros Hsc. rewrite (Hcolumn r_opacity) by reflexivity.
    apply Forall_map, Hkeep, Ho, Hsc.
  - intros Hsc. rewrite (Hcolumn r_tooltip) by reflexivity.
    apply Forall_map, Hkeep, Ht, Hsc.
  - intros Hsc Hnn. rewrite Hnn in H3. subst df3.
    apply Forall_map, Hkeep, Hc, Hsc.
Qed.

(** X6: when [color] is [None], the colour column of a returned record set
    is what [colourmap.fromlist] gives for the [y] column of the same record
    set, under the configured [cmap]: the colours are computed after the
    rows without [y] and the filtered rows are gone. *)
Theorem set_edge_properties_colours_after_cleaning (x : list string)
  (y : list value) (config : loc) (size stroke opacity tooltip : value)
  (lg : logger) (w w' : world) (df : frame) :
  set_edge_properties x y config VNone size stroke opacity tooltip lg w
  = (Ok df, w') ->
  exists cmap,
    config_item w config "cmap" = Some cmap /\
    col_color df = fromlist (col_y df) cmap.
Proof.
  intros H.
  apply set_edge_properties_Ok_inv in H
    as (_ & _ & _ & df0 & x_order & df2 & df3 & _ & _ & _ & H3 & ->).
  simpl in H3. destruct H3 as (cmap & Hcm & Ha).
  exists cmap. split; [exact Hcm|].
  unfold col_color, col_y. rewrite !rows_reset_index.
  fold (col_color df3). fold (col_y df3).
  rewrite (assign_color_colors _ _ _ Ha).
  apply assign_color_rows in Ha as (_ & -> & _). reflexivity.
Qed.

End PreparerColumns.

(** ** More on labels and the configuration *)

Lemma first_occurrences_NoDup_id (l : list string) :
  NoDup l -> first_occurrences l = l.
Proof.
  induction 1 as [|a l Hni Hnd IH]; simpl.
  - reflexivity.
  - rewrite IH. f_equal.
    rewrite forallb_filter_id; [reflexivity|].
    apply forallb_forall. intros b Hb.
    destruct (String.eqb_spec a b) as [->|]; [contradiction | reflexivity].
Qed.

Lemma label_properties_get (u : list string) (v : string) (s : nat) :
  Dict.get v
    (map (fun il : nat * string => (snd il, mkNode (fst il) (snd il)))
         (combine (seq s (List.length u)) u))
  = if in_dec string_dec v u
    then Some (mkNode (s + first_index v u) v)
    else None.
Proof.
  revert s; induction u as [|a u IH]; intros s; simpl.
  - reflexivity.
  - rewrite IH. destruct (String.eqb_spec a v) as [->|Hne].
    + destruct (string_dec v v); [|contradiction].
      now rewrite Nat.add_0_r.
    + destruct (string_dec a v); [contradiction|].
      destruct (in_dec string_dec v u); [|reflexivity].
      now rewrite Nat.add_succ_r.
Qed.

Lemma first_index_lt (v : string) (l : list string) :
  In v l -> first_index v l < List.length l.
Proof.
  induction l as [|a l IH]; simpl; [contradiction|].
  intros H. destruct (String.eqb_spec a v); [lia|].
  destruct H; [contradiction|]. apply IH in H. lia.
Qed.

Lemma nth_error_first_index (v : string) (l : list string) :
  In v l -> nth_error l (first_index v l) = Some v.
Proof.
  induction l as [|a l IH]; simpl; [contradiction|].
  intros H. destruct (String.eqb_spec a v) as [->|]; [reflexivity|].
  destruct H; [contradiction | auto].
Qed.

Section LabelsMore.
Context {E : Externals}.

(** X7: the list [set_labels] returns has no label twice and has exactly the
    labels of the preprocessed input; an input without repetitions comes
    back as it is. *)
Theorem set_labels_distinct_and_complete (labels : labels_arg)
  (l : list string) (lg : logger) (w : world) :
  pre_processing (raw_labels labels) = Some l ->
  l <> [] ->
  exists uilabels,
    fst (set_labels labels lg w) = Ok uilabels /\
    NoDup uilabels /\
    (forall v, In v uilabels <-> In v l) /\
    (NoDup l -> uilabels = l).
Proof.
  intros Hpre Hne.
  assert ((List.length l <? 1)%nat = false) as Hlen
      by (destruct l; [congruence|reflexivity]).
  exists (first_occurrences l).
  split; [|split; [|split]].
  - destruct (set_labels_source labels lg w) as [w1 [_ ->]].
    rewrite Hpre, Hlen. simpl. now rewrite unique_in_order.
  - apply first_occurrences_NoDup.
  - intros v. apply first_occurrences_In.
  - apply first_occurrences_NoDup_id.
Qed.

(** X8: looking a label up in the result of [set_node_properties]: a label
    of the preprocessed input is found, its record holds the label itself
    and an id below the number of entries, and the key at that position is
    the label; a text that is no label is not found. *)
Theorem set_node_properties_lookup (labels : labels_arg) (l : list string)
  (cmap : value) (lg : logger) (w : world) :
  pre_processing (raw_labels labels) = Some l ->
  l <> [] ->
  exists dict_labels,
    fst (set_node_properties labels cmap lg w) = Ok dict_labels /\
    (forall v,
        In v l ->
        exists i,
          Dict.get v dict_labels = Some (mkNode i v) /\
          i < List.length dict_labels /\
          nth_error (Dict.keys dict_labels) i = Some v) /\
    (forall v, ~ In v l -> Dict.get v dict_labels = None).
Proof.
  intros Hpre Hne.
  assert ((List.length l <? 1)%nat = false) as Hlen
      by (destruct l; [congruence|reflexivity]).
  exists (label_properties (first_occurrences l)).
  assert (Dict.keys (label_properties (first_occurrences l))
          = first_occurrences l) as Hkeys.
  { unfold label_properties, Dict.keys. rewrite map_map. simpl.
    apply combine_seq_snd. }
  split; [|split].
  - unfold set_node_properties.
    destruct (set_labels_source labels LoggerNone w) as [w1 [Hw Heq]].
    rewrite Hw in Heq by reflexivity.
    rewrite Hpre, Hlen, unique_in_order in Heq.
    rewrite (bind_Ok _ _ _ _ _ Heq). unfold ret. simpl.
    now rewrite label_properties_fold by apply first_occurrences_NoDup.
  - intros v Hv. apply first_occurrences_In in Hv.
    exists (first_index v (first_occurrences l)).
    split; [|split].
    + unfold label_properties. rewrite label_properties_get.
      destruct (in_dec string_dec v (first_occurrences l));
        [reflexivity | contradiction].
    + replace (List.length (label_properties (first_occurrences l)))
        with (List.length (first_occurrences l))
        by (rewrite <- Hkeys at 1; unfold Dict.keys; apply length_map).
      now apply first_index_lt.
    + rewrite Hkeys. now apply nth_error_first_index.
  - intros v Hv. unfold label_properties. rewrite label_properties_get.
    destruct (in_dec string_dec v (first_occurrences l)) as [Hin|];
      [|reflexivity].
    exfalso. apply Hv. now apply first_occurrences_In.
Qed.

End LabelsMore.

Section ConfigurationMore.
Context {E : Externals}.

(** X9: the default [config={}] is one object: two calls of [set_config]
    without a [config] return the same dict, and after the second call that
    dict, which the first caller still holds, has the options of the second
    call. *)
Theorem set_config_default_is_shared (kwargs1 kwargs2 : Dict.t value)
  (w : world) (d : Dict.t value) :
  nth_error (dicts w) set_config_default = Some d ->
  exists w1 w2 d2,
    set_config None kwargs1 w = (Ok set_config_default, w1) /\
    set_config None kwargs2 w1 = (Ok set_config_default, w2) /\
    nth_error (dicts w2) set_config_default = Some d2 /\
    (forall k default,
        In (k, default) option_defaults ->
        Dict.get k d2 = Some (kwargs_get kwargs2 k default)).
Proof.
  intros Hd.
  pose proof (nth_error_Some_lt _ _ _ Hd) as Hlt.
  destruct (set_config_run None kwargs1 w d Hlt) as (d1 & Hrun1 & _).
  destruct (set_config_run None kwargs2 w d1 Hlt)
    as (d2 & Hrun2 & _ & _ & Hopts & _).
  simpl config_object in *.
  rewrite <- (world_at w _ d Hd) in Hrun1.
  eexists. eexists. exists d2.
  split; [exact Hrun1|]. split; [exact Hrun2|]. split; [|exact Hopts].
  exact (nth_error_list_set_eq (dicts w) set_config_default d2 Hlt).
Qed.

(** X10: a configuration built by [set_config] without overrides of
    [figsize] and [ylim], whose path [set_path] gives as a text, is complete
    for [show]: on a table with a numeric [y] column the renderer returns
    this configuration. *)
Theorem set_config_then_show (config : option loc) (kwargs : Dict.t value)
  (df : loc) (node_properties : Dict.t node) (lg : logger) (w : world)
  (d : Dict.t value) (fr : frame) (l : list float) (path : string) :
  nth_error (dicts w) (config_object config) = Some d ->
  nth_error (frames w) df = Some fr ->
  numbers (col_y fr) = Some l ->
  Dict.get "figsize" kwargs = None ->
  Dict.get "ylim" kwargs = None ->
  set_path (kwargs_get kwargs "filepath" (VStr "violin.html")) = VStr path ->
  exists w1 w2,
    set_config config kwargs w = (Ok (config_object config), w1) /\
    show df (config_object config) node_properties lg w1
    = (Ok (config_object config), w2).
Proof.
  intros Hd Hfr Hnum Hfig Hyl Hpath.
  pose proof (nth_error_Some_lt _ _ _ Hd) as Hlt.
  destruct (set_config_run config kwargs w d Hlt)
    as (d' & Hrun & _ & Hfp & Hopts & _).
  rewrite <- (world_at w _ d Hd) in Hrun.
  eexists.
  assert (renderable
            (mkWorld (list_set (config_object config) d' (dicts w))
                     (frames w) (files w) (log w)) df (config_object config)
          = true) as Hr.
  { unfold renderable. simpl. rewrite Hfr.
    rewrite nth_error_list_set_eq by exact Hlt.
    rewrite (Hopts "title" (VStr "Violin - D3blocks")) by (simpl; tauto).
    rewrite (Hopts "figsize" (VList [VNone; VNone])) by (simpl; tauto).
    rewrite (Hopts "ylim" (VList [VNone; VNone])) by (simpl; tauto).
    rewrite (Hopts "x_order" VNone) by (simpl; tauto).
    rewrite (Hopts "bins" (VInt 20)) by (simpl; tauto).
    rewrite (Hopts "overwrite" (VBool true)) by (simpl; tauto).
    rewrite Hfp, Hpath.
    unfold kwargs_get. rewrite Hfig, Hyl. simpl.
    now rewrite Hnum. }
  destruct (show_returns df (config_object config) node_properties lg _ Hr)
    as [w2 Hshow].
  exists w2. split; [exact Hrun | exact Hshow].
Qed.

End ConfigurationMore.

(** ** More on the renderer *)

Lemma dict_get_remove_other {V} (k k' : string) (d : Dict.t V) :
  k' <> k ->
  Dict.get k (filter (fun kv => negb (fst kv =? k')) d) = Dict.get k d.
Proof.
  intros Hne. induction d as [|[k0 v0] d IH]; simpl; [reflexivity|].
  destruct (String.eqb_spec k0 k') as [->|Hk0]; simpl.
  - rewrite IH. destruct (String.eqb_spec k' k); [contradiction|reflexivity].
  - now rewrite IH.
Qed.

Lemma putframe_files (l : loc) (df : frame) : preserves files (putframe l df).
Proof. now intros w. Qed.

#[global] Hint Resolve putframe_files : preserve.

#[global] Hint Extern 2 (preserves (fun w => nth_error (dicts w) _) (setitem _ _ _)) =>
  apply setitem_other_dict; congruence : preserve.

#[global] Hint Extern 5 (preserves (fun w => nth_error (dicts w) _) _) =>
  apply other_dict_of_dicts : preserve.

#[global] Hint Extern 2 (preserves (fun w => nth_error (frames w) _) (putframe _ _)) =>
  apply putframe_other_frame; congruence : preserve.

#[global] Hint Extern 5 (preserves (fun w => nth_error (frames w) _) _) =>
  apply other_frame_of_frames : preserve.

#[global] Hint Extern 3 (preserves (fun w => config_item w _ _) (setitem _ _ _)) =>
  apply setitem_other_key; intros ?; subst;
  match goal with
  | H : ~ In _ show_options |- _ => apply H; simpl; tauto
  end : preserve.

Lemma raise_after_pure {A B} (m : M A) (k : A -> M B) :
  preserves (fun w => w) m ->
  (forall a w e w', k a w = (Raise e, w') -> w' = w) ->
  forall w e w', bind m k w = (Raise e, w') -> w' = w.
Proof.
  intros Hm Hk w e w'. unfold bind. specialize (Hm w).
  destruct (m w) as [[a|e0] w1]; simpl in Hm; subst w1.
  - apply Hk.
  - intros H. now inversion H.
Qed.

Ltac step_getitem H v Hv :=
  let w1 := fresh "w" in
  apply bind_Ok_inv in H as (v & w1 & Hv & H);
  apply getitem_Ok_inv in Hv as [-> Hv].

Ltac step_lift H v Hv :=
  let w1 := fresh "w" in
  apply bind_Ok_inv in H as (v & w1 & Hv & H);
  apply lift_Ok_inv in Hv as [Hv ->].

Section RendererMore.
Context {E : Externals}.

(** What a call of [write_html] that returns has read and written. *)
Lemma write_html_Ok_inv (X : string) (config : loc) (lg : logger)
  (w w' : world) (u : unit) :
  write_html X config lg w = (Ok u, w') ->
  exists title figsize ylim x_order bins mouseover mousemove mouseleave
         width height min_y max_y path overwrite,
    config_item w config "title" = Some title /\
    config_item w config "figsize" = Some figsize /\
    py_index figsize 0 = Ok width /\ py_index figsize 1 = Ok height /\
    config_item w config "ylim" = Some ylim /\
    py_index ylim 0 = Ok min_y /\ py_index ylim 1 = Ok max_y /\
    config_item w config "x_order" = Some x_order /\
    config_item w config "bins" = Some bins /\
    config_item w config "mouseover" = Some mouseover /\
    config_item w config "mousemove" = Some mousemove /\
    config_item w config "mouseleave" = Some mouseleave /\
    config_item w config "filepath" = Some (VStr path) /\
    config_item w config "overwrite" = Some overwrite /\
    files w'
    = Dict.set path
        (render
           [("json_data", VStr X); ("TITLE", title); ("WIDTH", width);
            ("HEIGHT", height); ("MIN_Y", min_y); ("MAX_Y", max_y);
            ("X_ORDER", x_order); ("BINS", bins); ("WIDTH_FIG", width);
            ("HEIGHT_FIG", height); ("MOUSEOVER", mouseover);
            ("MOUSEMOVE", mousemove); ("MOUSELEAVE", mouseleave)])
        (if truthy overwrite && Dict.mem path (files w)
         then filter (fun kv => negb (fst kv =? path)) (files w)
         else files w).
Proof.
  unfold write_html. intros H.
  step_getitem H title Ht.
  step_getitem H figsize Hf. step_lift H width Hw0.
  step_getitem H figsize' Hf'. step_lift H height Hh0.
  step_getitem H ylim Hy. step_lift H min_y Hmin.
  step_getitem H ylim' Hy'. step_lift H max_y Hmax.
  step_getitem H x_order Hx. step_getitem H bins Hb.
  step_getitem H figsize2 Hf2. step_lift H width_fig Hw1.
  step_getitem H figsize3 Hf3. step_lift H height_fig Hh1.
  step_getitem H mouseover Hmo. step_getitem H mousemove Hmm.
  step_getitem H mouseleave Hml.
  step_getitem H filepath Hp.
  assert (figsize' = figsize) as -> by congruence.
  assert (figsize2 = figsize) as -> by congruence.
  assert (figsize3 = figsize) as -> by congruence.
  assert (ylim' = ylim) as -> by congruence.
  assert (width_fig = width) as -> by congruence.
  assert (height_fig = height) as -> by congruence.
  destruct filepath as [| | | |path|];
    try (unfold bind, raise in H; discriminate H).
  apply bind_Ok_inv in H as (index_file & w1 & Hi & H).
  apply ret_Ok_inv in Hi as [<- ->].
  step_getitem H overwrite Ho.
  exists title, figsize, ylim, x_order, bins, mouseover, mousemove,
    mouseleave, width, height, min_y, max_y, path, overwrite.
  repeat (split; [assumption|]).
  destruct (truthy overwrite); simpl.
  - unfold bind, isfile in H. simpl in H.
    destruct (Dict.mem path (files w)); simpl in H.
    + destruct lg; simpl in H; inversion H; reflexivity.
    + inversion H; reflexivity.
  - unfold bind, ret in H. simpl in H. inversion H; reflexivity.
Qed.

(** X11: a call of [write_html] that returns has put at
    [config['filepath']] the page rendered from the data and from the title,
    category order, bins and mouse bindings of the configuration, in the
    place of any file that was there, whether [overwrite] is true or false;
    no other file has changed. *)
Theorem write_html_replaces_page (X : string) (config : loc) (lg : logger)
  (w w' : world) :
  write_html X config lg w = (Ok tt, w') ->
  exists path content,
    config_item w config "filepath" = Some (VStr path) /\
    Dict.get path (files w') = Some (render content) /\
    Dict.get "json_data" content = Some (VStr X) /\
    Dict.get "TITLE" content = config_item w config "title" /\
    Dict.get "X_ORDER" content = config_item w config "x_order" /\
    Dict.get "BINS" content = config_item w config "bins" /\
    Dict.get "MOUSEOVER" content = config_item w config "mouseover" /\
    Dict.get "MOUSEMOVE" content = config_item w config "mousemove" /\
    Dict.get "MOUSELEAVE" content = config_item w config "mouseleave" /\
    (forall p, p <> path -> Dict.get p (files w') = Dict.get p (files w)).
Proof.
  intros H.
  apply write_html_Ok_inv in H
    as (title & figsize & ylim & x_order & bins & mo & mm & ml & width
        & height & min_y & max_y & path & overwrite & Ht & _ & _ & _ & _ & _
        & _ & Hx & Hb & Hmo & Hmm & Hml & Hp & _ & Hfiles).
  eexists. eexists. split; [exact Hp|].
  rewrite Hfiles. split; [apply dict_get_set_same|].
  rewrite Ht, Hx, Hb, Hmo, Hmm, Hml.
  repeat (split; [reflexivity|]).
  intros p Hne. rewrite dict_get_set_other by congruence.
  destruct (truthy overwrite && Dict.mem path (files w)); [|reflexivity].
  apply dict_get_remove_other. congruence.
Qed.

(** X12: a call of [write_html] that raises has changed nothing: every
    option, subscript and the path are read before the first file
    operation, so no page is removed or half written. *)
Theorem write_html_raises_before_writing (X : string) (config : loc)
  (lg : logger) (w w' : world) (e : exn) :
  write_html X config lg w = (Raise e, w') -> w' = w.
Proof.
  revert w e w'. unfold write_html.
  repeat (apply raise_after_pure; [solve [preserve]|intros ?; cbv beta]).
  intros w e w'.
  match goal with
  | |- bind (when ?present _) _ _ = _ -> _ => destruct present
  end;
    destruct lg; unfold bind, when; simpl; intros H; discriminate H.
Qed.

(** X13: whatever happens in a call of [show], it adds no key to and takes
    no key from a dict other than the configuration; an entry of another
    dict, and an entry of the configuration other than [ylim], [x_order],
    [figsize], [mouseover], [mousemove] and [mouseleave], that holds a
    value which is no list still holds it afterwards; and a table other
    than the one given whose cells hold no list is as it was.  (A list may
    be the very object that [figsize] holds, which the call changes in
    place.) *)
Theorem show_touches_only (df config : loc) (node_properties : Dict.t node)
  (lg : logger) (w : world) :
  (forall c,
      c <> config ->
      option_map Dict.keys
        (nth_error (dicts (snd (show df config node_properties lg w))) c)
      = option_map Dict.keys (nth_error (dicts w) c)) /\
  (forall c k v,
      c <> config \/ ~ In k show_options ->
      config_item w c k = Some v -> is_scalar v = true ->
      config_item (snd (show df config node_properties lg w)) c k = Some v) /\
  (forall l fr,
      l <> df ->
      nth_error (frames w) l = Some fr ->
      forallb flat_row (rows fr) = true ->
      nth_error (frames (snd (show df config node_properties lg w))) l
      = Some fr).
Proof.
  assert (forall c, c <> config ->
             nth_error (dicts (snd (show df config node_properties lg w))) c
             = nth_error (dicts w) c) as Hdict.
  { intros c Hc.
    assert (preserves (fun w0 => nth_error (dicts w0) c)
              (show df config node_properties lg)) as Hp
        by (unfold show, convert_dataframe_dict, get_data_ready_for_d3,
              write_html; preserve).
    apply Hp. }
  split; [|split].
  - intros c Hc. now rewrite Hdict.
  - intros c k v [Hc|Hk] Hv _.
    + unfold config_item in *. now rewrite Hdict.
    + destruct (Nat.eq_dec c config) as [->|Hc];
        [|unfold config_item in *; now rewrite Hdict].
      rewrite <- Hv.
      assert (preserves (fun w0 => config_item w0 config k)
                (show df config node_properties lg)) as Hp
          by (unfold show, convert_dataframe_dict, get_data_ready_for_d3,
                write_html; preserve).
      apply Hp.
  - intros l fr Hl Hfr _. rewrite <- Hfr.
    assert (preserves (fun w0 => nth_error (frames w0) l)
              (show df config node_properties lg)) as Hp
        by (unfold show, convert_dataframe_dict, get_data_ready_for_d3,
              write_html; preserve).
    apply Hp.
Qed.

Lemma when_setitem_Ok_inv (c : bool) (config : loc) (k : string) (v : value)
  (w w' : world) (u : unit) :
  when c (setitem config k v) w = (Ok u, w') ->
  (c = true /\ config_item w' config k = Some v) \/ (c = false /\ w' = w).
Proof.
  destruct c; simpl; intros H.
  - left. split; [reflexivity|]. now apply setitem_Ok_inv in H.
  - right. apply ret_Ok_inv in H as [_ ->]. now split.
Qed.

Ltac step_keep H f :=
  let a := fresh "a" in
  let w1 := fresh "w" in
  let Hs := fresh "Hs" in
  apply bind_Ok_inv in H as (a & w1 & Hs & H);
  apply (preserves_Ok f) in Hs; [|solve [preserve]];
  simpl in Hs.

(** After a call of [show] that returns, the table holds the texts. *)
Lemma show_frame_after (df config : loc) (node_properties : Dict.t node)
  (lg : logger) (w w' : world) (c : loc) (fr : frame) :
  show df config node_properties lg w = (Ok c, w') ->
  nth_error (frames w) df = Some fr ->
  nth_error (frames w') df = Some (y_as_str fr).
Proof.
  intros H Hfr.
  apply show_Ok_inv in H as (w2 & w3 & X & Hfr2 & _ & Hser & Hwr & _).
  rewrite <- Hfr2 in Hfr.
  rewrite (get_data_ready_for_d3_result df w2 fr Hfr) in Hser.
  inversion Hser; subst X w3; clear Hser.
  apply (preserves_Ok frames) in Hwr; [|apply write_html_frames].
  rewrite Hwr. simpl.
  apply nth_error_list_set_eq. eapply nth_error_Some_lt; eauto.
Qed.

Lemma padded_range_of_texts (fr : frame) :
  fr <> [] ->
  padded_range (y_object (y_as_str fr)) (col_y (y_as_str fr))
  = Raise TypeError.
Proof.
  destruct fr as [|[i r] fr]; [congruence|]. intros _.
  unfold padded_range, series_max, series_numbers, object_numbers, y_object,
    col_y, rows, y_as_str.
  simpl. now destruct (number_cells _).
Qed.

Lemma y_as_str_twice (fr : frame) : y_as_str (y_as_str fr) = y_as_str fr.
Proof.
  unfold y_as_str. rewrite map_map. apply map_ext. now intros [i r].
Qed.

(** X14: [figsize] after a call of [show] that returns: a width that was
    [None] has become 95 times the number of label properties, a height
    that was [None] has become 400, and a given width or height is kept. *)
Theorem show_figsize_defaults (df config : loc)
  (node_properties : Dict.t node) (lg : logger) (w w' : world) (c : loc)
  (a b : value) :
  show df config node_properties lg w = (Ok c, w') ->
  config_item w config "figsize" = Some (VList [a; b]) ->
  config_item w' config "figsize"
  = Some (VList
            [if is_None a
             then VInt (Z.of_nat (List.length (Dict.keys node_properties))
                        * 95)
             else a;
             if is_None b then VInt 400 else b]).
Proof.
  unfold show, convert_dataframe_dict. intros H Hfig.
  do 5 step_keep H (fun w0 => config_item w0 config "figsize").
  step_getitem H figsize Hf.
  assert (figsize = VList [a; b]) as -> by congruence.
  step_lift H width Hw. simpl in Hw. inversion Hw; subst width; clear Hw.
  apply bind_Ok_inv in H as (u8 & w8 & H8 & H).
  apply when_setitem_Ok_inv in H8.
  set (a' := if is_None a
             then VInt (Z.of_nat (List.length (Dict.keys node_properties))
                        * 95)
             else a).
  assert (config_item w8 config "figsize" = Some (VList [a'; b])) as Hf8.
  { subst a'. destruct H8 as [[-> H8]|[-> ->]]; [exact H8 | exact Hf]. }
  clear H8.
  step_getitem H figsize' Hf'.
  assert (figsize' = VList [a'; b]) as -> by congruence.
  step_lift H height Hh. simpl in Hh. inversion Hh; subst height; clear Hh.
  apply bind_Ok_inv in H as (u11 & w11 & H11 & H).
  apply when_setitem_Ok_inv in H11.
  assert (config_item w11 config "figsize"
          = Some (VList [a'; if is_None b then VInt 400 else b])) as Hf11.
  { destruct H11 as [[-> H11]|[-> ->]]; [exact H11 | exact Hf']. }
  apply (preserves_Ok (fun w0 => config_item w0 config "figsize")) in H;
    [|solve [unfold get_data_ready_for_d3, write_html; preserve]].
  simpl in H. congruence.
Qed.


(** X16: rendering a table a second time with automatic bounds fails: after
    a call of [show] that returned, the [y] column of the table holds texts,
    so on a table with at least one row a call of [show] whose [ylim] is
    [[None, None]] or empty ends in a [TypeError] at the subtraction and
    changes nothing. *)
Theorem show_again_auto_ylim (df config : loc)
  (node_properties : Dict.t node) (lg : logger) (w w' : world) (c : loc)
  (fr : frame) (config2 : loc) (node_properties2 : Dict.t node)
  (lg2 : logger) (ylim : value) :
  show df config node_properties lg w = (Ok c, w') ->
  nth_error (frames w) df = Some fr ->
  fr <> [] ->
  config_item w' config2 "ylim" = Some ylim ->
  eq_None_None ylim = true \/ py_len ylim = Ok 0 ->
  show df config2 node_properties2 lg2 w' = (Raise TypeError, w').
Proof.
  intros H Hfr Hne Hyl Hauto.
  pose proof (show_frame_after _ _ _ _ _ _ _ _ H Hfr) as Hfr'.
  unfold show, convert_dataframe_dict.
  rewrite (bind_Ok _ _ _ _ _ (getitem_result config2 "ylim" w' ylim Hyl)).
  assert ((if eq_None_None ylim then ret true
           else n <- lift (py_len ylim) ;; ret (n =? 0)%nat) w'
          = (Ok true, w')) as Hstep.
  { destruct (eq_None_None ylim); [reflexivity|].
    destruct Hauto as [Hauto|Hauto]; [discriminate|].
    unfold bind, lift. now rewrite Hauto. }
  rewrite (bind_Ok _ _ _ _ _ Hstep). clear Hstep.
  apply bind_Raise. simpl when.
  assert (getframe df w' = (Ok (y_as_str fr), w')) as Hgf.
  { unfold getframe. now rewrite Hfr'. }
  rewrite (bind_Ok _ _ _ _ _ Hgf).
  rewrite (padded_range_of_texts fr Hne). reflexivity.
Qed.

(** X17: [get_data_ready_for_d3] changes the [y] column only, and once: the
    index and the other six columns of the table are as before, and a second
    call returns the same JSON text and leaves the table as the first call
    left it. *)
Theorem get_data_ready_for_d3_again (df : loc) (w : world) (fr : frame) :
  nth_error (frames w) df = Some fr ->
  index_labels (y_as_str fr) = index_labels fr /\
  col_x (y_as_str fr) = col_x fr /\
  col_color (y_as_str fr) = col_color fr /\
  col_size (y_as_str fr) = col_size fr /\
  col_stroke (y_as_str fr) = col_stroke fr /\
  col_opacity (y_as_str fr) = col_opacity fr /\
  col_tooltip (y_as_str fr) = col_tooltip fr /\
  get_data_ready_for_d3 df (snd (get_data_ready_for_d3 df w))
  = (Ok (to_json (y_as_str fr)), snd (get_data_ready_for_d3 df w)).
Proof.
  intros Hfr.
  unfold index_labels, col_x, col_color, col_size, col_stroke, col_opacity,
    col_tooltip, rows, y_as_str.
  rewrite !map_map. simpl.
  repeat (split; [reflexivity|]).
  fold (y_as_str fr).
  rewrite (get_data_ready_for_d3_result df w fr Hfr). simpl.
  pose proof (nth_error_Some_lt _ _ _ Hfr) as Hlt.
  rewrite (get_data_ready_for_d3_result df _ (y_as_str fr))
    by (simpl; now apply nth_error_list_set_eq).
  simpl. now rewrite y_as_str_twice, list_set_twice.
Qed.

(** X18: a call of [show] that returns has written, at the path of the
    configuration, the page rendered from the JSON text of the table with
    its [y] as texts, from the mouse bindings that the tooltips call for,
    from the category order it left in the configuration and from the
    title. *)
Theorem show_writes_page (df config : loc) (node_properties : Dict.t node)
  (lg : logger) (w w' : world) (c : loc) (fr : frame) :
  show df config node_properties lg w = (Ok c, w') ->
  nth_error (frames w) df = Some fr ->
  exists path content,
    config_item w config "filepath" = Some (VStr path) /\
    Dict.get path (files w') = Some (render content) /\
    Dict.get "json_data" content = Some (VStr (to_json (y_as_str fr))) /\
    Dict.get "MOUSEOVER" content
    = Some (VStr (if tooltips_off fr then "" else mouseover_binding)) /\
    Dict.get "MOUSEMOVE" content
    = Some (VStr (if tooltips_off fr then "" else mousemove_binding)) /\
    Dict.get "MOUSELEAVE" content
    = Some (VStr (if tooltips_off fr then "" else mouseleave_binding)) /\
    Dict.get "X_ORDER" content = config_item w' config "x_order" /\
    Dict.get "TITLE" content = config_item w config "title".
Proof.
  intros H Hfr.
  pose proof (show_tooltip_bindings_of_run _ _ _ _ _ _ _ _ H Hfr)
    as (Gmo & Gmm & Gml).
  assert (forall k,
             ~ In k show_options ->
             config_item w' config k = config_item w config k) as Hkeep.
  { intros k Hk.
    assert (preserves (fun w0 => config_item w0 config k)
              (show df config node_properties lg)) as Hp
        by (unfold show, convert_dataframe_dict, get_data_ready_for_d3,
              write_html; preserve).
    apply (preserves_Ok _ _ _ _ _ Hp H). }
  apply show_Ok_inv in H as (w2 & w3 & X & Hfr2 & _ & Hser & Hwr & _).
  rewrite <- Hfr2 in Hfr.
  rewrite (get_data_ready_for_d3_result df w2 fr Hfr) in Hser.
  inversion Hser; subst X w3; clear Hser.
  pose proof Hwr as Hd.
  apply (preserves_Ok dicts) in Hd; [|apply write_html_dicts].
  assert (forall k, config_item
                      (mkWorld (dicts w2) (list_set df (y_as_str fr) (frames w2))
                               (files w2) (log w2)) config k
                    = config_item w' config k) as Hsame.
  { intros k. unfold config_item. now rewrite Hd. }
  apply write_html_Ok_inv in Hwr
    as (title & figsize & ylim & x_order & bins & mo & mm & ml & width
        & height & min_y & max_y & path & overwrite & Ht & _ & _ & _ & _ & _
        & _ & Hx & _ & Hmo & Hmm & Hml & Hp & _ & Hfiles).
  rewrite Hsame in Ht, Hx, Hmo, Hmm, Hml, Hp.
  eexists. eexists.
  split; [rewrite <- Hp; symmetry; apply Hkeep; simpl;
          intuition discriminate|].
  rewrite Hfiles. split; [apply dict_get_set_same|].
  simpl Dict.get.
  rewrite <- Gmo, <- Gmm, <- Gml, Hmo, Hmm, Hml, Hx.
  rewrite <- (Hkeep "title") by (simpl; intuition discriminate).
  rewrite Ht. repeat split; reflexivity.
Qed.

End RendererMore.

(** ** The further properties on concrete inputs *)

(** Two rows and a list of one colour. *)
Lemma unchecked_arrays_example :
  set_edge_properties (E := sample_externals) ["a"; "b"] [VInt 1; VInt 2] 1
    (VList [VStr "#ff0000"]) default_size default_stroke default_opacity
    default_tooltip LoggerNone configured_world
  = (Raise ValueError, configured_world).
Proof.
  apply (set_edge_properties_unchecked_arrays (E := sample_externals)).
  - reflexivity.
  - left. reflexivity.
Defined.

(** A dict without [x_order], and a category order of numbers. *)
Lemma x_order_errors_example :
  fst (set_edge_properties (E := sample_externals) ["a"; "b"]
         [VInt 1; VInt 2] 1 default_color default_size default_stroke
         default_opacity default_tooltip Logger caller_world)
  = Raise KeyError /\
  fst (set_edge_properties (E := sample_externals) ["a"; "b"]
         [VInt 1; VInt 2] 1 default_color default_size default_stroke
         default_opacity default_tooltip Logger numeric_order_world)
  = Raise TypeError.
Proof.
  split.
  - apply (proj1 (set_edge_properties_x_order_errors (E := sample_externals)
                    ["a"; "b"] [VInt 1; VInt 2] 1 default_color default_size
                    default_stroke default_opacity default_tooltip
                    caller_world [] eq_refl eq_refl eq_refl eq_refl)).
    reflexivity.
  - apply (proj2 (set_edge_properties_x_order_errors (E := sample_externals)
                    ["a"; "b"] [VInt 1; VInt 2] 1 default_color default_size
                    default_stroke default_opacity default_tooltip
                    numeric_order_world
                    (nth 1 (dicts numeric_order_world) [])
                    eq_refl eq_refl eq_refl eq_refl)
             (VList [VInt 1; VInt 2])); reflexivity.
Defined.

(** The defaults on two rows: size 5, white stroke, opacity 0.8 and the
    empty tooltip on both. *)
Lemma broadcasts_example :
  Forall (fun v => v = default_size) (col_size prepared_table) /\
  Forall (fun v => v = default_stroke) (col_stroke prepared_table) /\
  Forall (fun v => v = default_opacity) (col_opacity prepared_table) /\
  Forall (fun v => v = default_tooltip) (col_tooltip prepared_table).
Proof.
  pose proof
    (set_edge_properties_broadcasts (E := sample_externals) ["a"; "b"]
       [VInt 1; VInt 2] 1 default_color default_size default_stroke
       default_opacity default_tooltip Logger configured_world
       (snd (set_edge_properties (E := sample_externals) ["a"; "b"]
               [VInt 1; VInt 2] 1 default_color default_size default_stroke
               default_opacity default_tooltip Logger configured_world))
       prepared_table) as H.
  destruct H as (Hs & Hk & Ho & Ht & _); [vm_compute; reflexivity|].
  repeat split; [apply Hs | apply Hk | apply Ho | apply Ht]; reflexivity.
Defined.

(** The colours of the two prepared rows are those of their [y]. *)
Lemma colours_after_cleaning_example :
  exists cmap,
    config_item configured_world 1 "cmap" = Some cmap /\
    col_color prepared_table
    = @fromlist sample_externals (col_y prepared_table) cmap.
Proof.
  apply (set_edge_properties_colours_after_cleaning (E := sample_externals)
           ["a"; "b"] [VInt 1; VInt 2] 1 default_size default_stroke
           default_opacity default_tooltip Logger configured_world
           (snd (set_edge_properties (E := sample_externals) ["a"; "b"]
                   [VInt 1; VInt 2] 1 default_color default_size
                   default_stroke default_opacity default_tooltip Logger
                   configured_world))
           prepared_table).
  vm_compute; reflexivity.
Defined.

(** The labels b, a, b. *)
Lemma distinct_and_complete_example :
  exists uilabels,
    fst (set_labels (E := sample_externals) (LabelSeq ["b"; "a"; "b"])
           LoggerNone caller_world) = Ok uilabels /\
    NoDup uilabels /\
    (forall v, In v uilabels <-> In v ["b"; "a"; "b"]) /\
    (NoDup ["b"; "a"; "b"] -> uilabels = ["b"; "a"; "b"]).
Proof.
  apply (set_labels_distinct_and_complete (E := sample_externals)
           (LabelSeq ["b"; "a"; "b"]) ["b"; "a"; "b"] LoggerNone
           caller_world).
  - reflexivity.
  - discriminate.
Defined.

Lemma lookup_example :
  exists dict_labels,
    fst (set_node_properties (E := sample_externals)
           (LabelSeq ["b"; "a"; "b"]) (VStr "tab20") LoggerNone caller_world)
    = Ok dict_labels /\
    (forall v,
        In v ["b"; "a"; "b"] ->
        exists i,
          Dict.get v dict_labels = Some (mkNode i v) /\
          i < List.length dict_labels /\
          nth_error (Dict.keys dict_labels) i = Some v) /\
    (forall v, ~ In v ["b"; "a"; "b"] -> Dict.get v dict_labels = None).
Proof.
  apply (set_node_properties_lookup (E := sample_externals)
           (LabelSeq ["b"; "a"; "b"]) ["b"; "a"; "b"] (VStr "tab20")
           LoggerNone caller_world).
  - reflexivity.
  - discriminate.
Defined.

(** Two calls without a [config], the second with another title. *)
Lemma default_is_shared_example :
  exists w1 w2 d2,
    set_config (E := sample_externals) None [] caller_world
    = (Ok set_config_default, w1) /\
    set_config (E := sample_externals) None [("title", VStr "Second")] w1
    = (Ok set_config_default, w2) /\
    nth_error (dicts w2) set_config_default = Some d2 /\
    (forall k default,
        In (k, default) option_defaults ->
        Dict.get k d2
        = Some (kwargs_get [("title", VStr "Second")] k default)).
Proof.
  apply (set_config_default_is_shared (E := sample_externals) []
           [("title", VStr "Second")] caller_world []).
  reflexivity.
Defined.

(** Building the configuration in the caller's dict and rendering. *)
Lemma set_config_then_show_example :
  exists w1 w2,
    set_config (E := sample_externals) (Some 1) [("bins", VInt 7)]
      table_world = (Ok 1, w1) /\
    show (E := sample_externals) 0 1 two_nodes LoggerNone w1 = (Ok 1, w2).
Proof.
  apply (set_config_then_show (E := sample_externals) (Some 1)
           [("bins", VInt 7)] 0 two_nodes LoggerNone table_world []
           table_0_10 [0%float; 10%float] "violin.html");
    reflexivity.
Defined.

(** [overwrite] false and an old page at the path: the page is replaced and
    the other file stays. *)
Lemma replaces_page_example :
  exists path content,
    config_item no_overwrite_world 1 "filepath" = Some (VStr path) /\
    Dict.get path
      (files (snd (write_html (E := sample_externals) "[]" 1 LoggerNone
                     no_overwrite_world)))
    = Some (@render sample_externals content) /\
    Dict.get "json_data" content = Some (VStr "[]") /\
    Dict.get "TITLE" content = config_item no_overwrite_world 1 "title" /\
    Dict.get "X_ORDER" content = config_item no_overwrite_world 1 "x_order" /\
    Dict.get "BINS" content = config_item no_overwrite_world 1 "bins" /\
    Dict.get "MOUSEOVER" content
    = config_item no_overwrite_world 1 "mouseover" /\
    Dict.get "MOUSEMOVE" content
    = config_item no_overwrite_world 1 "mousemove" /\
    Dict.get "MOUSELEAVE" content
    = config_item no_overwrite_world 1 "mouseleave" /\
    (forall p,
        p <> path ->
        Dict.get p
          (files (snd (write_html (E := sample_externals) "[]" 1 LoggerNone
                         no_overwrite_world)))
        = Dict.get p (files no_overwrite_world)).
Proof.
  apply (write_html_replaces_page (E := sample_externals) "[]" 1 LoggerNone
           no_overwrite_world).
  vm_compute; reflexivity.
Defined.

(** A dict without any option: [KeyError], and the store is as it was. *)
Lemma raises_before_writing_example :
  fst (write_html (E := sample_externals) "[]" 1 LoggerNone caller_world)
  = Raise KeyError /\
  snd (write_html (E := sample_externals) "[]" 1 LoggerNone caller_world)
  = caller_world.
Proof.
  split; [reflexivity|].
  apply (write_html_raises_before_writing (E := sample_externals) "[]" 1
           LoggerNone caller_world _ KeyError).
  reflexivity.
Defined.

(** Two label properties and [figsize] [[None, None]]: 190 by 400. *)
Lemma figsize_defaults_example :
  config_item rendered_world 1 "figsize" = Some (VList [VInt 190; VInt 400]).
Proof.
  apply (show_figsize_defaults (E := sample_externals) 0 1 two_nodes
           LoggerNone render_world rendered_world 1 VNone VNone).
  - vm_compute; reflexivity.
  - reflexivity.
Defined.


(** Rendering with the dict at 1, then with the fresh dict at 0. *)
Lemma show_again_example :
  show (E := sample_externals) 0 0 two_nodes LoggerNone
    (snd (show (E := sample_externals) 0 1 two_nodes LoggerNone twin_world))
  = (Raise TypeError,
     snd (show (E := sample_externals) 0 1 two_nodes LoggerNone twin_world)).
Proof.
  apply (show_again_auto_ylim (E := sample_externals) 0 1 two_nodes
           LoggerNone twin_world _ 1 table_0_10 0 two_nodes LoggerNone
           (VList [VNone; VNone])).
  - vm_compute; reflexivity.
  - reflexivity.
  - discriminate.
  - reflexivity.
  - left. reflexivity.
Defined.

Lemma serialize_again_example :
  index_labels (y_as_str (E := sample_externals) table_0_10) = [0; 1] /\
  col_x (y_as_str (E := sample_externals) table_0_10) = col_x table_0_10 /\
  col_color (y_as_str (E := sample_externals) table_0_10)
  = col_color table_0_10 /\
  col_size (y_as_str (E := sample_externals) table_0_10)
  = col_size table_0_10 /\
  col_stroke (y_as_str (E := sample_externals) table_0_10)
  = col_stroke table_0_10 /\
  col_opacity (y_as_str (E := sample_externals) table_0_10)
  = col_opacity table_0_10 /\
  col_tooltip (y_as_str (E := sample_externals) table_0_10)
  = col_tooltip table_0_10 /\
  get_data_ready_for_d3 (E := sample_externals) 0
    (snd (get_data_ready_for_d3 (E := sample_externals) 0 render_world))
  = (Ok (@to_json sample_externals
           (y_as_str (E := sample_externals) table_0_10)),
     snd (get_data_ready_for_d3 (E := sample_externals) 0 render_world)).
Proof.
  apply (get_data_ready_for_d3_again (E := sample_externals) 0 render_world
           table_0_10).
  reflexivity.
Defined.

(** The page of the table with [y] 0 and 10. *)
Lemma show_writes_page_example :
  exists path content,
    config_item render_world 1 "filepath" = Some (VStr path) /\
    Dict.get path (files rendered_world)
    = Some (@render sample_externals content) /\
    Dict.get "json_data" content
    = Some (VStr (@to_json sample_externals
                    (y_as_str (E := sample_externals) table_0_10))) /\
    Dict.get "MOUSEOVER" content
    = Some (VStr (if tooltips_off table_0_10 then ""
                  else mouseover_binding)) /\
    Dict.get "MOUSEMOVE" content
    = Some (VStr (if tooltips_off table_0_10 then ""
                  else mousemove_binding)) /\
    Dict.get "MOUSELEAVE" content
    = Some (VStr (if tooltips_off table_0_10 then ""
                  else mouseleave_binding)) /\
    Dict.get "X_ORDER" content = config_item rendered_world 1 "x_order" /\
    Dict.get "TITLE" content = config_item render_world 1 "title".
Proof.
  apply (show_writes_page (E := sample_externals) 0 1 two_nodes LoggerNone
           render_world rendered_world 1 table_0_10).
  - vm_compute; reflexivity.
  - reflexivity.
Defined.

(** Rendering the first table with the dict at 1, beside another
    configured dict and a second table: the other dict has its keys and its
    bin count, the configuration its title, and the second table its
    rows. *)
Lemma touches_only_example :
  option_map Dict.keys
    (nth_error
       (dicts (snd (show (E := sample_externals) 0 1 two_nodes LoggerNone
                      two_tables_world))) 0)
  = Some ["chart"; "title"; "filepath"; "figsize"; "showfig"; "overwrite";
          "bins"; "cmap"; "ylim"; "x_order"; "reset_properties"] /\
  config_item
    (snd (show (E := sample_externals) 0 1 two_nodes LoggerNone
            two_tables_world)) 0 "bins"
  = Some (VInt 20) /\
  config_item
    (snd (show (E := sample_externals) 0 1 two_nodes LoggerNone
            two_tables_world)) 1 "title"
  = Some (VStr "Violin - D3blocks") /\
  nth_error
    (frames (snd (show (E := sample_externals) 0 1 two_nodes LoggerNone
                    two_tables_world))) 1
  = Some (ints_table [3; 1; 2]%Z).
Proof.
  destruct (show_touches_only (E := sample_externals) 0 1 two_nodes
              LoggerNone two_tables_world) as (Hkeys & Hitem & Htable).
  split; [|split; [|split]].
  - rewrite Hkeys by discriminate. reflexivity.
  - apply Hitem; [left; discriminate | reflexivity | reflexivity].
  - apply Hitem; [right; simpl; intuition discriminate | reflexivity
                 | reflexivity].
  - apply Htable; [discriminate | reflexivity | reflexivity].
Defined.
